(** * tsdav: the request helpers, the DAV transport and the sync engine

    A shallow embedding of [dist/tsdav.esm.js] (with [src/collection.ts] for
    the typed view of the collection operations) and the properties of the
    specification that concern them.

    Conventions.
    - A JavaScript string is a [string]: a sequence of code units below 256.
    - An [async] function is a function into the result type [Res]; a rejected
      promise (a thrown error) is [Throw].  [Promise.all] over a list runs the
      computations from left to right.
    - A value that comes from the decoder (an [href], an [etag], a status) is
      a [JsVal], whatever type the code declares for it; a parameter of the
      caller has its declared type.  An operation that throws on a value of
      another type than the declared one (a method a number does not have, a
      conversion to a string that fails) returns [Throw TypeError].
    - The collaborators that are not part of the repository (the transport
      [fetch], the [xml-js] converter, the [URL] and [Date] classes, the
      number type of the platform and the properties of [Object.prototype])
      are interfaces; a reference instance of each is given after the code,
      to evaluate it on examples. *)

From Stdlib Require Import String Ascii List Bool ZArith Lia.
From Stdlib Require Import Numbers.DecimalString Numbers.DecimalNat.
Import ListNotations.
Open Scope string_scope.
Open Scope bool_scope.

Set Implicit Arguments.
Set Warnings "-register-all".

(** ** JavaScript strings *)

Module JsString.

(** White space and line terminators of ECMAScript among the code units
    below 256: TAB, LF, VT, FF, CR, SP and NBSP. *)
Definition is_ws (c : ascii) : bool :=
  let n := nat_of_ascii c in
  (Nat.eqb n 9 || Nat.eqb n 10 || Nat.eqb n 11 || Nat.eqb n 12
   || Nat.eqb n 13 || Nat.eqb n 32 || Nat.eqb n 160).

Definition is_empty (s : string) : bool :=
  match s with EmptyString => true | String _ _ => false end.

(** [s.trimStart()] *)
Fixpoint trimStart (s : string) : string :=
  match s with
  | EmptyString => EmptyString
  | String c s' => if is_ws c then trimStart s' else s
  end.

(** [s.trimEnd()] *)
Fixpoint trimEnd (s : string) : string :=
  match s with
  | EmptyString => EmptyString
  | String c s' =>
      let r := trimEnd s' in
      if is_ws c && is_empty r then EmptyString else String c r
  end.

(** [s.trim()] *)
Definition trim (s : string) : string := trimEnd (trimStart s).

(** [s.slice(-1)]: the last code unit, or the empty string. *)
Fixpoint slice_last1 (s : string) : string :=
  match s with
  | EmptyString => EmptyString
  | String c EmptyString => s
  | String _ s' => slice_last1 s'
  end.

(** [s.slice(0, -1)]: all but the last code unit. *)
Fixpoint slice_but_last (s : string) : string :=
  match s with
  | EmptyString => EmptyString
  | String _ EmptyString => EmptyString
  | String c s' => String c (slice_but_last s')
  end.

(** [s.slice(-n)] for a positive [n]: the last [n] code units (the whole
    string when it is shorter). *)
Definition slice_last (n : nat) (s : string) : string :=
  substring (String.length s - n) n s.

(** [s.includes(n)] *)
Fixpoint includes (s n : string) : bool :=
  prefix n s
  || match s with
     | EmptyString => false
     | String _ s' => includes s' n
     end.

(** [s.startsWith(n)] *)
Definition startsWith (s n : string) : bool := prefix n s.

Definition lower_char (c : ascii) : ascii :=
  let n := nat_of_ascii c in
  if (Nat.leb 65 n && Nat.leb n 90)
     || (Nat.leb 192 n && Nat.leb n 222 && negb (Nat.eqb n 215))
  then ascii_of_nat (n + 32) else c.

(** [s.toLowerCase()] *)
Fixpoint toLowerCase (s : string) : string :=
  match s with
  | EmptyString => EmptyString
  | String c s' => String (lower_char c) (toLowerCase s')
  end.

(** The decimal numeral of a natural number: [String(i)] for an index. *)
Definition of_nat (n : nat) : string := NilZero.string_of_uint (Nat.to_uint n).

(** [n] occurs in [s]: the mathematical reading of "contains". *)
Definition occurs_in (n s : string) : Prop :=
  exists pre post, s = pre ++ n ++ post.

End JsString.

Import JsString.

(** ** util/camelCase *)

(** [\w]: a letter, a digit or the underscore. *)
Definition is_word (c : ascii) : bool :=
  let n := nat_of_ascii c in
  (Nat.leb 65 n && Nat.leb n 90) || (Nat.leb 97 n && Nat.leb n 122)
  || (Nat.leb 48 n && Nat.leb n 57) || Nat.eqb n 95.

(** [c.toUpperCase()] on a code unit that [\w] matches. *)
Definition upper_char (c : ascii) : ascii :=
  let n := nat_of_ascii c in
  if Nat.leb 97 n && Nat.leb n 122 then ascii_of_nat (n - 32) else c.

(** [-] or [_] *)
Definition is_separator (c : ascii) : bool :=
  Ascii.eqb c "-" || Ascii.eqb c "_".

(** [camelCase(str)]: [str.replace(/([-_]\w)/g, (g) => g[1].toUpperCase())].
    The matches are taken from left to right and do not overlap. *)
Fixpoint camelCase (str : string) : string :=
  match str with
  | EmptyString => EmptyString
  | String c rest =>
      match rest with
      | String d rest' =>
          if is_separator c && is_word d
          then String (upper_char d) (camelCase rest')
          else String c (camelCase rest)
      | EmptyString => String c EmptyString
      end
  end.

(** ** util/requestHelpers *)

(** The tail of [urlEquals] and of [urlContains]: trim, drop one trailing
    slash. *)
Definition stripped (url : string) : string :=
  let trimmedUrl := trim url in
  if String.eqb (slice_last1 trimmedUrl) "/" then slice_but_last trimmedUrl
  else trimmedUrl.

(** [urlEquals(urlA, urlB)] on strings, with the two guards of
    [urlContains] on a falsy argument. *)
Definition urlEquals (urlA urlB : string) : bool :=
  if is_empty urlA && is_empty urlB then true
  else if is_empty urlA || is_empty urlB then false
  else
    let trimmedUrlA := trim urlA in
    let trimmedUrlB := trim urlB in
    if Z.ltb 1 (Z.abs (Z.of_nat (String.length trimmedUrlA)
                       - Z.of_nat (String.length trimmedUrlB)))
    then false
    else
      let strippedUrlA := stripped urlA in
      let strippedUrlB := stripped urlB in
      includes urlA strippedUrlB || includes urlB strippedUrlA.

(** [urlContains(urlA, urlB)] on strings.  An empty string is the falsy
    string; an [undefined] argument takes the same two guards as [""]. *)
Definition urlContains (urlA urlB : string) : bool :=
  if is_empty urlA && is_empty urlB then true
  else if is_empty urlA || is_empty urlB then false
  else
    let strippedUrlA := stripped urlA in
    let strippedUrlB := stripped urlB in
    includes urlA strippedUrlB || includes urlB strippedUrlA.


(** ** Regular expressions *)

(** The patterns the code tests a whole string against ([/^r$/.test(s)]).
    A character class is a predicate on code units. *)
Inductive Regex : Type :=
| Never
| Eps
| Chr (p : ascii -> bool)
| Seq (r1 r2 : Regex)
| Alt (r1 r2 : Regex)
| Star (r : Regex).

(** [r?] and [r+] *)
Definition Opt (r : Regex) : Regex := Alt Eps r.
Definition Plus (r : Regex) : Regex := Seq r (Star r).

Fixpoint nullable (r : Regex) : bool :=
  match r with
  | Never => false
  | Eps => true
  | Chr _ => false
  | Seq r1 r2 => nullable r1 && nullable r2
  | Alt r1 r2 => nullable r1 || nullable r2
  | Star _ => true
  end.

(** The pattern of the strings [s] such that [c s] matches [r]. *)
Fixpoint deriv (c : ascii) (r : Regex) : Regex :=
  match r with
  | Never => Never
  | Eps => Never
  | Chr p => if p c then Eps else Never
  | Seq r1 r2 =>
      if nullable r1 then Alt (Seq (deriv c r1) r2) (deriv c r2)
      else Seq (deriv c r1) r2
  | Alt r1 r2 => Alt (deriv c r1) (deriv c r2)
  | Star r1 => Seq (deriv c r1) (Star r1)
  end.

(** [/^r$/.test(s)] *)
Fixpoint regex_test (r : Regex) (s : string) : bool :=
  match s with
  | EmptyString => nullable r
  | String c s' => regex_test (deriv c r) s'
  end.

(** The strings of a pattern: the mathematical reading of a match. *)
Inductive Matches : Regex -> string -> Prop :=
| MEps : Matches Eps ""
| MChr (p : ascii -> bool) (c : ascii) :
    p c = true -> Matches (Chr p) (String c "")
| MSeq (r1 r2 : Regex) (s1 s2 : string) :
    Matches r1 s1 -> Matches r2 s2 -> Matches (Seq r1 r2) (s1 ++ s2)
| MAltL (r1 r2 : Regex) (s : string) : Matches r1 s -> Matches (Alt r1 r2) s
| MAltR (r1 r2 : Regex) (s : string) : Matches r2 s -> Matches (Alt r1 r2) s
| MStar0 (r : Regex) : Matches (Star r) ""
| MStarApp (r : Regex) (s1 s2 : string) :
    Matches r s1 -> Matches (Star r) s2 -> Matches (Star r) (s1 ++ s2).

(** [\d], a literal code unit, and a letter under the [i] flag *)
Definition digit : Regex :=
  Chr (fun c => let n := nat_of_ascii c in Nat.leb 48 n && Nat.leb n 57).
Definition lit (a : ascii) : Regex := Chr (Ascii.eqb a).
Definition lit_i (a : ascii) : Regex :=
  Chr (fun c => Ascii.eqb (lower_char c) (lower_char a)).

(** [\d\d], [(\.\d+)] and [(([+-]\d\d:\d\d)|Z)] *)
Definition two_digits : Regex := Seq digit digit.
Definition fraction : Regex := Seq (lit ".") (Plus digit).
Definition zone : Regex :=
  Alt (Seq (Alt (lit "+") (lit "-"))
           (Seq two_digits (Seq (lit ":") two_digits)))
      (lit_i "Z").

(** [/^\d{4}(-\d\d(-\d\d(T\d\d:\d\d(:\d\d)?(\.\d+)?(([+-]\d\d:\d\d)|Z)?)?)?)?$/i] *)
Definition ISO_8601 : Regex :=
  Seq (Seq two_digits two_digits)
      (Opt (Seq (lit "-")
        (Seq two_digits
          (Opt (Seq (lit "-")
            (Seq two_digits
              (Opt (Seq (lit_i "T")
                (Seq two_digits
                  (Seq (lit ":")
                    (Seq two_digits
                      (Seq (Opt (Seq (lit ":") two_digits))
                        (Seq (Opt fraction) (Opt zone)))))))))))))).

(** [/^\d{4}-\d\d-\d\dT\d\d:\d\d:\d\d(\.\d+)?(([+-]\d\d:\d\d)|Z)?$/i] *)
Definition ISO_8601_FULL : Regex :=
  Seq (Seq two_digits two_digits)
    (Seq (lit "-")
      (Seq two_digits
        (Seq (lit "-")
          (Seq two_digits
            (Seq (lit_i "T")
              (Seq two_digits
                (Seq (lit ":")
                  (Seq two_digits
                    (Seq (lit ":")
                      (Seq two_digits
                        (Seq (Opt fraction) (Opt zone)))))))))))).

(** ** Promises: results and thrown errors *)

Inductive Res (A : Type) : Type :=
| Ok (a : A)
| Throw (e : string).

Arguments Ok {A} a.
Arguments Throw {A} e.

Definition bind {A B : Type} (c : Res A) (k : A -> Res B) : Res B :=
  match c with
  | Ok a => k a
  | Throw e => Throw e
  end.

Notation "x <- c ;; k" := (bind c (fun x => k))
  (at level 61, c at next level, right associativity).

(** [Promise.all(xs.map(f))], and a [map] whose callback may throw. *)
Fixpoint mapM {A B : Type} (f : A -> Res B) (xs : list A) : Res (list B) :=
  match xs with
  | [] => Ok []
  | x :: rest => y <- f x ;; ys <- mapM f rest ;; Ok (y :: ys)
  end.

(** A [filter] whose callback may throw. *)
Fixpoint filterM {A : Type} (f : A -> Res bool) (xs : list A) : Res (list A) :=
  match xs with
  | [] => Ok []
  | x :: rest =>
      keep <- f x ;; ys <- filterM f rest ;;
      Ok (if keep then x :: ys else ys)
  end.

(** [xs.every(f)], [xs.some(f)] and [xs.find(f)] with a callback that may
    throw: the callback is not called after the element that decides. *)
Fixpoint everyM {A : Type} (f : A -> Res bool) (xs : list A) : Res bool :=
  match xs with
  | [] => Ok true
  | x :: rest => b <- f x ;; if b then everyM f rest else Ok false
  end.

Fixpoint someM {A : Type} (f : A -> Res bool) (xs : list A) : Res bool :=
  match xs with
  | [] => Ok false
  | x :: rest => b <- f x ;; if b then Ok true else someM f rest
  end.

Fixpoint findM {A : Type} (f : A -> Res bool) (xs : list A)
  : Res (option A) :=
  match xs with
  | [] => Ok None
  | x :: rest => b <- f x ;; if b then Ok (Some x) else findM f rest
  end.

(** [xs.reduce(f, acc)] with a callback that may throw. *)
Fixpoint reduceM {A B : Type} (f : B -> A -> Res B) (xs : list A) (acc : B)
  : Res B :=
  match xs with
  | [] => Ok acc
  | x :: rest => acc' <- f acc x ;; reduceM f rest acc'
  end.

Definition TypeError : string := "TypeError".

(** ** The platform: numbers and URLs *)

(** The number type of the platform, as far as the code uses it. *)
Class JsNumber : Type := {
  num : Type;
  (** [Number(s)] *)
  Number : string -> num;
  (** [Number.isNaN(n)] *)
  isNaN : num -> bool;
  (** [n.toString()] *)
  num_toString : num -> string;
  (** [n === m] *)
  num_eqb : num -> num -> bool;
  (** [!!n] *)
  num_truthy : num -> bool
}.

(** The [URL] class.  A base is passed by its [href]. *)
Class JsURL : Type := {
  URL : Type;
  (** [new URL(input, base)]; throws on an input that does not parse. *)
  URL_new : string -> option string -> Res URL;
  url_href : URL -> string;
  url_protocol : URL -> string;
  url_hostname : URL -> string;
  url_port : URL -> string;
  url_pathname : URL -> string;
  (** [u.port = p] and [u.protocol = p] *)
  url_set_port : URL -> string -> URL;
  url_set_protocol : URL -> string -> URL
}.

(** [Object.prototype], as far as a property read by a computed name
    reaches it. *)
Class JsPrototype : Type := {
  (** The property key that the inherited value [Object.prototype[name]]
      converts to (the text of a built-in function, or of
      [Object.prototype] itself for [__proto__]); [None] when
      [Object.prototype] has no property [name].  The inherited values are
      functions and objects: they are all truthy. *)
  prototype_key : string -> option string
}.

(** ** consts *)

Module DAVNamespace.
Definition CALENDAR_SERVER : string := "http://calendarserver.org/ns/".
Definition CALDAV_APPLE : string := "http://apple.com/ns/ical/".
Definition CALDAV : string := "urn:ietf:params:xml:ns:caldav".
Definition CARDDAV : string := "urn:ietf:params:xml:ns:carddav".
Definition DAV : string := "DAV:".
End DAVNamespace.

Module DAVNamespaceShort.
Definition CALDAV : string := "c".
Definition CARDDAV : string := "card".
Definition CALENDAR_SERVER : string := "cs".
Definition CALDAV_APPLE : string := "ca".
Definition DAV : string := "d".
End DAVNamespaceShort.

Definition DAVAttributeMap : list (string * string) :=
  [ (DAVNamespace.CALDAV, "xmlns:c");
    (DAVNamespace.CARDDAV, "xmlns:card");
    (DAVNamespace.CALENDAR_SERVER, "xmlns:cs");
    (DAVNamespace.CALDAV_APPLE, "xmlns:ca");
    (DAVNamespace.DAV, "xmlns:d") ].

(** [Object.values(ICALObjects)] *)
Definition ICALObjects : list string :=
  [ "VEVENT"; "VTODO"; "VJOURNAL"; "VFREEBUSY"; "VTIMEZONE"; "VALARM" ].

Section Model.

Context {NUM : JsNumber} {URLC : JsURL} {PROTO : JsPrototype}.

(** ** JavaScript values *)

(** The values the decoder produces and the request bodies are built from.
    An object is the list of its own properties in insertion order. *)
Inductive JsVal : Type :=
| JUndef
| JNull
| JBool (b : bool)
| JNum (n : num)
| JStr (s : string)
| JArr (items : list JsVal)
| JObj (fields : list (string * JsVal)).

Definition Obj : Type := list (string * JsVal).

(** [!!v] *)
Definition js_truthy (v : JsVal) : bool :=
  match v with
  | JUndef | JNull => false
  | JBool b => b
  | JNum n => num_truthy n
  | JStr s => negb (is_empty s)
  | JArr _ | JObj _ => true
  end.

(** [v === w].  Two objects or arrays are equal only when they are the same
    allocation; the values compared here come from different sources (a
    stored snapshot and a fresh response), so they never are. *)
Definition strict_eq (v w : JsVal) : bool :=
  match v, w with
  | JUndef, JUndef => true
  | JNull, JNull => true
  | JBool a, JBool b => Bool.eqb a b
  | JNum a, JNum b => num_eqb a b
  | JStr a, JStr b => String.eqb a b
  | _, _ => false
  end.

(** [v == null]: the values [??] and [?.] stop at. *)
Definition nullish (v : JsVal) : bool :=
  match v with
  | JUndef | JNull => true
  | _ => false
  end.

(** [v ?? w] *)
Definition nullish_or (v w : JsVal) : JsVal := if nullish v then w else v.

(** *** Objects *)

Fixpoint obj_lookup (o : Obj) (k : string) : option JsVal :=
  match o with
  | [] => None
  | (k', v) :: rest => if String.eqb k' k then Some v else obj_lookup rest k
  end.

(** [String(v)], and [v.toString()] on a value that is not nullish.  An
    object is converted by the [toString] it has: the inherited one gives
    [[object Object]], and an own property [toString], which holds a value
    and no function, makes the conversion throw a TypeError (the inherited
    [valueOf] returns the object, which is no primitive).  An array joins
    the strings of its items. *)
Fixpoint js_toString (v : JsVal) : Res string :=
  match v with
  | JUndef => Ok "undefined"
  | JNull => Ok "null"
  | JBool true => Ok "true"
  | JBool false => Ok "false"
  | JNum n => Ok (num_toString n)
  | JStr s => Ok s
  | JArr items =>
      (fix join (l : list JsVal) : Res string :=
         match l with
         | [] => Ok ""
         | x :: rest =>
             sx <- (if nullish x then Ok "" else js_toString x) ;;
             match rest with
             | [] => Ok sx
             | _ :: _ => sr <- join rest ;; Ok (sx ++ "," ++ sr)
             end
         end) items
  | JObj fields =>
      match obj_lookup fields "toString" with
      | Some _ => Throw TypeError
      | None => Ok "[object Object]"
      end
  end.

(** [o[k]] on an object, for a name [k] that [Object.prototype] does not
    have (the fixed names the code reads are of this kind). *)
Definition obj_get (o : Obj) (k : string) : JsVal :=
  match obj_lookup o k with
  | Some v => v
  | None => JUndef
  end.

(** [o[k] = v]: an existing key keeps its place. *)
Fixpoint obj_set (o : Obj) (k : string) (v : JsVal) : Obj :=
  match o with
  | [] => [(k, v)]
  | (k', v') :: rest =>
      if String.eqb k' k then (k', v) :: rest else (k', v') :: obj_set rest k v
  end.

(** [Object.assign(target, source)] on the own properties of [source] *)
Definition obj_assign (target source : Obj) : Obj :=
  fold_left (fun acc kv => obj_set acc (fst kv) (snd kv)) source target.

Fixpoint indexed_from {A : Type} (i : nat) (l : list A) : list (string * A) :=
  match l with
  | [] => []
  | x :: rest => (of_nat i, x) :: indexed_from (S i) rest
  end.

Fixpoint chars (s : string) : list JsVal :=
  match s with
  | EmptyString => []
  | String c s' => JStr (String c EmptyString) :: chars s'
  end.

(** The own enumerable properties of a value: what a spread, [Object.keys]
    and [Object.entries] see. *)
Definition own_entries (v : JsVal) : Obj :=
  match v with
  | JObj fields => fields
  | JArr items => indexed_from 0 items
  | JStr s => indexed_from 0 (chars s)
  | _ => []
  end.

(** [Object.keys(v)]: throws on [undefined] and [null]. *)
Definition Object_keys (v : JsVal) : Res (list string) :=
  if nullish v then Throw TypeError else Ok (map fst (own_entries v)).

(** [v.k] for a data property [k]: throws on [undefined] and [null]; a
    value without the property gives [undefined].  The names read by the
    code are never built-in properties of strings, numbers or arrays. *)
Definition js_get (v : JsVal) (k : string) : Res JsVal :=
  match v with
  | JUndef | JNull => Throw TypeError
  | JObj fields => Ok (obj_get fields k)
  | _ => Ok JUndef
  end.

(** [v?.k] *)
Definition js_get_opt (v : JsVal) (k : string) : JsVal :=
  match v with
  | JObj fields => obj_get fields k
  | _ => JUndef
  end.

(** [Array.isArray(v) ? v : [v]] *)
Definition as_array (v : JsVal) : list JsVal :=
  match v with
  | JArr items => items
  | _ => [v]
  end.

(** ** util/nativeType *)

(** [nativeType(value)]: the text of an element as the decoder stores it. *)
Definition nativeType (value : string) : JsVal :=
  let nValue := Number value in
  if negb (isNaN nValue) then JNum nValue
  else
    let bValue := toLowerCase value in
    if String.eqb bValue "true" then JBool true
    else if String.eqb bValue "false" then JBool false
    else JStr value.

(** ** util/requestHelpers, continued *)

(** The key [[DAVAttributeMap[curr]]] of a property: the own property of
    the map, the inherited property of [Object.prototype], or
    [undefined]. *)
Definition attribute_name (ns : string) : string :=
  match find (fun kv => String.eqb (fst kv) ns) DAVAttributeMap with
  | Some kv => snd kv
  | None =>
      match prototype_key ns with
      | Some key => key
      | None => "undefined"
      end
  end.

(** [urlContains(urlA, urlB)] on values.  A falsy value is caught by one of
    the two guards; past them both values are truthy, and one that is no
    string has no [trim] to call. *)
Definition urlContains_val (urlA urlB : JsVal) : Res bool :=
  if negb (js_truthy urlA) && negb (js_truthy urlB) then Ok true
  else if negb (js_truthy urlA) || negb (js_truthy urlB) then Ok false
  else
    match urlA, urlB with
    | JStr a, JStr b => Ok (urlContains a b)
    | _, _ => Throw TypeError
    end.

(** [getDAVAttribute(nsArr)] *)
Definition getDAVAttribute (nsArr : list string) : Obj :=
  fold_left (fun prev curr => obj_set prev (attribute_name curr) (JStr curr))
            nsArr [].

(** [cleanupFalsy(obj)] on an object *)
Definition cleanupFalsy (obj : Obj) : Obj :=
  fold_left (fun prev kv =>
               if js_truthy (snd kv) then obj_set prev (fst kv) (snd kv)
               else prev)
            obj [].

(** [cleanupFalsy(headers)] on headers that may be [undefined]:
    [Object.entries(undefined)] throws. *)
Definition cleanupFalsy_opt (headers : option Obj) : Res Obj :=
  match headers with
  | Some h => Ok (cleanupFalsy h)
  | None => Throw TypeError
  end.

(** [{...headers}] and [Object.assign(target, headers)] on headers that may
    be [undefined] *)
Definition spread_opt (headers : option Obj) : Obj :=
  match headers with
  | Some h => h
  | None => []
  end.


(** ** The collaborators of a run *)

(** The second argument of [fetch]. *)
Record FetchInit : Type := {
  fi_method : string;
  fi_headers : option Obj;
  fi_body : JsVal;
  fi_redirect : option string
}.

(** What the code reads of a transport response; [resp_text] is the body,
    read to its end. *)
Record Response : Type := {
  resp_url : string;
  resp_status : Z;
  resp_statusText : string;
  resp_ok : bool;
  resp_headers_get : string -> option string;
  resp_text : string
}.

(** The transport and the converter of [xml-js].  [js2xml] receives the
    [elementNameFn] of the call; [xml2js] stands for [convert.xml2js] under
    the options of [davRequest]: a text node is stored as [nativeType] of its
    text, names lose their prefix and are camelCased, [xmlns] attributes are
    dropped. *)
Record Env : Type := {
  fetch : string -> FetchInit -> Res Response;
  js2xml : JsVal -> (string -> string) -> string;
  xml2js : string -> Res JsVal
}.

(** ** request *)

Definition __PROXY_URL__ : string := "http://localhost:8001/".

Record DAVRequest : Type := {
  method : string;
  headers : option Obj;
  namespace : option string;
  body : JsVal;
  attributes : JsVal
}.

Record DAVRequestParams : Type := {
  dr_url : string;
  dr_init : DAVRequest;
  dr_convertIncoming : option bool;
  dr_parseOutgoing : option bool;
  dr_proxyUrl : option string
}.

(** The per-resource response envelope.  [href] is declared
    [string | undefined] and holds what the decoder gives: the text of an
    [href] element is stored as its [nativeType], a number or a boolean for
    some texts.  [status] is an integer-valued number; [2^1024], which no
    number is, stands for [Infinity]. *)
Record DAVResponse : Type := {
  raw : JsVal;
  href : JsVal;
  status : Z;
  statusText : string;
  ok : bool;
  error : JsVal;
  responsedescription : JsVal;
  props : option Obj
}.

Definition is_line_terminator (c : ascii) : bool :=
  let n := nat_of_ascii c in Nat.eqb n 10 || Nat.eqb n 13.

(** [/^.+:.+/.test(name)] *)
Fixpoint has_namespace_from (seen : bool) (name : string) : bool :=
  match name with
  | EmptyString => false
  | String c rest =>
      if is_line_terminator c then false
      else if seen && Ascii.eqb c ":"
                   && match rest with
                      | EmptyString => false
                      | String d _ => negb (is_line_terminator d)
                      end
      then true
      else has_namespace_from true rest
  end.

Definition has_namespace (name : string) : bool :=
  has_namespace_from false name.

(** The [elementNameFn] of the outgoing conversion: add the namespace to all
    keys without namespace. *)
Definition elementNameFn (namespace : option string) (name : string) : string :=
  match namespace with
  | Some ns =>
      if negb (is_empty ns) && negb (has_namespace name)
      then ns ++ ":" ++ name
      else name
  | None => name
  end.

Definition is_digit (c : ascii) : bool :=
  let n := nat_of_ascii c in Nat.leb 48 n && Nat.leb n 57.

(** The longest prefix whose code units satisfy [p], and the rest. *)
Fixpoint span (p : ascii -> bool) (s : string) : string * string :=
  match s with
  | EmptyString => (EmptyString, EmptyString)
  | String c rest =>
      if p c then let (a, b) := span p rest in (String c a, b)
      else (EmptyString, s)
  end.

Fixpoint all_chars (p : ascii -> bool) (s : string) : bool :=
  match s with
  | EmptyString => true
  | String c rest => p c && all_chars p rest
  end.

(** [/^\S+\s(?<status>\d+)\s(?<statusText>.+)$/.exec(s)]: the groups
    [(status, statusText)] of the match. *)
Definition statusRegex_exec (s : string) : option (string * string) :=
  let (word, rest1) := span (fun c => negb (is_ws c)) s in
  if is_empty word then None
  else
    match rest1 with
    | EmptyString => None
    | String _ rest2 =>
        let (digits, rest3) := span is_digit rest2 in
        if is_empty digits then None
        else
          match rest3 with
          | EmptyString => None
          | String w text =>
              if is_ws w && negb (is_empty text)
                 && all_chars (fun c => negb (is_line_terminator c)) text
              then Some (digits, text)
              else None
          end
    end.

(** The integer a string of decimal digits denotes. *)
Definition decimal_value (digits : string) : Z :=
  fold_left (fun acc c => (acc * 10 + Z.of_nat (nat_of_ascii c - 48))%Z)
            (list_ascii_of_string digits) 0%Z.

(** The number value of a natural number: the nearest double, ties to the
    even significand.  A number below [2^53] is exact; beyond the largest
    double the value is [Infinity], written [2^1024]. *)
Definition nearest_double (z : Z) : Z :=
  if Z.ltb z (2 ^ 53) then z
  else
    let e := (Z.log2 z - 52)%Z in
    let q := Z.shiftr z e in
    let r := (z - Z.shiftl q e)%Z in
    let half := Z.shiftl 1 (e - 1) in
    let q' := if Z.ltb half r || (Z.eqb r half && Z.odd q)
              then (q + 1)%Z else q in
    let v := Z.shiftl q' e in
    if Z.leb (2 ^ 1024) v then (2 ^ 1024)%Z else v.

(** [Number.parseInt(digits, 10)] on a string of decimal digits: the
    number value of the integer the digits denote.  (This is the reading
    of V8; for a numeral of more than 20 digits the standard lets a
    platform read the digits after the 20th as zeros.) *)
Definition parseInt10 (digits : string) : Z :=
  nearest_double (decimal_value digits).

Definition default_bool (o : option bool) (d : bool) : bool :=
  match o with Some b => b | None => d end.

(** The body sent: the encoded description, or the body as given. *)
Definition davRequest_xmlBody (E : Env) (params : DAVRequestParams) : JsVal :=
  let init := dr_init params in
  if default_bool (dr_convertIncoming params) true
  then JStr (js2xml E
               (JObj (obj_set
                        (obj_assign
                           [("_declaration",
                             JObj [("_attributes",
                                    JObj [("version", JStr "1.0");
                                          ("encoding", JStr "utf-8")])])]
                           (own_entries (body init)))
                        "_attributes" (attributes init)))
               (elementNameFn (namespace init)))
  else body init.

(** The two arguments of the [fetch] call of [davRequest]. *)
Definition davRequest_fetch_url (params : DAVRequestParams) : string :=
  __PROXY_URL__ ++ dr_url params.

Definition davRequest_fetch_init (E : Env) (params : DAVRequestParams)
  : Res FetchInit :=
  let init := dr_init params in
  cleaned <- cleanupFalsy_opt (headers init) ;;
  Ok {| fi_headers :=
          Some (obj_assign [("Content-Type", JStr "text/xml;charset=UTF-8")]
                           cleaned);
        fi_body := davRequest_xmlBody E params;
        fi_method := method init;
        fi_redirect := None |}.

(** The response returned when the body is not parsed. *)
Definition synthetic_response (davResponse : Response) : DAVResponse :=
  {| href := JStr (resp_url davResponse);
     ok := resp_ok davResponse;
     status := resp_status davResponse;
     statusText := resp_statusText davResponse;
     raw := JStr (resp_text davResponse);
     error := JUndef;
     responsedescription := JUndef;
     props := None |}.

(** [!davResponse.headers.get('content-type')?.includes('xml')] *)
Definition not_xml (davResponse : Response) : bool :=
  match resp_headers_get davResponse "content-type" with
  | Some ct => negb (includes ct "xml")
  | None => true
  end.

(** The callback of [responseBodies.map] *)
Definition davRequest_response (davResponse : Response) (result : JsVal)
           (responseBody : JsVal) : Res DAVResponse :=
  if negb (js_truthy responseBody)
  then Ok {| status := resp_status davResponse;
             statusText := resp_statusText davResponse;
             ok := resp_ok davResponse;
             raw := JUndef; href := JUndef; error := JUndef;
             responsedescription := JUndef; props := None |}
  else
    status_v <- js_get responseBody "status" ;;
    status_text <- js_toString status_v ;;
    let matchArr := statusRegex_exec status_text in
    href_v <- js_get responseBody "href" ;;
    error_v <- js_get responseBody "error" ;;
    responsedescription_v <- js_get responseBody "responsedescription" ;;
    propstat_v <- js_get responseBody "propstat" ;;
    Ok {| raw := result;
          href := href_v;
          status := match matchArr with
                    | Some groups => parseInt10 (fst groups)
                    | None => resp_status davResponse
                    end;
          statusText := match matchArr with
                        | Some groups => snd groups
                        | None => resp_statusText davResponse
                        end;
          ok := negb (js_truthy error_v);
          error := error_v;
          responsedescription := responsedescription_v;
          props :=
            Some (fold_left
                    (fun prev curr =>
                       obj_assign prev (own_entries (js_get_opt curr "prop")))
                    (as_array propstat_v) []) |}.

(** What [davRequest] makes of the transport response. *)
Definition davRequest_receive (E : Env) (params : DAVRequestParams)
           (davResponse : Response) : Res (list DAVResponse) :=
  let resText := resp_text davResponse in
  if negb (resp_ok davResponse)
     || not_xml davResponse
     || negb (default_bool (dr_parseOutgoing params) true)
  then Ok [synthetic_response davResponse]
  else
    result <- xml2js E resText ;;
    multistatus <- js_get result "multistatus" ;;
    response <- js_get multistatus "response" ;;
    let responseBodies := as_array response in
    mapM (davRequest_response davResponse result) responseBodies.

(** [davRequest(params)] *)
Definition davRequest (E : Env) (params : DAVRequestParams)
  : Res (list DAVResponse) :=
  fetchInit <- davRequest_fetch_init E params ;;
  davResponse <- fetch E (davRequest_fetch_url params) fetchInit ;;
  davRequest_receive E params davResponse.

(** [propfind(params)] *)
Definition propfind (E : Env) (url : string) (props : JsVal)
           (depth : JsVal) (headers : option Obj) (proxyUrl : option string)
  : Res (list DAVResponse) :=
  davRequest E
    {| dr_url := url;
       dr_init :=
         {| method := "PROPFIND";
            headers :=
              Some (cleanupFalsy
                      (obj_assign [("depth", depth)] (spread_opt headers)));
            namespace := Some DAVNamespaceShort.DAV;
            body :=
              JObj [("propfind",
                     JObj [("_attributes",
                            JObj (getDAVAttribute
                                    [DAVNamespace.CALDAV;
                                     DAVNamespace.CALDAV_APPLE;
                                     DAVNamespace.CALENDAR_SERVER;
                                     DAVNamespace.CARDDAV;
                                     DAVNamespace.DAV]));
                           ("prop", props)])];
            attributes := JUndef |};
       dr_convertIncoming := None;
       dr_parseOutgoing := None;
       dr_proxyUrl := Some (match proxyUrl with Some p => p | None => "" end)
    |}.


(** ** types/models *)

(** [DAVObject].  Its [url] and [etag] hold what the decoder gave for the
    [href] and the [getetag] of a response.  [data] is an optional
    property: [None] is an object without it. *)
Record DAVObject : Type := {
  data : option JsVal;
  etag : JsVal;
  url : JsVal
}.

(** [o.data] *)
Definition data_of (o : DAVObject) : JsVal :=
  match data o with
  | Some v => v
  | None => JUndef
  end.

(** The parameters of [calendarMultiGet] and of the [objectMultiGet] hook. *)
Record MultiGetParams : Type := {
  mg_url : string;
  mg_props : JsVal;
  mg_objectUrls : list JsVal;
  mg_filters : JsVal;
  mg_timezone : JsVal;
  mg_depth : JsVal;
  mg_headers : option Obj
}.

(** A collection (calendar or address book) with its two hooks, over the
    type of its [objects].  The [fetchObjects] hook is called on the
    collection that carries it, with the headers of the call. *)
Record Collection (O : Type) : Type := {
  c_url : string;
  ctag : JsVal;
  syncToken : JsVal;
  displayName : JsVal;
  description : JsVal;
  timezone : JsVal;
  calendarColor : JsVal;
  components : option (list JsVal);
  resourcetype : option (list string);
  reports : option (list JsVal);
  objects : O;
  objectMultiGet : option (MultiGetParams -> Res (list DAVResponse));
  fetchObjects : option (option Obj -> Res (list DAVObject))
}.

(** [DAVCollection]: [objects?: DAVObject[]] *)
Definition DAVCollection : Type := Collection (option (list DAVObject)).

(** The [objects] of a returned collection: the snapshot, or the diff of a
    detailed result. *)
Inductive SyncObjects : Type :=
| Snapshot (objs : option (list DAVObject))
| ObjectDiff (created updated deleted : list DAVObject).

(** What [smartCollectionSync] returns. *)
Definition SyncedCollection : Type := Collection SyncObjects.

Definition with_objects {O O' : Type} (c : Collection O) (o : O')
  : Collection O' :=
  {| c_url := c_url c; ctag := ctag c; syncToken := syncToken c;
     displayName := displayName c; description := description c;
     timezone := timezone c; calendarColor := calendarColor c;
     components := components c; resourcetype := resourcetype c;
     reports := reports c; objects := o;
     objectMultiGet := objectMultiGet c; fetchObjects := fetchObjects c |}.

Definition with_syncToken {O : Type} (c : Collection O) (t : JsVal)
  : Collection O :=
  {| c_url := c_url c; ctag := ctag c; syncToken := t;
     displayName := displayName c; description := description c;
     timezone := timezone c; calendarColor := calendarColor c;
     components := components c; resourcetype := resourcetype c;
     reports := reports c; objects := objects c;
     objectMultiGet := objectMultiGet c; fetchObjects := fetchObjects c |}.

Definition with_ctag {O : Type} (c : Collection O) (t : JsVal)
  : Collection O :=
  {| c_url := c_url c; ctag := t; syncToken := syncToken c;
     displayName := displayName c; description := description c;
     timezone := timezone c; calendarColor := calendarColor c;
     components := components c; resourcetype := resourcetype c;
     reports := reports c; objects := objects c;
     objectMultiGet := objectMultiGet c; fetchObjects := fetchObjects c |}.

Definition with_reports {O : Type} (c : Collection O) (r : list JsVal)
  : Collection O :=
  {| c_url := c_url c; ctag := ctag c; syncToken := syncToken c;
     displayName := displayName c; description := description c;
     timezone := timezone c; calendarColor := calendarColor c;
     components := components c; resourcetype := resourcetype c;
     reports := Some r; objects := objects c;
     objectMultiGet := objectMultiGet c; fetchObjects := fetchObjects c |}.

Definition with_objectMultiGet {O : Type} (c : Collection O)
           (h : MultiGetParams -> Res (list DAVResponse)) : Collection O :=
  {| c_url := c_url c; ctag := ctag c; syncToken := syncToken c;
     displayName := displayName c; description := description c;
     timezone := timezone c; calendarColor := calendarColor c;
     components := components c; resourcetype := resourcetype c;
     reports := reports c; objects := objects c;
     objectMultiGet := Some h; fetchObjects := fetchObjects c |}.

(** A collection returned as it is. *)
Definition as_synced (c : DAVCollection) : SyncedCollection :=
  with_objects c (Snapshot (objects c)).

Inductive AccountType : Type := caldav | carddav.

Record DAVAccount : Type := {
  accountType : option AccountType;
  serverUrl : string;
  rootUrl : option string;
  principalUrl : option string;
  homeUrl : option string;
  proxyUrl : option string;
  calendars : option (list DAVCollection)
}.

Definition accountType_name (t : AccountType) : string :=
  match t with caldav => "caldav" | carddav => "carddav" end.

(** ** util/typeHelpers *)

Definition truthy_string (o : option string) : bool :=
  match o with Some s => negb (is_empty s) | None => false end.

(** [!!account[f]]: a field of the account, or else what the account
    inherits from [Object.prototype] under that name, which is truthy. *)
Definition account_field (account : DAVAccount) (f : string) : bool :=
  if String.eqb f "accountType"
  then match accountType account with Some _ => true | None => false end
  else if String.eqb f "homeUrl" then truthy_string (homeUrl account)
  else if String.eqb f "rootUrl" then truthy_string (rootUrl account)
  else if String.eqb f "principalUrl" then truthy_string (principalUrl account)
  else if String.eqb f "serverUrl" then negb (is_empty (serverUrl account))
  else if String.eqb f "proxyUrl" then truthy_string (proxyUrl account)
  else if String.eqb f "calendars"
  then match calendars account with Some _ => true | None => false end
  else match prototype_key f with Some _ => true | None => false end.

(** [hasFields(account, fields)] *)
Definition hasFields (account : DAVAccount) (fields : list string) : bool :=
  forallb (account_field account) fields.

(** [findMissingFieldNames(account, fields)] *)
Definition findMissingFieldNames (account : DAVAccount) (fields : list string)
  : string :=
  fold_left (fun prev curr =>
               if account_field account curr then prev
               else (if is_empty prev then "" else prev ++ ",") ++ curr)
            fields "".

(** The guard that opens [smartCollectionSync] and [fetchCalendars]. *)
Definition require_account (account : option DAVAccount)
           (requiredFields : list string) (caller : string) : Res DAVAccount :=
  match account with
  | None => Throw ("no account for " ++ caller)
  | Some a =>
      if hasFields a requiredFields then Ok a
      else Throw ("account must have "
                    ++ findMissingFieldNames a requiredFields
                    ++ " before " ++ caller)
  end.

(** ** collection *)

(** [res.props?.[k]] *)
Definition props_get (res : DAVResponse) (k : string) : JsVal :=
  match props res with
  | Some o => obj_get o k
  | None => JUndef
  end.

(** [r.href ?? ''] where a string is taken: the first argument of
    [new URL], which converts it to a string. *)
Definition href_text (r : DAVResponse) : Res string :=
  js_toString (nullish_or (href r) (JStr "")).

(** [collectionQuery(params)] *)
Definition collectionQuery (E : Env) (url : string) (body : JsVal)
           (depth : JsVal) (defaultNamespace : option string)
           (headers : option Obj) : Res (list DAVResponse) :=
  queryResults <-
    davRequest E
      {| dr_url := url;
         dr_init :=
           {| method := "REPORT";
              headers :=
                Some (cleanupFalsy
                        (obj_assign [("depth", depth)] (spread_opt headers)));
              namespace :=
                Some (match defaultNamespace with
                      | Some ns => ns
                      | None => DAVNamespaceShort.DAV
                      end);
              body := body;
              attributes := JUndef |};
         dr_convertIncoming := None;
         dr_parseOutgoing := None;
         dr_proxyUrl := None |} ;;
  (* empty query result *)
  match queryResults with
  | [r] => if negb (js_truthy (raw r)) then Ok [] else Ok queryResults
  | _ => Ok queryResults
  end.

(** The callback of [supportedReport.map]: [Object.keys(sr.report)[0]] *)
Definition first_report_name (sr : JsVal) : Res JsVal :=
  report <- js_get sr "report" ;;
  keys <- Object_keys report ;;
  Ok (match keys with k :: _ => JStr k | [] => JUndef end).

(** [supportedReportSet(params)] *)
Definition supportedReportSet (E : Env) (collection : DAVCollection)
           (headers : option Obj) (proxyUrl : option string)
  : Res (list JsVal) :=
  res <- propfind E (c_url collection)
           (JObj [(DAVNamespaceShort.DAV ++ ":supported-report-set", JObj [])])
           (JStr "0") headers proxyUrl ;;
  match res with
  | [] => Ok []
  | r :: _ =>
      let supportedReport :=
        js_get_opt (props_get r "supportedReportSet") "supportedReport" in
      if nullish supportedReport then Ok []
      else
        match supportedReport with
        | JArr items => mapM first_report_name items
        | _ => Throw TypeError
        end
  end.

Record DirtyResult : Type := {
  isDirty : bool;
  newCtag : JsVal
}.

(** [v?.toString()] *)
Definition toString_opt (v : JsVal) : Res JsVal :=
  if nullish v then Ok JUndef else s <- js_toString v ;; Ok (JStr s).

(** [isCollectionDirty(params)] *)
Definition isCollectionDirty (E : Env) (collection : DAVCollection)
           (headers : option Obj) : Res DirtyResult :=
  responses <- propfind E (c_url collection)
                 (JObj [(DAVNamespaceShort.CALENDAR_SERVER ++ ":getctag",
                         JObj [])])
                 (JStr "0") headers None ;;
  matching <- filterM (fun r => urlContains_val (JStr (c_url collection))
                                                 (href r))
                      responses ;;
  match matching with
  | [] => Throw "Collection does not exist on server"
  | res :: _ =>
      newCtag <- toString_opt (props_get res "getctag") ;;
      Ok {| isDirty := negb (strict_eq (ctag collection)
                                       (props_get res "getctag"));
            newCtag := newCtag |}
  end.

(** [syncCollection(params)]: this is for webdav sync-collection only. *)
Definition syncCollection (E : Env) (url : string) (props : JsVal)
           (headers : option Obj) (syncLevel : JsVal) (syncToken : JsVal)
  : Res (list DAVResponse) :=
  davRequest E
    {| dr_url := url;
       dr_init :=
         {| method := "REPORT";
            namespace := Some DAVNamespaceShort.DAV;
            headers := Some (spread_opt headers);
            body :=
              JObj [("sync-collection",
                     JObj [("_attributes",
                            JObj (getDAVAttribute
                                    [DAVNamespace.CALDAV;
                                     DAVNamespace.CARDDAV;
                                     DAVNamespace.DAV]));
                           ("sync-level", syncLevel);
                           ("sync-token", syncToken);
                           (DAVNamespaceShort.DAV ++ ":prop", props)])];
            attributes := JUndef |};
       dr_convertIncoming := None;
       dr_parseOutgoing := None;
       dr_proxyUrl := None |}.

(** *** The diff of [smartCollectionSync] *)

(** no existing url *)
Definition diff_created (localObjects remoteObjects : list DAVObject)
  : Res (list DAVObject) :=
  filterM (fun ro =>
             everyM (fun lo =>
                       c <- urlContains_val (url lo) (url ro) ;; Ok (negb c))
                    localObjects)
          remoteObjects.

(** have same url, but etag different *)
Definition diff_updated (localObjects remoteObjects : list DAVObject)
  : Res (list DAVObject) :=
  reduceM
    (fun prev curr =>
       found <- findM (fun ro => urlContains_val (url ro) (url curr))
                      remoteObjects ;;
       match found with
       | Some found =>
           if js_truthy (etag found) && negb (strict_eq (etag found) (etag curr))
           then Ok (prev ++ [found])%list
           else Ok prev
       | None => Ok prev
       end)
    localObjects [].

(** the hrefs the server reports as gone (webdav): objects of a [url] and
    an empty [etag] *)
Definition diff_deleted_webdav (deletedObjectUrls : list JsVal)
  : list DAVObject :=
  map (fun o => {| url := o; etag := JStr ""; data := None |})
      deletedObjectUrls.

(** does not present in remote (basic) *)
Definition diff_deleted_basic (localObjects remoteObjects : list DAVObject)
  : Res (list DAVObject) :=
  filterM (fun cal =>
             everyM (fun ro =>
                       c <- urlContains_val (url ro) (url cal) ;; Ok (negb c))
                    remoteObjects)
          localObjects.

Definition diff_unchanged (localObjects remoteObjects : list DAVObject)
  : Res (list DAVObject) :=
  filterM (fun lo =>
             someM (fun ro =>
                      c <- urlContains_val (url lo) (url ro) ;;
                      Ok (c && strict_eq (etag ro) (etag lo)))
                   remoteObjects)
          localObjects.

(** [collection.objects ?? []] *)
Definition local_objects (collection : DAVCollection) : list DAVObject :=
  match objects collection with
  | Some objs => objs
  | None => []
  end.

Inductive SyncMethod : Type := basic | webdav.

(** [method ?? (collection.reports?.includes('syncCollection') ? 'webdav' :
    'basic')] *)
Definition choose_method (collection : DAVCollection)
           (method : option SyncMethod) : SyncMethod :=
  match method with
  | Some m => m
  | None =>
      match reports collection with
      | Some rs =>
          if existsb (strict_eq (JStr "syncCollection")) rs
          then webdav else basic
      | None => basic
      end
  end.

(** The three properties requested for an object. *)
Definition data_prop_name (t : option AccountType) : string :=
  (match t with
   | Some caldav => DAVNamespaceShort.CALDAV
   | _ => DAVNamespaceShort.CARDDAV
   end)
  ++ ":"
  ++ (match t with
      | Some caldav => "calendar-data"
      | _ => "address-data"
      end).

(** The callback of [multiGetObjectResponse.map] *)
Definition remote_object (t : option AccountType) (res : DAVResponse)
  : DAVObject :=
  {| url := nullish_or (href res) (JStr "");
     etag := props_get res "getetag";
     data :=
       Some (match t with
             | Some caldav =>
                 nullish_or
                   (js_get_opt (props_get res "calendarData") "_cdata")
                   (props_get res "calendarData")
             | _ =>
                 nullish_or
                   (js_get_opt (props_get res "addressData") "_cdata")
                   (props_get res "addressData")
             end) |}.

(** [result[0]?.raw?.multistatus?.syncToken] *)
Definition result_syncToken (result : list DAVResponse) : JsVal :=
  match result with
  | [] => JUndef
  | r :: _ => js_get_opt (js_get_opt (raw r) "multistatus") "syncToken"
  end.

(** The [objects] of the returned collection. *)
Definition result_objects (detailedResult : bool)
           (unchanged created updated deleted : list DAVObject)
  : SyncObjects :=
  if detailedResult then ObjectDiff created updated deleted
  else Snapshot (Some (unchanged ++ created ++ updated)%list).

(** [h?.slice(-4) === extName]: a string is sliced, an array is sliced to
    an array, which is no string; [undefined] and [null] end the chain; any
    other value has no [slice] to call. *)
Definition href_has_ext (extName : string) (h : JsVal) : Res bool :=
  match h with
  | JUndef | JNull => Ok false
  | JStr s => Ok (String.eqb (slice_last 4 s) extName)
  | JArr _ => Ok false
  | _ => Throw TypeError
  end.

(** [objectResponses]: the responses whose href ends in the extension of
    the account type. *)
Definition objectResponses (account : DAVAccount) (result : list DAVResponse)
  : Res (list DAVResponse) :=
  filterM (fun r =>
             let extName :=
               match accountType account with
               | Some caldav => ".ics"
               | _ => ".vcf"
               end in
             href_has_ext extName (href r))
          result.

Definition changedObjectUrls (objectResponses : list DAVResponse)
  : list JsVal :=
  map href (filter (fun o => negb (Z.eqb (status o) 404)) objectResponses).

Definition deletedObjectUrls (objectResponses : list DAVResponse)
  : list JsVal :=
  map href (filter (fun o => Z.eqb (status o) 404) objectResponses).

(** [multiGetObjectResponse]: the answer of the [objectMultiGet] hook for
    the changed hrefs, if there are any. *)
Definition multiGetObjectResponse (collection : DAVCollection)
           (account : DAVAccount) (headers : option Obj)
           (changed : list JsVal) : Res (list DAVResponse) :=
  match changed with
  | [] => Ok []
  | _ :: _ =>
      match objectMultiGet collection with
      | Some hook =>
          hook {| mg_url := c_url collection;
                  mg_props :=
                    JObj [(DAVNamespaceShort.DAV ++ ":getetag", JObj []);
                          (data_prop_name (accountType account), JObj [])];
                  mg_objectUrls := changed;
                  mg_filters := JUndef;
                  mg_timezone := JUndef;
                  mg_depth := JStr "1";
                  mg_headers := headers |}
      | None => Ok []
      end
  end.

(** The [syncCollection] call of the webdav strategy *)
Definition webdav_report (E : Env) (collection : DAVCollection)
           (account : DAVAccount) (headers : option Obj)
  : Res (list DAVResponse) :=
  syncCollection E (c_url collection)
    (JObj [(DAVNamespaceShort.DAV ++ ":getetag", JObj []);
           (data_prop_name (accountType account), JObj []);
           (DAVNamespaceShort.DAV ++ ":displayname", JObj [])])
    headers (JNum (Number "1")) (syncToken collection).

(** The outcome of the [fetchObjects] hook *)
Definition fetchObjects_result (collection : DAVCollection)
           (headers : option Obj) : Res (list DAVObject) :=
  match fetchObjects collection with
  | Some hook => hook headers
  | None => Ok []
  end.

(** [smartCollectionSync(params)]: remote collection to local. *)
Definition smartCollectionSync (E : Env) (collection : DAVCollection)
           (method : option SyncMethod) (headers : option Obj)
           (account : option DAVAccount) (detailedResult : bool)
  : Res SyncedCollection :=
  account <- require_account account ["accountType"; "homeUrl"]
               "smartCollectionSync" ;;
  let syncMethod := choose_method collection method in
  match syncMethod with
  | webdav =>
      result <- webdav_report E collection account headers ;;
      objectResponses <- objectResponses account result ;;
      multiGet <- multiGetObjectResponse collection account headers
                    (changedObjectUrls objectResponses) ;;
      let remoteObjects := map (remote_object (accountType account)) multiGet in
      let localObjects := local_objects collection in
      created <- diff_created localObjects remoteObjects ;;
      updated <- diff_updated localObjects remoteObjects ;;
      let deleted := diff_deleted_webdav (deletedObjectUrls objectResponses) in
      unchanged <- diff_unchanged localObjects remoteObjects ;;
      Ok (with_syncToken
            (with_objects collection
               (result_objects detailedResult unchanged created updated deleted))
            (* all syncToken in the results are the same so we use the first
               one here *)
            (nullish_or (result_syncToken result) (syncToken collection)))
  | basic =>
      dirty <- isCollectionDirty E collection headers ;;
      let localObjects := local_objects collection in
      remoteObjects <- fetchObjects_result collection headers ;;
      created <- diff_created localObjects remoteObjects ;;
      updated <- diff_updated localObjects remoteObjects ;;
      deleted <- diff_deleted_basic localObjects remoteObjects ;;
      unchanged <- diff_unchanged localObjects remoteObjects ;;
      if isDirty dirty
      then Ok (with_ctag
                 (with_objects collection
                    (result_objects detailedResult unchanged created updated
                                    deleted))
                 (newCtag dirty))
      else
        Ok (if detailedResult
            then with_objects collection (ObjectDiff [] [] [])
            else as_synced collection)
  end.

(** ** calendar *)

(** [calendarMultiGet(params)] *)
Definition calendarMultiGet (E : Env) (params : MultiGetParams)
  : Res (list DAVResponse) :=
  collectionQuery E (mg_url params)
    (JObj [("calendar-multiget",
            JObj [("_attributes",
                   JObj (getDAVAttribute
                           [DAVNamespace.DAV; DAVNamespace.CALDAV]));
                  (DAVNamespaceShort.DAV ++ ":prop", mg_props params);
                  (DAVNamespaceShort.DAV ++ ":href",
                   JArr (mg_objectUrls params));
                  ("filter", mg_filters params);
                  ("timezone", mg_timezone params)])])
    (mg_depth params) (Some DAVNamespaceShort.CALDAV) (mg_headers params).

(** The default properties of [fetchCalendars] *)
Definition calendar_props : JsVal :=
  JObj [(DAVNamespaceShort.CALDAV ++ ":calendar-description", JObj []);
        (DAVNamespaceShort.CALDAV ++ ":calendar-timezone", JObj []);
        (DAVNamespaceShort.DAV ++ ":displayname", JObj []);
        (DAVNamespaceShort.CALDAV_APPLE ++ ":calendar-color", JObj []);
        (DAVNamespaceShort.CALENDAR_SERVER ++ ":getctag", JObj []);
        (DAVNamespaceShort.DAV ++ ":resourcetype", JObj []);
        (DAVNamespaceShort.CALDAV ++ ":supported-calendar-component-set",
         JObj []);
        (DAVNamespaceShort.DAV ++ ":sync-token", JObj [])].

(** [Object.keys(r.props?.resourcetype ?? {}).includes('calendar')] *)
Definition is_calendar (r : DAVResponse) : bool :=
  existsb (String.eqb "calendar")
          (map fst (own_entries
                      (nullish_or (props_get r "resourcetype") (JObj [])))).

(** The callback [(sc) => sc._attributes.name] *)
Definition comp_name (sc : JsVal) : Res JsVal :=
  attrs <- js_get sc "_attributes" ;;
  js_get attrs "name".

(** The names of [rc.props?.supportedCalendarComponentSet.comp]: an array
    is mapped, anything else is read as a single component.  A response
    without [props] ends the optional chain with [undefined]. *)
Definition component_names (rc : DAVResponse) : Res (list JsVal) :=
  match props rc with
  | None => Ok [JUndef]
  | Some p =>
      comp <- js_get (obj_get p "supportedCalendarComponentSet") "comp" ;;
      match comp with
      | JArr items => mapM comp_name items
      | _ => name <- comp_name comp ;; Ok [name]
      end
  end.

(** filter out none iCal format calendars. *)
Definition is_ical (rc : DAVResponse) : Res bool :=
  components <- component_names rc ;;
  Ok (existsb (fun c => existsb (fun known => strict_eq (JStr known) c)
                                ICALObjects)
              components).

Definition string_or_empty (v : JsVal) : JsVal :=
  match v with
  | JStr s => JStr s
  | _ => JStr ""
  end.

(** The callback that maps a response to a calendar *)
Definition to_calendar (account : DAVAccount) (rs : DAVResponse)
  : Res DAVCollection :=
  let description := props_get rs "calendarDescription" in
  let timezone := props_get rs "calendarTimezone" in
  h <- href_text rs ;;
  u <- URL_new h
         (Some (match rootUrl account with Some r => r | None => "" end)) ;;
  cdata <- match props rs with
           | None => Ok JUndef
           | Some p => js_get (obj_get p "displayname") "_cdata"
           end ;;
  components <- component_names rs ;;
  resourcetype <- Object_keys (props_get rs "resourcetype") ;;
  Ok {| description := string_or_empty description;
        timezone := string_or_empty timezone;
        c_url := url_href u;
        ctag := props_get rs "getctag";
        calendarColor := props_get rs "calendarColor";
        displayName := nullish_or cdata (props_get rs "displayname");
        components := Some components;
        resourcetype := Some resourcetype;
        syncToken := props_get rs "syncToken";
        reports := None;
        objects := None;
        objectMultiGet := None;
        fetchObjects := None |}.

(** [fetchCalendars(params)] *)
Definition fetchCalendars (E : Env) (headers : option Obj)
           (account : option DAVAccount) (customProps : option JsVal)
  : Res (list DAVCollection) :=
  account <- require_account account ["homeUrl"; "rootUrl"] "fetchCalendars" ;;
  res <- propfind E
           (match homeUrl account with Some h => h | None => "" end)
           (match customProps with Some p => p | None => calendar_props end)
           (JStr "1") headers (proxyUrl account) ;;
  icals <- filterM is_ical (filter is_calendar res) ;;
  cals <- mapM (to_calendar account) icals ;;
  mapM (fun cal =>
          reports <- supportedReportSet E cal headers (proxyUrl account) ;;
          Ok (with_reports cal reports))
       cals.

(** [found.syncToken && found.syncToken !== curr.syncToken ||
    found.ctag && found.ctag !== curr.ctag] *)
Definition tokens_differ (found curr : DAVCollection) : bool :=
  (js_truthy (syncToken found)
   && negb (strict_eq (syncToken found) (syncToken curr)))
  || (js_truthy (ctag found) && negb (strict_eq (ctag found) (ctag curr))).

(** no existing url *)
Definition calendars_created (localCalendars remoteCalendars : list DAVCollection)
  : list DAVCollection :=
  filter (fun rc =>
            forallb (fun lc => negb (urlContains (c_url lc) (c_url rc)))
                    localCalendars)
         remoteCalendars.

(** have same url, but syncToken/ctag different *)
Definition calendars_updated (localCalendars remoteCalendars : list DAVCollection)
  : list DAVCollection :=
  fold_left
    (fun prev curr =>
       match find (fun rc => urlContains (c_url rc) (c_url curr))
                  remoteCalendars with
       | Some found =>
           if tokens_differ found curr then (prev ++ [found])%list else prev
       | None => prev
       end)
    localCalendars [].

(** does not present in remote *)
Definition calendars_deleted (localCalendars remoteCalendars : list DAVCollection)
  : list DAVCollection :=
  filter (fun cal =>
            forallb (fun rc => negb (urlContains (c_url rc) (c_url cal)))
                    remoteCalendars)
         localCalendars.

(** The list the code names [unchanged] *)
Definition calendars_unchanged (localCalendars remoteCalendars : list DAVCollection)
  : list DAVCollection :=
  filter (fun cal =>
            existsb (fun rc =>
                       urlContains (c_url rc) (c_url cal)
                       && tokens_differ rc cal)
                    remoteCalendars)
         localCalendars.

(** [`${cals.map((cc) => cc.displayName)}`]: the text of the names in a
    logged message, which converts every name to a string. *)
Definition displayNames_text (cals : list DAVCollection) : Res string :=
  js_toString (JArr (map (fun cc => displayName cc) cals)).

(** What [syncCalendars] returns: the detailed struct or the list. *)
Inductive SyncCalendarsResult : Type :=
| CalendarsDiff (created updated deleted : list DAVCollection)
| CalendarsList (calendars : list SyncedCollection).

(** [syncCalendars(params)]: sync remote calendars to local. *)
Definition syncCalendars (E : Env) (oldCalendars : option (list DAVCollection))
           (account : option DAVAccount) (detailedResult : bool)
           (headers : option Obj) : Res SyncCalendarsResult :=
  match account with
  | None => Throw "Must have account before syncCalendars"
  | Some account =>
      let localCalendars :=
        match oldCalendars with
        | Some cs => cs
        | None => match calendars account with Some cs => cs | None => [] end
        end in
      remoteCalendars <- fetchCalendars E headers (Some account) None ;;
      let created := calendars_created localCalendars remoteCalendars in
      _ <- displayNames_text created ;;
      let updated := calendars_updated localCalendars remoteCalendars in
      _ <- displayNames_text updated ;;
      updatedWithObjects <-
        mapM (fun u =>
                smartCollectionSync E
                  (with_objectMultiGet u (calendarMultiGet E))
                  (Some webdav) headers (Some account) false)
             updated ;;
      let deleted := calendars_deleted localCalendars remoteCalendars in
      _ <- displayNames_text deleted ;;
      let unchanged := calendars_unchanged localCalendars remoteCalendars in
      Ok (if detailedResult
          then CalendarsDiff created updated deleted
          else CalendarsList
                 (map as_synced unchanged ++ map as_synced created
                  ++ updatedWithObjects)%list)
  end.

(** ** account *)

(** [a + b] where [a] may be [undefined] *)
Definition concat_opt (a : option string) (b : string) : string :=
  match a with
  | Some s => s ++ b
  | None => "undefined" ++ b
  end.

(** The [try] block of [serviceDiscovery]: the redirect target, if the
    block returns one. *)
Definition serviceDiscovery_try (E : Env) (account : DAVAccount)
           (headers : option Obj) (endpoint uri : URL) : Res (option string) :=
  response <- fetch E (concat_opt (proxyUrl account) (url_href uri))
                {| fi_headers := headers;
                   fi_method := "PROPFIND";
                   fi_redirect := Some "manual";
                   fi_body := JUndef |} ;;
  if Z.leb 300 (resp_status response) && Z.ltb (resp_status response) 400
  then
    (* http redirect. *)
    match resp_headers_get response "Location" with
    | Some location =>
        if negb (is_empty location)
        then
          serviceURL <- URL_new location (Some (url_href endpoint)) ;;
          let serviceURL :=
            if String.eqb (url_hostname serviceURL) (url_hostname uri)
               && negb (is_empty (url_port uri))
               && is_empty (url_port serviceURL)
            then url_set_port serviceURL (url_port uri)
            else serviceURL in
          let serviceURL := url_set_protocol serviceURL (url_protocol endpoint) in
          Ok (Some (url_href serviceURL))
        else Ok None
    | None => Ok None
    end
  else Ok None.

(** [serviceDiscovery(params)] *)
Definition serviceDiscovery (E : Env) (account : DAVAccount)
           (headers : option Obj) : Res string :=
  endpoint <- URL_new (serverUrl account) None ;;
  uri <- URL_new ("/.well-known/"
                    ++ match accountType account with
                       | Some t => accountType_name t
                       | None => "undefined"
                       end)
           (Some (url_href endpoint)) ;;
  let uri := url_set_protocol uri (url_protocol endpoint) in
  match serviceDiscovery_try E account headers endpoint uri with
  | Ok (Some href) => Ok href
  | Ok None => Ok (url_href endpoint)
  | Throw _ => Ok (url_href endpoint)
  end.

(** ** request: objects *)

(** [createObject(params)] *)
Definition createObject (E : Env) (url : string) (data : JsVal)
           (headers : option Obj) : Res Response :=
  fetch E (__PROXY_URL__ ++ url)
        {| fi_method := "PUT"; fi_body := data; fi_headers := headers;
           fi_redirect := None |}.

(** [cleanupFalsy({ 'If-Match': etag, ...headers })] *)
Definition if_match_headers (etag : JsVal) (headers : option Obj) : Obj :=
  cleanupFalsy (obj_assign [("If-Match", etag)] (spread_opt headers)).

(** [updateObject(params)] *)
Definition updateObject (E : Env) (url : string) (data etag : JsVal)
           (headers : option Obj) : Res Response :=
  fetch E (__PROXY_URL__ ++ url)
        {| fi_method := "PUT";
           fi_body := data;
           fi_headers := Some (if_match_headers etag headers);
           fi_redirect := None |}.

(** [deleteObject(params)] *)
Definition deleteObject (E : Env) (url : string) (etag : JsVal)
           (headers : option Obj) : Res Response :=
  fetch E (__PROXY_URL__ ++ url)
        {| fi_method := "DELETE";
           fi_body := JUndef;
           fi_headers := Some (if_match_headers etag headers);
           fi_redirect := None |}.

(** ** calendar and addressBook: objects *)

(** [createCalendarObject(params)] *)
Definition createCalendarObject (E : Env) (calendar : DAVCollection)
           (iCalString filename : string) (headers : option Obj)
  : Res Response :=
  u <- URL_new filename (Some (c_url calendar)) ;;
  createObject E (url_href u) (JStr iCalString)
    (Some (obj_assign
             [("content-type", JStr "text/calendar; charset=utf-8");
              ("If-None-Match", JStr "*")]
             (spread_opt headers))).

(** The [url] of an object in [__PROXY_URL__ + url]: the concatenation
    converts it to a string. *)
Definition url_text (o : DAVObject) : Res string := js_toString (url o).

(** [updateCalendarObject(params)] *)
Definition updateCalendarObject (E : Env) (calendarObject : DAVObject)
           (headers : option Obj) : Res Response :=
  u <- url_text calendarObject ;;
  updateObject E u (data_of calendarObject) (etag calendarObject)
    (Some (obj_assign [("content-type", JStr "text/calendar; charset=utf-8")]
                      (spread_opt headers))).

(** [deleteCalendarObject(params)] *)
Definition deleteCalendarObject (E : Env) (calendarObject : DAVObject)
           (headers : option Obj) : Res Response :=
  u <- url_text calendarObject ;;
  deleteObject E u (etag calendarObject) headers.

(** [createVCard(params)] *)
Definition createVCard (E : Env) (addressBook : DAVCollection)
           (vCardString filename : string) (headers : option Obj)
  : Res Response :=
  u <- URL_new filename (Some (c_url addressBook)) ;;
  createObject E (url_href u) (JStr vCardString)
    (Some (obj_assign
             [("content-type", JStr "text/vcard; charset=utf-8");
              ("If-None-Match", JStr "*")]
             (spread_opt headers))).

(** [updateVCard(params)] *)
Definition updateVCard (E : Env) (vCard : DAVObject) (headers : option Obj)
  : Res Response :=
  u <- url_text vCard ;;
  updateObject E u (data_of vCard) (etag vCard)
    (Some (obj_assign [("content-type", JStr "text/vcard; charset=utf-8")]
                      (spread_opt headers))).

(** [deleteVCard(params)] *)
Definition deleteVCard (E : Env) (vCard : DAVObject) (headers : option Obj)
  : Res Response :=
  u <- url_text vCard ;;
  deleteObject E u (etag vCard) headers.

(** ** account, continued *)

(** The guard that opens [fetchPrincipalUrl] and [fetchHomeUrl]. *)
Definition require_fields (account : DAVAccount)
           (requiredFields : list string) (caller : string) : Res unit :=
  if hasFields account requiredFields then Ok tt
  else Throw ("account must have "
                ++ findMissingFieldNames account requiredFields
                ++ " before " ++ caller).

(** [account.rootUrl] in a position that takes a string *)
Definition rootUrl_of (account : DAVAccount) : string :=
  match rootUrl account with Some r => r | None => "" end.

Definition principalUrl_of (account : DAVAccount) : string :=
  match principalUrl account with Some p => p | None => "" end.

(** [fetchPrincipalUrl(params)] *)
Definition fetchPrincipalUrl (E : Env) (account : DAVAccount)
           (headers : option Obj) : Res string :=
  _ <- require_fields account ["rootUrl"] "fetchPrincipalUrl" ;;
  responses <- propfind E (rootUrl_of account)
                 (JObj [(DAVNamespaceShort.DAV ++ ":current-user-principal",
                         JObj [])])
                 (JStr "0") headers (proxyUrl account) ;;
  match responses with
  | [] => Throw TypeError
  | response :: _ =>
      if negb (ok response) && Z.eqb (status response) 401
      then Throw "Invalid credentials"
      else
        h <- js_toString
               (nullish_or
                  (js_get_opt (props_get response "currentUserPrincipal")
                              "href")
                  (JStr "")) ;;
        u <- URL_new h (Some (rootUrl_of account)) ;;
        Ok (url_href u)
  end.

(** [matched?.props?.calendarHomeSet.href], and the same for
    [addressbookHomeSet] *)
Definition home_set_href (matched : DAVResponse) (name : string) : Res JsVal :=
  match props matched with
  | None => Ok JUndef
  | Some p => js_get (obj_get p name) "href"
  end.

(** [fetchHomeUrl(params)] *)
Definition fetchHomeUrl (E : Env) (account : DAVAccount)
           (headers : option Obj) : Res string :=
  _ <- require_fields account ["principalUrl"; "rootUrl"] "fetchHomeUrl" ;;
  responses <- propfind E (principalUrl_of account)
                 (match accountType account with
                  | Some caldav =>
                      JObj [(DAVNamespaceShort.CALDAV ++ ":calendar-home-set",
                             JObj [])]
                  | _ =>
                      JObj [(DAVNamespaceShort.CARDDAV
                               ++ ":addressbook-home-set", JObj [])]
                  end)
                 (JStr "0") headers (proxyUrl account) ;;
  matched <- findM (fun r => urlContains_val (JStr (principalUrl_of account))
                                             (href r))
                   responses ;;
  match matched with
  | None => Throw "cannot find homeUrl"
  | Some matched =>
      if negb (ok matched) then Throw "cannot find homeUrl"
      else
        h <- home_set_href matched
               (match accountType account with
                | Some caldav => "calendarHomeSet"
                | _ => "addressbookHomeSet"
                end) ;;
        h <- js_toString h ;;
        result <- URL_new h (Some (rootUrl_of account)) ;;
        Ok (url_href result)
  end.

End Model.

(** ** The platform: dates *)

(** The [Date] class, as far as the code uses it. *)
Class JsDate : Type := {
  (** [new Date(s).toISOString()]; throws a RangeError on an invalid date. *)
  Date_toISOString : string -> Res string
}.

Section ModelObjects.

Context {NUM : JsNumber} {URLC : JsURL} {PROTO : JsPrototype} {DATE : JsDate}.

(** ** addressBook *)

(** [addressBookQuery(params)] *)
Definition addressBookQuery (E : Env) (url : string) (props : JsVal)
           (filters : option JsVal) (depth : JsVal) (headers : option Obj)
  : Res (list DAVResponse) :=
  collectionQuery E url
    (JObj [("addressbook-query",
            JObj [("_attributes",
                   JObj (getDAVAttribute
                           [DAVNamespace.CARDDAV; DAVNamespace.DAV]));
                  (DAVNamespaceShort.DAV ++ ":prop", props);
                  ("filter",
                   match filters with
                   | Some f => f
                   | None =>
                       JObj [("prop-filter",
                              JObj [("_attributes",
                                     JObj [("name", JStr "FN")])])]
                   end)])])
    depth (Some DAVNamespaceShort.CARDDAV) headers.

(** [addressBookMultiGet(params)] *)
Definition addressBookMultiGet (E : Env) (url : string) (props : JsVal)
           (objectUrls : list JsVal) (depth : JsVal) (headers : option Obj)
  : Res (list DAVResponse) :=
  collectionQuery E url
    (JObj [("addressbook-multiget",
            JObj [("_attributes",
                   JObj (getDAVAttribute
                           [DAVNamespace.DAV; DAVNamespace.CARDDAV]));
                  (DAVNamespaceShort.DAV ++ ":prop", props);
                  (DAVNamespaceShort.DAV ++ ":href",
                   JArr objectUrls)])])
    depth (Some DAVNamespaceShort.CARDDAV) headers.

(** The default properties of [fetchAddressBooks] *)
Definition addressBook_props : JsVal :=
  JObj [(DAVNamespaceShort.DAV ++ ":displayname", JObj []);
        (DAVNamespaceShort.CALENDAR_SERVER ++ ":getctag", JObj []);
        (DAVNamespaceShort.DAV ++ ":resourcetype", JObj []);
        (DAVNamespaceShort.DAV ++ ":sync-token", JObj [])].

(** [Object.keys(r.props?.resourcetype ?? {}).includes('addressbook')] *)
Definition is_addressbook (r : DAVResponse) : bool :=
  existsb (String.eqb "addressbook")
          (map fst (own_entries
                      (nullish_or (props_get r "resourcetype") (JObj [])))).

(** The callback that maps a response to an address book *)
Definition to_addressBook (account : DAVAccount) (rs : DAVResponse)
  : Res DAVCollection :=
  let displayName :=
    nullish_or (js_get_opt (props_get rs "displayname") "_cdata")
               (props_get rs "displayname") in
  h <- href_text rs ;;
  u <- URL_new h
         (Some (match rootUrl account with Some r => r | None => "" end)) ;;
  resourcetype <- Object_keys (props_get rs "resourcetype") ;;
  Ok {| c_url := url_href u;
        ctag := props_get rs "getctag";
        displayName := string_or_empty displayName;
        resourcetype := Some resourcetype;
        syncToken := props_get rs "syncToken";
        description := JUndef;
        timezone := JUndef;
        calendarColor := JUndef;
        components := None;
        reports := None;
        objects := None;
        objectMultiGet := None;
        fetchObjects := None |}.

(** [fetchAddressBooks(params)] *)
Definition fetchAddressBooks (E : Env) (headers : option Obj)
           (account : option DAVAccount) (customProps : option JsVal)
  : Res (list DAVCollection) :=
  account <- require_account account ["homeUrl"; "rootUrl"]
               "fetchAddressBooks" ;;
  res <- propfind E
           (match homeUrl account with Some h => h | None => "" end)
           (match customProps with Some p => p | None => addressBook_props end)
           (JStr "1") headers None ;;
  addrs <- mapM (to_addressBook account) (filter is_addressbook res) ;;
  mapM (fun addr =>
          reports <- supportedReportSet E addr headers None ;;
          Ok (with_reports addr reports))
       addrs.

(** The guard on the collection that opens [fetchVCards] and
    [fetchCalendarObjects]: it has to be given and to have a [url]
    ([hasFields(c, ['url'])] is [!!c.url], and the missing field is then
    [url]). *)
Definition require_collection (c : option DAVCollection)
           (kind caller : string) : Res DAVCollection :=
  match c with
  | None => Throw ("cannot " ++ caller ++ " for undefined " ++ kind)
  | Some c =>
      if negb (is_empty (c_url c)) then Ok c
      else Throw (kind ++ " must have url before " ++ caller)
  end.

(** patch up to full url if url is not full.  The url is an [href] as
    the decoder gave it, or a string of the caller; a value that is no
    string has no [startsWith] to call. *)
Definition full_url (base : string) (url : JsVal) : Res string :=
  match url with
  | JStr url =>
      if startsWith url "http" || is_empty url then Ok url
      else u <- URL_new url (Some base) ;; Ok (url_href u)
  | _ => Throw TypeError
  end.

(** obtain pathname of the url *)
Definition pathname_of (url : string) : Res string :=
  u <- URL_new url None ;; Ok (url_pathname u).

(** The paths asked of the multiget: the urls made full, filtered, and
    reduced to their pathname. *)
Definition object_paths (base : string) (urlFilter : string -> bool)
           (urls : list JsVal) : Res (list string) :=
  full <- mapM (full_url base) urls ;;
  mapM pathname_of (filter urlFilter full).

(** The callback that maps a multiget response to a vCard *)
Definition to_vCard (addressBook : DAVCollection) (res : DAVResponse)
  : Res DAVObject :=
  h <- href_text res ;;
  u <- URL_new h (Some (c_url addressBook)) ;;
  Ok {| url := JStr (url_href u);
        etag := props_get res "getetag";
        data := Some (nullish_or
                        (js_get_opt (props_get res "addressData") "_cdata")
                        (props_get res "addressData")) |}.

(** [fetchVCards(params)] *)
Definition fetchVCards (E : Env) (addressBook : option DAVCollection)
           (headers : option Obj) (objectUrls : option (list string))
           (urlFilter : option (string -> bool)) : Res (list DAVObject) :=
  addressBook <- require_collection addressBook "addressBook" "fetchVCards" ;;
  urls <- match objectUrls with
          | Some urls => Ok (map JStr urls)
          | None =>
              (* fetch all objects of the calendar *)
              res <- addressBookQuery E (c_url addressBook)
                       (JObj [(DAVNamespaceShort.DAV ++ ":getetag", JObj [])])
                       None (JStr "1") headers ;;
              Ok (map (fun r => if ok r then nullish_or (href r) (JStr "")
                                else JStr "")
                      res)
          end ;;
  vcardUrls <- object_paths (c_url addressBook)
                 (match urlFilter with
                  | Some f => f
                  | None => fun url => negb (is_empty url)
                  end)
                 urls ;;
  vCardResults <-
    match vcardUrls with
    | [] => Ok []
    | _ :: _ =>
        addressBookMultiGet E (c_url addressBook)
          (JObj [(DAVNamespaceShort.DAV ++ ":getetag", JObj []);
                 (DAVNamespaceShort.CARDDAV ++ ":address-data", JObj [])])
          (map JStr vcardUrls) (JStr "1") headers
    end ;;
  mapM (to_vCard addressBook) vCardResults.

(** ** calendar, continued *)

(** [calendarQuery(params)] *)
Definition calendarQuery (E : Env) (url : string)
           (props filters timezone depth : JsVal) (headers : option Obj)
  : Res (list DAVResponse) :=
  collectionQuery E url
    (JObj [("calendar-query",
            JObj (cleanupFalsy
                    [("_attributes",
                      JObj (getDAVAttribute
                              [DAVNamespace.CALDAV;
                               DAVNamespace.CALENDAR_SERVER;
                               DAVNamespace.CALDAV_APPLE;
                               DAVNamespace.DAV]));
                     (DAVNamespaceShort.DAV ++ ":prop", props);
                     ("filter", filters);
                     ("timezone", timezone)]))])
    depth (Some DAVNamespaceShort.CALDAV) headers.

Record TimeRange : Type := {
  tr_start : string;
  tr_end : string
}.

(** The test that validates a time range: true when the range is refused. *)
Definition timeRange_refused (timeRange : TimeRange) : bool :=
  (negb (regex_test ISO_8601 (tr_start timeRange))
   || negb (regex_test ISO_8601 (tr_end timeRange)))
  && (negb (regex_test ISO_8601_FULL (tr_start timeRange))
      || negb (regex_test ISO_8601_FULL (tr_end timeRange))).

(** [s.replace(/[-:.]/g, '')] *)
Fixpoint remove_punctuation (s : string) : string :=
  match s with
  | EmptyString => EmptyString
  | String c s' =>
      if Ascii.eqb c "-" || Ascii.eqb c ":" || Ascii.eqb c "."
      then remove_punctuation s'
      else String c (remove_punctuation s')
  end.

(** [`${new Date(t).toISOString().slice(0, 19).replace(/[-:.]/g, '')}Z`] *)
Definition time_stamp (t : string) : Res string :=
  iso <- Date_toISOString t ;;
  Ok (remove_punctuation (substring 0 19 iso) ++ "Z").

(** [{ _attributes: { start: ..., end: ... } }] for a time range *)
Definition time_attributes (timeRange : TimeRange) : Res JsVal :=
  s <- time_stamp (tr_start timeRange) ;;
  e <- time_stamp (tr_end timeRange) ;;
  Ok (JObj [("_attributes", JObj [("start", JStr s); ("end", JStr e)])]).

(** The filter that fetches all events, within the time range if there is
    one. *)
Definition default_filters (timeRange : option TimeRange) : Res JsVal :=
  range <- match timeRange with
           | Some tr => a <- time_attributes tr ;; Ok [("time-range", a)]
           | None => Ok []
           end ;;
  Ok (JArr
        [JObj [("comp-filter",
                JObj [("_attributes", JObj [("name", JStr "VCALENDAR")]);
                      ("comp-filter",
                       JObj (obj_assign
                               [("_attributes",
                                 JObj [("name", JStr "VEVENT")])]
                               range))])]]).

(** The callback that maps a multiget response to a calendar object *)
Definition to_calendarObject (calendar : DAVCollection) (res : DAVResponse)
  : Res DAVObject :=
  h <- href_text res ;;
  u <- URL_new h (Some (c_url calendar)) ;;
  etag <- js_toString (props_get res "getetag") ;;
  Ok {| url := JStr (url_href u);
        etag := JStr etag;
        data := Some (nullish_or
                        (js_get_opt (props_get res "calendarData") "_cdata")
                        (props_get res "calendarData")) |}.

(** [fetchCalendarObjects(params)] *)
Definition fetchCalendarObjects (E : Env) (calendar : option DAVCollection)
           (objectUrls : option (list string)) (customFilters : option JsVal)
           (timeRange : option TimeRange) (headers : option Obj)
           (expand : bool) (urlFilter : option (string -> bool))
  : Res (list DAVObject) :=
  _ <- match timeRange with
       | Some tr =>
           (* validate timeRange *)
           if timeRange_refused tr
           then Throw "invalid timeRange format, not in ISO8601"
           else Ok tt
       | None => Ok tt
       end ;;
  calendar <- require_collection calendar "calendar" "fetchCalendarObjects" ;;
  (* default to fetch all *)
  filters <- match customFilters with
             | Some f => Ok f
             | None => default_filters timeRange
             end ;;
  urls <- match objectUrls with
          | Some urls => Ok (map JStr urls)
          | None =>
              (* fetch all objects of the calendar *)
              res <- calendarQuery E (c_url calendar)
                       (JObj [(DAVNamespaceShort.DAV ++ ":getetag", JObj [])])
                       filters JUndef (JStr "1") headers ;;
              Ok (map (fun r => nullish_or (href r) (JStr "")) res)
          end ;;
  calendarObjectUrls <-
    object_paths (c_url calendar)
      (match urlFilter with
       | Some f => f
       | None => fun url => includes url ".ics"
       end)
      urls ;;
  calendarObjectResults <-
    match calendarObjectUrls with
    | [] => Ok []
    | _ :: _ =>
        expansion <- match timeRange with
                     | Some tr =>
                         if expand
                         then a <- time_attributes tr ;;
                              Ok [(DAVNamespaceShort.CALDAV ++ ":expand", a)]
                         else Ok []
                     | None => Ok []
                     end ;;
        calendarMultiGet E
          {| mg_url := c_url calendar;
             mg_props :=
               JObj [(DAVNamespaceShort.DAV ++ ":getetag", JObj []);
                     (DAVNamespaceShort.CALDAV ++ ":calendar-data",
                      JObj expansion)];
             mg_objectUrls := map JStr calendarObjectUrls;
             mg_filters := JUndef;
             mg_timezone := JUndef;
             mg_depth := JStr "1";
             mg_headers := headers |}
    end ;;
  mapM (to_calendarObject calendar) calendarObjectResults.

(** [freeBusyQuery(params)]: the first response, if there is one. *)
Definition freeBusyQuery (E : Env) (url : string)
           (timeRange : option TimeRange) (depth : JsVal)
           (headers : option Obj) : Res (option DAVResponse) :=
  match timeRange with
  | Some tr =>
      if timeRange_refused tr
      then Throw "invalid timeRange format, not in ISO8601"
      else
        range <- time_attributes tr ;;
        result <-
          collectionQuery E url
            (JObj [("free-busy-query",
                    JObj (cleanupFalsy
                            [("_attributes",
                              JObj (getDAVAttribute [DAVNamespace.CALDAV]));
                             (DAVNamespaceShort.CALDAV ++ ":time-range",
                              range)]))])
            depth (Some DAVNamespaceShort.CALDAV) headers ;;
        Ok (hd_error result)
  | None => Throw "timeRange is required"
  end.

(** ** account: [createAccount] *)

(** A [DAVAccount] with its [addressBooks]. *)
Record LoadedAccount : Type := {
  la_account : DAVAccount;
  la_addressBooks : option (list DAVCollection)
}.

Definition with_rootUrl (a : DAVAccount) (u : string) : DAVAccount :=
  {| accountType := accountType a; serverUrl := serverUrl a;
     rootUrl := Some u; principalUrl := principalUrl a;
     homeUrl := homeUrl a; proxyUrl := proxyUrl a;
     calendars := calendars a |}.

Definition with_principalUrl (a : DAVAccount) (u : string) : DAVAccount :=
  {| accountType := accountType a; serverUrl := serverUrl a;
     rootUrl := rootUrl a; principalUrl := Some u;
     homeUrl := homeUrl a; proxyUrl := proxyUrl a;
     calendars := calendars a |}.

Definition with_homeUrl (a : DAVAccount) (u : string) : DAVAccount :=
  {| accountType := accountType a; serverUrl := serverUrl a;
     rootUrl := rootUrl a; principalUrl := principalUrl a;
     homeUrl := Some u; proxyUrl := proxyUrl a;
     calendars := calendars a |}.

Definition with_calendars (a : DAVAccount) (cs : list DAVCollection)
  : DAVAccount :=
  {| accountType := accountType a; serverUrl := serverUrl a;
     rootUrl := rootUrl a; principalUrl := principalUrl a;
     homeUrl := homeUrl a; proxyUrl := proxyUrl a;
     calendars := Some cs |}.

(** The first three steps of [createAccount]: the root url, the principal
    url and the home url, each from the account the step before left. *)
Definition createAccount_urls (E : Env) (account : DAVAccount)
           (headers : option Obj) : Res DAVAccount :=
  root <- serviceDiscovery E account headers ;;
  let newAccount := with_rootUrl account root in
  principal <- fetchPrincipalUrl E newAccount headers ;;
  let newAccount := with_principalUrl newAccount principal in
  home <- fetchHomeUrl E newAccount headers ;;
  Ok (with_homeUrl newAccount home).

(** [createAccount(params)] *)
Definition createAccount (E : Env) (given : LoadedAccount)
           (headers : option Obj) (loadCollections loadObjects : bool)
  : Res LoadedAccount :=
  let account := la_account given in
  newAccount <- createAccount_urls E account headers ;;
  (* to load objects you must first load collections *)
  loaded <-
    (if loadCollections || loadObjects
     then
       match accountType account with
       | Some caldav =>
           cals <- fetchCalendars E headers (Some newAccount) None ;;
           Ok {| la_account := with_calendars newAccount cals;
                 la_addressBooks := la_addressBooks given |}
       | Some carddav =>
           addrs <- fetchAddressBooks E headers (Some newAccount) None ;;
           Ok {| la_account := newAccount; la_addressBooks := Some addrs |}
       | None =>
           Ok {| la_account := newAccount;
                 la_addressBooks := la_addressBooks given |}
       end
     else Ok {| la_account := newAccount;
                la_addressBooks := la_addressBooks given |}) ;;
  if loadObjects
  then
    match accountType account with
    | Some caldav =>
        match calendars (la_account loaded) with
        | Some cals =>
            cals' <- mapM (fun cal =>
                             objs <- fetchCalendarObjects E (Some cal) None
                                       None None headers false None ;;
                             Ok (with_objects cal (Some objs)))
                          cals ;;
            Ok {| la_account := with_calendars (la_account loaded) cals';
                  la_addressBooks := la_addressBooks loaded |}
        | None => Ok loaded
        end
    | Some carddav =>
        match la_addressBooks loaded with
        | Some addrs =>
            addrs' <- mapM (fun addr =>
                              objs <- fetchVCards E (Some addr) headers None
                                        None ;;
                              Ok (with_objects addr (Some objs)))
                           addrs ;;
            Ok {| la_account := la_account loaded;
                  la_addressBooks := Some addrs' |}
        | None => Ok loaded
        end
    | None => Ok loaded
    end
  else Ok loaded.

End ModelObjects.

(** ** Reference instances of the platform

    They are used to run the code on examples.  The number instance covers
    the integer numerals of magnitude below [2^53]; the prototype instance
    gives the built-in functions the text V8 gives them; the URL instance
    covers [scheme://host[:port][/path]]
    with lower-case names and explicit ports, and references that are
    absolute, empty, or paths. *)

Definition ref_sign_digits (s : string) : option Z :=
  if negb (is_empty s) && all_chars is_digit s then Some (parseInt10 s)
  else None.

(** [Number(s)] on integer numerals; [None] is [NaN]. *)
Definition ref_Number (s : string) : option Z :=
  match trim s with
  | EmptyString => Some 0%Z
  | String c rest =>
      if Ascii.eqb c "-" then option_map Z.opp (ref_sign_digits rest)
      else if Ascii.eqb c "+" then ref_sign_digits rest
      else ref_sign_digits (String c rest)
  end.

Definition ref_toString (n : option Z) : string :=
  match n with
  | Some z => NilZero.string_of_int (Z.to_int z)
  | None => "NaN"
  end.

Definition RefNumber : JsNumber :=
  {| num := option Z;
     Number := ref_Number;
     isNaN := fun n => match n with None => true | Some _ => false end;
     num_toString := ref_toString;
     num_eqb := fun a b =>
                  match a, b with
                  | Some x, Some y => Z.eqb x y
                  | _, _ => false
                  end;
     num_truthy := fun n =>
                     match n with
                     | Some z => negb (Z.eqb z 0)
                     | None => false
                     end |}.

(** The names of the functions of [Object.prototype], each with the name
    that its text shows. *)
Definition ref_prototype_functions : list (string * string) :=
  [ ("constructor", "Object");
    ("__defineGetter__", "__defineGetter__");
    ("__defineSetter__", "__defineSetter__");
    ("hasOwnProperty", "hasOwnProperty");
    ("__lookupGetter__", "__lookupGetter__");
    ("__lookupSetter__", "__lookupSetter__");
    ("isPrototypeOf", "isPrototypeOf");
    ("propertyIsEnumerable", "propertyIsEnumerable");
    ("toString", "toString");
    ("valueOf", "valueOf");
    ("toLocaleString", "toLocaleString") ].

(** [__proto__] of a plain object is [Object.prototype], whose text is
    [[object Object]]. *)
Definition ref_prototype_key (name : string) : option string :=
  if String.eqb name "__proto__" then Some "[object Object]"
  else
    match find (fun kv => String.eqb (fst kv) name) ref_prototype_functions with
    | Some kv => Some ("function " ++ snd kv ++ "() { [native code] }")
    | None => None
    end.

Definition RefPrototype : JsPrototype :=
  {| prototype_key := ref_prototype_key |}.

Record RefUrl : Type := {
  ru_protocol : string;
  ru_hostname : string;
  ru_port : string;
  ru_pathname : string
}.

Definition ref_href (u : RefUrl) : string :=
  ru_protocol u ++ "//" ++ ru_hostname u
  ++ (if is_empty (ru_port u) then "" else ":" ++ ru_port u)
  ++ ru_pathname u.

(** The part before the first [c], and the part after it if [c] occurs. *)
Fixpoint split_at (c : ascii) (s : string) : string * option string :=
  match s with
  | EmptyString => (EmptyString, None)
  | String d rest =>
      if Ascii.eqb d c then (EmptyString, Some rest)
      else let (a, b) := split_at c rest in (String d a, b)
  end.

Definition is_scheme_char (c : ascii) : bool :=
  let n := nat_of_ascii c in
  (Nat.leb 97 n && Nat.leb n 122) || is_digit c
  || Ascii.eqb c "+" || Ascii.eqb c "-" || Ascii.eqb c ".".

Definition not_slash (c : ascii) : bool := negb (Ascii.eqb c "/").

Definition ref_parse_absolute (s : string) : option RefUrl :=
  match split_at ":" s with
  | (scheme, Some (String "/" (String "/" rest))) =>
      if negb (is_empty scheme) && all_chars is_scheme_char scheme
      then
        let (authority, path) := span not_slash rest in
        let (host, port) :=
          match split_at ":" authority with
          | (h, Some p) => (h, p)
          | (h, None) => (h, EmptyString)
          end in
        if is_empty host then None
        else Some {| ru_protocol := scheme ++ ":";
                     ru_hostname := host;
                     ru_port := port;
                     ru_pathname := if is_empty path then "/" else path |}
      else None
  | _ => None
  end.

(** The path up to its last slash. *)
Fixpoint dirname (path : string) : string :=
  match path with
  | EmptyString => EmptyString
  | String c rest =>
      if includes rest "/" then String c (dirname rest)
      else if Ascii.eqb c "/" then "/" else EmptyString
  end.

Definition with_pathname (u : RefUrl) (p : string) : RefUrl :=
  {| ru_protocol := ru_protocol u; ru_hostname := ru_hostname u;
     ru_port := ru_port u; ru_pathname := p |}.

Definition ref_URL_new (input : string) (base : option string) : Res RefUrl :=
  let input := trim input in
  match base with
  | None =>
      match ref_parse_absolute input with
      | Some u => Ok u
      | None => Throw "TypeError: Invalid URL"
      end
  | Some b =>
      match ref_parse_absolute b with
      | None => Throw "TypeError: Invalid base URL"
      | Some bu =>
          match ref_parse_absolute input with
          | Some u => Ok u
          | None =>
              if is_empty input then Ok bu
              else if startsWith input "/" then Ok (with_pathname bu input)
              else Ok (with_pathname bu (dirname (ru_pathname bu) ++ input))
          end
      end
  end.

Definition ref_set_protocol (u : RefUrl) (p : string) : RefUrl :=
  {| ru_protocol := fst (split_at ":" p) ++ ":";
     ru_hostname := ru_hostname u;
     ru_port := ru_port u; ru_pathname := ru_pathname u |}.

Definition ref_set_port (u : RefUrl) (p : string) : RefUrl :=
  {| ru_protocol := ru_protocol u; ru_hostname := ru_hostname u;
     ru_port := p; ru_pathname := ru_pathname u |}.

Definition RefURL : JsURL :=
  {| URL := RefUrl;
     URL_new := ref_URL_new;
     url_href := ref_href;
     url_protocol := ru_protocol;
     url_hostname := ru_hostname;
     url_port := ru_port;
     url_pathname := ru_pathname;
     url_set_port := ref_set_port;
     url_set_protocol := ref_set_protocol |}.

(** The date instance covers the dates [YYYY-MM-DD] and the UTC time stamps
    [YYYY-MM-DDTHH:MM:SSZ], without a check of the ranges of their fields;
    every other string is an invalid date. *)
Definition ref_date : Regex :=
  Seq (Seq two_digits two_digits)
      (Seq (lit "-") (Seq two_digits (Seq (lit "-") two_digits))).

Definition ref_utc_stamp : Regex :=
  Seq ref_date
      (Seq (lit "T")
           (Seq two_digits
                (Seq (lit ":")
                     (Seq two_digits
                          (Seq (lit ":") (Seq two_digits (lit "Z"))))))).

Definition ref_toISOString (s : string) : Res string :=
  if regex_test ref_date s then Ok (s ++ "T00:00:00.000Z")
  else if regex_test ref_utc_stamp s then Ok (substring 0 19 s ++ ".000Z")
  else Throw "RangeError: Invalid time value".

Definition RefDate : JsDate :=
  {| Date_toISOString := ref_toISOString |}.

(** ** The specification's reading of [urlContains] *)

(** "After trimming surrounding whitespace and stripping one trailing '/'
    from each, either resulting string contains the other", two empty
    inputs counting as true. *)
Definition urlContains_as_specified (a b : string) : Prop :=
  (a = "" /\ b = "")
  \/ occurs_in (stripped a) (stripped b)
  \/ occurs_in (stripped b) (stripped a).

(** ** The specification's reading of the diff sets *)

Section DiffSets.

Context {NUM : JsNumber}.

(** No object is in both lists. *)
Definition disjoint (A B : list DAVObject) : Prop :=
  forall o, In o A -> In o B -> False.

(** url-identity of two objects: [urlContains] answers true on their
    urls. *)
Definition same_url (x y : DAVObject) : Prop :=
  urlContains_val (url x) (url y) = Ok true.

Definition same_urlb (x y : DAVObject) : bool :=
  match urlContains_val (url x) (url y) with
  | Ok b => b
  | Throw _ => false
  end.

(** Every object of [A] is url-identical to an object of [B]. *)
Definition covered_by (A B : list DAVObject) : Prop :=
  forall a, In a A -> exists b, In b B /\ same_url a b.

(** Every remote object carries a non-empty etag. *)
Definition etags_nonempty (remoteObjects : list DAVObject) : bool :=
  forallb (fun ro => js_truthy (etag ro)) remoteObjects.

(** The remote objects that match one local object are url-identical to
    each other. *)
Definition one_match (localObjects remoteObjects : list DAVObject) : bool :=
  forallb
    (fun lo =>
       forallb
         (fun r1 =>
            forallb
              (fun r2 =>
                 implb (same_urlb lo r1 && same_urlb lo r2)
                       (same_urlb r1 r2))
              remoteObjects)
         remoteObjects)
    localObjects.

(** "created ∩ updated = ∅, deleted ∩ (created ∪ updated) = ∅, and
    unchanged ∪ created ∪ updated equals the set of remote objects up to
    url-identity". *)
Definition diff_sets_as_specified
           (created updated deleted unchanged remoteObjects : list DAVObject)
  : Prop :=
  disjoint created updated
  /\ disjoint deleted (created ++ updated)
  /\ covered_by (unchanged ++ created ++ updated) remoteObjects
  /\ covered_by remoteObjects (unchanged ++ created ++ updated).

(** [curr] puts [o] into [updated]: [o] is the first remote object that
    matches [curr], and its etag is non-empty and differs. *)
Definition updated_by (remoteObjects : list DAVObject) (curr o : DAVObject)
  : Prop :=
  findM (fun ro => urlContains_val (url ro) (url curr)) remoteObjects
  = Ok (Some o)
  /\ js_truthy (etag o) = true
  /\ strict_eq (etag o) (etag curr) = false.

(** The url of the object is a string, as its type declares. *)
Definition url_is_string (o : DAVObject) : bool :=
  match url o with
  | JStr _ => true
  | _ => false
  end.

End DiffSets.

(** ** The transport contract and the failure of discovery *)

Section Contracts.

Context {NUM : JsNumber} {URLC : JsURL} {PROTO : JsPrototype}.




(** The response has a content type that mentions [xml]. *)
Definition mentions_xml (r : Response) : Prop :=
  exists ct, resp_headers_get r "content-type" = Some ct
             /\ occurs_in "xml" ct.

(** The [status] of a response element can be converted to a string. *)
Definition status_converts (responseBody : JsVal) : Prop :=
  exists line, js_toString (js_get_opt responseBody "status") = Ok line.


(** The well-known PROPFIND of [serviceDiscovery] fails: the transport
    throws, or the response is no redirect, or it has no [Location] or an
    empty one, or the [Location] does not parse. *)
Definition well_known_failed (E : Env) (account : DAVAccount)
           (headers : option Obj) (endpoint uri : URL) : Prop :=
  match fetch E (concat_opt (proxyUrl account) (url_href uri))
              {| fi_headers := headers;
                 fi_method := "PROPFIND";
                 fi_redirect := Some "manual";
                 fi_body := JUndef |} with
  | Throw _ => True
  | Ok response =>
      (Z.leb 300 (resp_status response)
       && Z.ltb (resp_status response) 400) = false
      \/ resp_headers_get response "Location" = None
      \/ resp_headers_get response "Location" = Some ""
      \/ exists location e,
          resp_headers_get response "Location" = Some location
          /\ URL_new location (Some (url_href endpoint)) = Throw e
  end.

(** The keys of an object are distinct. *)
Definition keys_unique (o : Obj) : Prop := NoDup (map fst o).


(** The same parameters with another [proxyUrl] *)
Definition set_proxyUrl (params : DAVRequestParams) (p : option string)
  : DAVRequestParams :=
  {| dr_url := dr_url params;
     dr_init := dr_init params;
     dr_convertIncoming := dr_convertIncoming params;
     dr_parseOutgoing := dr_parseOutgoing params;
     dr_proxyUrl := p |}.




(** The strategy of a run is [basic]. *)
Definition basic_chosen (collection : DAVCollection)
           (method : option SyncMethod) : Prop :=
  choose_method collection method = basic.

(** What a clean run returns: the input collection, in detailed mode with
    an empty diff. *)
Definition returned_unchanged (collection : DAVCollection)
           (detailedResult : bool) : SyncedCollection :=
  with_objects collection
    (if detailedResult then ObjectDiff [] [] []
     else Snapshot (objects collection)).

(** "For every collection where the basic strategy is chosen and
    isCollectionDirty reports isDirty = false, smartCollectionSync returns
    the input collection unchanged", for an account that has the fields
    the sync requires. *)
Definition clean_sync_as_specified (E : Env) (collection : DAVCollection)
           (method : option SyncMethod) (headers : option Obj)
           (account : DAVAccount) (detailedResult : bool) : Prop :=
  hasFields account ["accountType"; "homeUrl"] = true ->
  basic_chosen collection method ->
  (exists dirty, isCollectionDirty E collection headers = Ok dirty
                 /\ isDirty dirty = false) ->
  smartCollectionSync E collection method headers (Some account)
                      detailedResult
  = Ok (returned_unchanged collection detailedResult).

End Contracts.

(** ** Address books, objects and accounts *)

Section ObjectContracts.

Context {NUM : JsNumber} {URLC : JsURL} {PROTO : JsPrototype} {DATE : JsDate}.

(** An address book of the result comes from a response. *)
Definition addressBook_of (E : Env) (headers : option Obj)
           (account : DAVAccount) (r : DAVResponse) (book : DAVCollection)
  : Prop :=
  exists addr reports,
    to_addressBook account r = Ok addr
    /\ supportedReportSet E addr headers None = Ok reports
    /\ book = with_reports addr reports.

(** The url is full (absolute or empty) and has no [.ics] in it. *)
Definition not_an_ics_url (url : string) : bool :=
  (startsWith url "http" || is_empty url) && negb (includes url ".ics").

End ObjectContracts.

(** ** Example runs *)

Section ExampleData.

#[local] Existing Instance RefNumber.
#[local] Existing Instance RefURL.
#[local] Existing Instance RefPrototype.
#[local] Existing Instance RefDate.

(** A 207 response with an XML content type. *)
Definition xml_response (url text : string) : Response :=
  {| resp_url := url;
     resp_status := 207;
     resp_statusText := "Multi-Status";
     resp_ok := true;
     resp_headers_get :=
       fun name =>
         if String.eqb name "content-type"
         then Some "application/xml; charset=utf-8" else None;
     resp_text := text |}.

(** A server that answers every request with the same multistatus body,
    decoded to [tree]. *)
Definition canned_env (tree : JsVal) : Env :=
  {| fetch := fun url _ => Ok (xml_response url "<d:multistatus/>");
     js2xml := fun _ _ => "";
     xml2js := fun _ => Ok tree |}.

(** A transport without network. *)
Definition offline_env : Env :=
  {| fetch := fun _ _ => Throw "TypeError: Failed to fetch";
     js2xml := fun _ _ => "";
     xml2js := fun _ => Throw "no document" |}.

(** A transport that fails with the url it is asked for. *)
Definition echo_env : Env :=
  {| fetch := fun url _ => Throw url;
     js2xml := fun _ _ => "";
     xml2js := fun _ => Throw "no document" |}.

(** A server that answers 404 with an HTML page. *)
Definition not_found_response (url : string) : Response :=
  {| resp_url := url;
     resp_status := 404;
     resp_statusText := "Not Found";
     resp_ok := false;
     resp_headers_get :=
       fun name =>
         if String.eqb name "content-type" then Some "text/html" else None;
     resp_text := "<html>Not Found</html>" |}.




Definition not_found_env : Env :=
  {| fetch := fun url _ => Ok (not_found_response url);
     js2xml := fun _ _ => "";
     xml2js := fun _ => Throw "no document" |}.

(** Scenario 1: a server that redirects the well-known request to
    [/dav/]. *)
Definition redirect_env : Env :=
  {| fetch :=
       fun url _ =>
         Ok {| resp_url := url;
               resp_status := 301;
               resp_statusText := "Moved Permanently";
               resp_ok := false;
               resp_headers_get :=
                 fun name =>
                   if String.eqb name "Location" then Some "/dav/" else None;
               resp_text := "" |};
     js2xml := fun _ _ => "";
     xml2js := fun _ => Throw "no document" |}.

Definition multistatus (responses : list JsVal) : JsVal :=
  JObj [("multistatus", JObj [("response", JArr responses)])].

Definition example_account : DAVAccount :=
  {| accountType := Some caldav;
     serverUrl := "https://ex.com";
     rootUrl := Some "https://ex.com/";
     principalUrl := Some "https://ex.com/principals/me/";
     homeUrl := Some "https://ex.com/cal/home/";
     proxyUrl := None;
     calendars := None |}.

(** *** A request through a proxy *)

Definition proxied_request : DAVRequestParams :=
  {| dr_url := "https://ex.com/dav/";
     dr_init := {| method := "PROPFIND";
                   headers := Some [("depth", JStr "0")];
                   namespace := Some "d";
                   body := JObj [];
                   attributes := JUndef |};
     dr_convertIncoming := None;
     dr_parseOutgoing := None;
     dr_proxyUrl := Some "https://proxy.example/" |}.

(** A request whose caller clears one header and sets its own content
    type. *)
Definition caller_headers : Obj :=
  [("depth", JStr "1");
   ("If-Match", JStr "");
   ("Content-Type", JStr "application/xml")].

Definition request_with_headers : DAVRequestParams :=
  {| dr_url := "https://ex.com/dav/";
     dr_init := {| method := "REPORT";
                   headers := Some caller_headers;
                   namespace := Some "d";
                   body := JObj [];
                   attributes := JUndef |};
     dr_convertIncoming := None;
     dr_parseOutgoing := None;
     dr_proxyUrl := None |}.



(** *** A response with a text-only error element *)

(** The decoded form of
    [<d:response><d:href>/cal/home/work/</d:href><d:status>HTTP/1.1 200
    OK</d:status><d:error>false</d:error></d:response>]: the text of each
    element is stored as its [nativeType]. *)
Definition text_error_response : JsVal :=
  JObj [("href", nativeType "/cal/home/work/");
        ("status", nativeType "HTTP/1.1 200 OK");
        ("error", nativeType "false")].

(** A response whose status element has a child element named
    [toString]. *)
Definition odd_status_response : JsVal :=
  JObj [("href", nativeType "/cal/home/work/");
        ("status", JObj [("toString", nativeType "x")])].

Definition ok_and_error (rs : Res (list DAVResponse))
  : option (list (bool * JsVal)) :=
  match rs with
  | Ok l => Some (map (fun r => (ok r, error r)) l)
  | Throw _ => None
  end.

(** *** A calendar home *)

Definition comp (name : string) : JsVal :=
  JObj [("_attributes", JObj [("name", JStr name)])].

Definition calendar_response (path : string) (name ctag_text token : string)
           (componentSet : option JsVal) : JsVal :=
  JObj [("href", nativeType path);
        ("propstat",
         JObj [("prop",
                JObj ([("displayname", nativeType name);
                       ("getctag", nativeType ctag_text);
                       ("resourcetype",
                        JObj [("collection", JObj []); ("calendar", JObj [])]);
                       ("syncToken", nativeType token)]
                        ++ match componentSet with
                           | Some s => [("supportedCalendarComponentSet", s)]
                           | None => []
                           end)%list);
               ("status", nativeType "HTTP/1.1 200 OK")])].

(** One calendar, with events. *)
Definition work_home : JsVal :=
  multistatus
    [calendar_response "/cal/home/work/" "Work" "ctag-1" "token-1"
                       (Some (JObj [("comp", comp "VEVENT")]))].

(** The calendar as a previous fetch returned it. *)
Definition work_calendar : DAVCollection :=
  {| c_url := "https://ex.com/cal/home/work/";
     ctag := JStr "ctag-1";
     syncToken := JStr "token-1";
     displayName := JStr "Work";
     description := JStr "";
     timezone := JStr "";
     calendarColor := JUndef;
     components := Some [JStr "VEVENT"];
     resourcetype := Some ["collection"; "calendar"];
     reports := Some [];
     objects := None;
     objectMultiGet := None;
     fetchObjects := None |}.

(** Scenario 5: a journal calendar and a calendar of messages. *)
Definition journal_and_messages : JsVal :=
  multistatus
    [calendar_response "/cal/home/notes/" "Notes" "ctag-2" "token-2"
                       (Some (JObj [("comp", comp "VJOURNAL")]));
     calendar_response "/cal/home/inbox/" "Inbox" "ctag-3" "token-3"
                       (Some (JObj [("comp", comp "VMESSAGE")]))].


(** A journal calendar and a calendar without
    [supported-calendar-component-set]. *)
Definition journal_and_plain : JsVal :=
  multistatus
    [calendar_response "/cal/home/notes/" "Notes" "ctag-2" "token-2"
                       (Some (JObj [("comp", comp "VJOURNAL")]));
     calendar_response "/cal/home/plain/" "Plain" "ctag-4" "token-4" None].

(** The same home when the server reports the missing property as an empty
    element. *)
Definition journal_and_empty : JsVal :=
  multistatus
    [calendar_response "/cal/home/notes/" "Notes" "ctag-2" "token-2"
                       (Some (JObj [("comp", comp "VJOURNAL")]));
     calendar_response "/cal/home/plain/" "Plain" "ctag-4" "token-4"
                       (Some (JObj []))].

(** *** Collections and their ctag *)

(** The answer to the getctag PROPFIND of the work calendar. *)
Definition getctag_answer (ctag_text : string) : JsVal :=
  multistatus
    [JObj [("href", nativeType "/cal/home/work/");
           ("propstat",
            JObj [("prop", JObj [("getctag", nativeType ctag_text)]);
                  ("status", nativeType "HTTP/1.1 200 OK")])]].

Definition numeric_calendar : DAVCollection :=
  with_ctag work_calendar (JStr "42").

(** *** Objects *)

Definition object (u : string) (e : JsVal) : DAVObject :=
  {| url := JStr u; etag := e; data := Some JUndef |}.

(** Scenario 3: one object changed, one new. *)
Definition local_s3 : list DAVObject := [object "/c/1.ics" (JStr "a")].
Definition remote_s3 : list DAVObject :=
  [object "/c/1.ics" (JStr "b"); object "/c/2.ics" (JStr "c")].

(** The multiget responses that list the remote objects of scenario 3. *)
Definition listed (path : string) (tag : JsVal) : DAVResponse :=
  {| raw := JObj [];
     href := JStr path;
     status := 200;
     statusText := "OK";
     ok := true;
     error := JUndef;
     responsedescription := JUndef;
     props := Some [("getetag", tag)] |}.

Definition listing_s3 : list DAVResponse :=
  [listed "/c/1.ics" (JStr "b"); listed "/c/2.ics" (JStr "c")].

(** A card that the server lists without an etag. *)
Definition local_card : list DAVObject := [object "/c/1.vcf" (JStr "a")].
Definition remote_card : list DAVObject := [object "/c/1.vcf" JUndef].

(** A local path that two remote objects contain. *)
Definition local_path : list DAVObject := [object "/c/1.ics" (JStr "a")].
Definition remote_hosts : list DAVObject :=
  [object "https://a.example/c/1.ics" (JStr "b");
   object "https://b.example/c/1.ics" (JStr "c")].

(** An object whose href the decoder read as a number. *)
Definition numbered_object : DAVObject :=
  {| url := nativeType "12345"; etag := JStr "n"; data := Some JUndef |}.

(** Scenario 2: the stored ctag is the server's; the server lists other
    objects than the snapshot all the same. *)
Definition clean_calendar : DAVCollection :=
  {| c_url := "https://ex.com/cal/home/work/";
     ctag := JStr "ctag-1";
     syncToken := JUndef;
     displayName := JStr "Work";
     description := JStr "";
     timezone := JStr "";
     calendarColor := JUndef;
     components := Some [JStr "VEVENT"];
     resourcetype := Some ["collection"; "calendar"];
     reports := Some [];
     objects := Some local_s3;
     objectMultiGet := None;
     fetchObjects := Some (fun _ => Ok remote_s3) |}.

(** The same calendar when the listing of its objects fails. *)
Definition unreachable_calendar : DAVCollection :=
  {| c_url := "https://ex.com/cal/home/work/";
     ctag := JStr "ctag-1";
     syncToken := JUndef;
     displayName := JStr "Work";
     description := JStr "";
     timezone := JStr "";
     calendarColor := JUndef;
     components := Some [JStr "VEVENT"];
     resourcetype := Some ["collection"; "calendar"];
     reports := Some [];
     objects := Some local_s3;
     objectMultiGet := None;
     fetchObjects := Some (fun _ => Throw "TypeError: Failed to fetch") |}.

(** The same calendar with the snapshot of a sync that stored an href the
    decoder read as a number. *)
Definition numbered_calendar : DAVCollection :=
  {| c_url := "https://ex.com/cal/home/work/";
     ctag := JStr "ctag-1";
     syncToken := JUndef;
     displayName := JStr "Work";
     description := JStr "";
     timezone := JStr "";
     calendarColor := JUndef;
     components := Some [JStr "VEVENT"];
     resourcetype := Some ["collection"; "calendar"];
     reports := Some [];
     objects := Some [numbered_object];
     objectMultiGet := None;
     fetchObjects := Some (fun _ => Ok remote_s3) |}.

Definition clean_answer : DirtyResult :=
  {| isDirty := false; newCtag := JStr "ctag-1" |}.

Definition dirty_answer : DirtyResult :=
  {| isDirty := true; newCtag := JStr "ctag-2" |}.

(** A multistatus without a response. *)
Definition empty_multistatus : JsVal := JObj [("multistatus", JObj [])].

(** The answer for another collection than the one asked for. *)
Definition other_answer : JsVal :=
  multistatus
    [JObj [("href", nativeType "/cal/home/other/");
           ("propstat",
            JObj [("prop", JObj [("getctag", nativeType "ctag-9")]);
                  ("status", nativeType "HTTP/1.1 200 OK")])]].

Definition account_without_home : DAVAccount :=
  {| accountType := Some caldav;
     serverUrl := "https://ex.com";
     rootUrl := Some "https://ex.com/";
     principalUrl := None;
     homeUrl := None;
     proxyUrl := None;
     calendars := None |}.

(** Scenario 4: a sync-collection report with a changed, a deleted and a
    new object, and the multiget of the two that exist. *)
Definition report_s4 : JsVal :=
  JObj [("multistatus",
         JObj [("response",
                JArr [JObj [("href", nativeType "/c/1.ics");
                            ("propstat",
                             JObj [("prop",
                                    JObj [("getetag", nativeType "a2")]);
                                   ("status", nativeType "HTTP/1.1 200 OK")])];
                      JObj [("href", nativeType "/c/2.ics");
                            ("status", nativeType "HTTP/1.1 404 Not Found")];
                      JObj [("href", nativeType "/c/3.ics");
                            ("propstat",
                             JObj [("prop",
                                    JObj [("getetag", nativeType "c1")]);
                                   ("status", nativeType "HTTP/1.1 200 OK")])]]);
               ("syncToken", nativeType "token-2")])].

Definition multiget_response (path tag text : string) : DAVResponse :=
  {| raw := JObj [];
     href := JStr path;
     status := 200;
     statusText := "OK";
     ok := true;
     error := JUndef;
     responsedescription := JUndef;
     props := Some [("getetag", JStr tag);
                    ("calendarData", JObj [("_cdata", JStr text)])] |}.

Definition multiget_s4 : list DAVResponse :=
  [multiget_response "/c/1.ics" "a2" "BEGIN:VCALENDAR 1";
   multiget_response "/c/3.ics" "c1" "BEGIN:VCALENDAR 3"].

Definition calendar_s4 : DAVCollection :=
  {| c_url := "https://ex.com/c/";
     ctag := JUndef;
     syncToken := JStr "token-1";
     displayName := JStr "Work";
     description := JStr "";
     timezone := JStr "";
     calendarColor := JUndef;
     components := Some [JStr "VEVENT"];
     resourcetype := Some ["collection"; "calendar"];
     reports := Some [JStr "syncCollection"];
     objects := Some [object "https://ex.com/c/1.ics" (JStr "a1");
                      object "https://ex.com/c/2.ics" (JStr "b1")];
     objectMultiGet := Some (fun _ => Ok multiget_s4);
     fetchObjects := None |}.

(** The responses [davRequest] makes of the report. *)
Definition responses_s4 : list DAVResponse :=
  match webdav_report (canned_env report_s4) calendar_s4 example_account None
  with
  | Ok result => result
  | Throw _ => []
  end.

Definition synced_view (r : Res SyncedCollection) : option (SyncObjects * JsVal) :=
  match r with
  | Ok c => Some (objects c, syncToken c)
  | Throw _ => None
  end.

(** *** Accounts *)

Definition bare_host_account : DAVAccount :=
  {| accountType := Some caldav;
     serverUrl := "ex.com";
     rootUrl := None;
     principalUrl := None;
     homeUrl := None;
     proxyUrl := Some "";
     calendars := None |}.

Definition new_account : DAVAccount :=
  {| accountType := Some caldav;
     serverUrl := "https://ex.com";
     rootUrl := None;
     principalUrl := None;
     homeUrl := None;
     proxyUrl := Some "";
     calendars := None |}.

(** A server that rejects the credentials. *)
Definition unauthorized_response (url : string) : Response :=
  {| resp_url := url;
     resp_status := 401;
     resp_statusText := "Unauthorized";
     resp_ok := false;
     resp_headers_get := fun _ => None;
     resp_text := "" |}.

Definition unauthorized_env : Env :=
  {| fetch := fun url _ => Ok (unauthorized_response url);
     js2xml := fun _ _ => "";
     xml2js := fun _ => Throw "no document" |}.

(** *** A stored object and the headers of a client *)

Definition stored_event : DAVObject :=
  {| url := JStr "https://ex.com/cal/home/work/1.ics";
     etag := JStr "a1";
     data := Some (JStr "BEGIN:VCALENDAR") |}.

Definition client_headers : Obj :=
  [("authorization", JStr "Basic dTpw"); ("If-Match", JStr "")].

(** The namespaces [propfind] declares. *)
Definition propfind_namespaces : list string :=
  [DAVNamespace.CALDAV; DAVNamespace.CALDAV_APPLE;
   DAVNamespace.CALENDAR_SERVER; DAVNamespace.CARDDAV; DAVNamespace.DAV].

(** *** Address books *)

Definition addressBook_response (path name : string) (types : Obj) : JsVal :=
  JObj [("href", nativeType path);
        ("propstat",
         JObj [("prop",
                JObj [("displayname", nativeType name);
                      ("getctag", nativeType "ctag-7");
                      ("resourcetype", JObj types)]);
               ("status", nativeType "HTTP/1.1 200 OK")])].

(** The home collection and one address book. *)
Definition contacts_home : JsVal :=
  multistatus
    [addressBook_response "/card/home/" "Home" [("collection", JObj [])];
     addressBook_response "/card/home/contacts/" "Contacts"
                          [("collection", JObj []); ("addressbook", JObj [])]].

Definition card_account : DAVAccount :=
  {| accountType := Some carddav;
     serverUrl := "https://ex.com";
     rootUrl := Some "https://ex.com/";
     principalUrl := Some "https://ex.com/principals/me/";
     homeUrl := Some "https://ex.com/card/home/";
     proxyUrl := None;
     calendars := None |}.

(** The responses [propfind] makes of the home. *)
Definition home_contacts : list DAVResponse :=
  match propfind (canned_env contacts_home) "https://ex.com/card/home/"
                 addressBook_props (JStr "1") None None with
  | Ok res => res
  | Throw _ => []
  end.

(** *** Time ranges and object urls *)

Definition open_range : TimeRange :=
  {| tr_start := "2024-01-01"; tr_end := "tomorrow" |}.

Definition other_urls : list string :=
  ["https://ex.com/cal/home/work/notes.txt"; ""].

(** *** Discovery *)

(** A server that names the principal and its calendar home. *)
Definition principal_answer : JsVal :=
  multistatus
    [JObj [("href", JStr "/principals/me/");
           ("propstat",
            JObj [("prop",
                   JObj [("currentUserPrincipal",
                          JObj [("href", JStr "/principals/me/")]);
                         ("calendarHomeSet",
                          JObj [("href", JStr "/cal/home/")])])])]].

Definition given_account : LoadedAccount :=
  {| la_account := new_account; la_addressBooks := None |}.

Definition discovered_account : LoadedAccount :=
  {| la_account :=
       {| accountType := Some caldav;
          serverUrl := "https://ex.com";
          rootUrl := Some "https://ex.com/";
          principalUrl := Some "https://ex.com/principals/me/";
          homeUrl := Some "https://ex.com/cal/home/";
          proxyUrl := Some "";
          calendars := None |};
     la_addressBooks := None |}.

(** *** Supported reports *)

Definition report (name : string) : JsVal :=
  JObj [("report", JObj [(name, JObj [])])].

Definition reports_answer (supportedReport : JsVal) : JsVal :=
  multistatus
    [JObj [("href", JStr "/cal/home/work/");
           ("propstat",
            JObj [("prop",
                   JObj [("supportedReportSet",
                          JObj [("supportedReport", supportedReport)])])])]].

(** The first response [propfind] makes of the answer. *)
Definition reports_response (supportedReport : JsVal) : DAVResponse :=
  match propfind (canned_env (reports_answer supportedReport))
                 "https://ex.com/cal/home/work/"
                 (JObj [("d:supported-report-set", JObj [])]) (JStr "0")
                 None None with
  | Ok (r :: _) => r
  | _ => synthetic_response (xml_response "" "")
  end.

Definition two_reports : JsVal :=
  JArr [report "syncCollection"; report "calendarMultiget"].

(** "Returns the account's serverUrl string as the rootUrl, and never
    raises an error". *)
Definition serviceDiscovery_as_specified (E : Env) (account : DAVAccount)
  : Prop :=
  serviceDiscovery E account None = Ok (serverUrl account).

End ExampleData.

(** ** Facts on strings *)

Lemma append_empty_r (s : string) : s ++ "" = s.
Proof. induction s; simpl; congruence. Qed.

Lemma append_assoc (a b c : string) : (a ++ b) ++ c = a ++ b ++ c.
Proof. induction a; simpl; congruence. Qed.

Lemma prefix_spec (n s : string) :
  prefix n s = true <-> exists post, s = n ++ post.
Proof.
  revert s; induction n as [|c n IH]; intros s.
  - split; [intros _; exists s; reflexivity | intros _; destruct s; reflexivity].
  - destruct s as [|d s]; simpl.
    + split; [discriminate | intros [post H]; discriminate].
    + destruct (ascii_dec c d) as [->|Hne].
      * rewrite IH. split; intros [post H]; exists post.
        -- now rewrite H.
        -- now inversion H.
      * split; [discriminate | intros [post H]; inversion H; congruence].
Qed.

Lemma includes_nil (n : string) : includes "" n = prefix n "".
Proof. simpl. apply orb_false_r. Qed.

Lemma includes_cons (c : ascii) (s n : string) :
  includes (String c s) n = prefix n (String c s) || includes s n.
Proof. reflexivity. Qed.

Lemma includes_spec (s n : string) :
  includes s n = true <-> occurs_in n s.
Proof.
  unfold occurs_in.
  induction s as [|c s IH].
  - rewrite includes_nil, prefix_spec. split.
    + intros [post H]. exists "", post. exact H.
    + intros [pre [post H]]. destruct pre; [|discriminate].
      exists post. exact H.
  - rewrite includes_cons, orb_true_iff, prefix_spec, IH. split.
    + intros [[post H] | [pre [post H]]].
      * exists "", post. exact H.
      * exists (String c pre), post. simpl. now rewrite H.
    + intros [pre [post H]]. destruct pre as [|d pre]; simpl in H.
      * left. exists post. exact H.
      * right. inversion H. exists pre, post. reflexivity.
Qed.

Lemma occurs_in_refl (s : string) : occurs_in s s.
Proof. exists "", "". simpl. now rewrite append_empty_r. Qed.

Lemma occurs_in_trans (a b c : string) :
  occurs_in a b -> occurs_in b c -> occurs_in a c.
Proof.
  intros [p1 [q1 H1]] [p2 [q2 H2]]. subst.
  exists (p2 ++ p1), (q1 ++ q2). now rewrite !append_assoc.
Qed.

Lemma trimStart_occurs (s : string) : occurs_in (trimStart s) s.
Proof.
  induction s as [|c s IH]; simpl.
  - apply occurs_in_refl.
  - destruct (is_ws c).
    + destruct IH as [pre [post H]]. exists (String c pre), post.
      simpl. now rewrite <- H.
    + apply occurs_in_refl.
Qed.

Lemma trimEnd_prefix (s : string) : exists post, s = trimEnd s ++ post.
Proof.
  induction s as [|c s [post IH]]; simpl.
  - exists "". reflexivity.
  - destruct (is_ws c && is_empty (trimEnd s)).
    + exists (String c s). reflexivity.
    + exists post. simpl. now rewrite <- IH.
Qed.

Lemma slice_but_last_cons (c d : ascii) (s : string) :
  slice_but_last (String c (String d s))
  = String c (slice_but_last (String d s)).
Proof. reflexivity. Qed.

Lemma slice_but_last_prefix (s : string) :
  exists post, s = slice_but_last s ++ post.
Proof.
  induction s as [|c s [post IH]].
  - exists "". reflexivity.
  - destruct s as [|d s].
    + exists (String c ""). reflexivity.
    + exists post. rewrite slice_but_last_cons. cbn [append].
      f_equal. exact IH.
Qed.

Lemma prefix_occurs (a s post : string) : s = a ++ post -> occurs_in a s.
Proof. intros ->. exists "", post. reflexivity. Qed.

Lemma trim_occurs (s : string) : occurs_in (trim s) s.
Proof.
  unfold trim. apply occurs_in_trans with (trimStart s).
  - destruct (trimEnd_prefix (trimStart s)) as [post H].
    eapply prefix_occurs; exact H.
  - apply trimStart_occurs.
Qed.

Lemma stripped_occurs (s : string) : occurs_in (stripped s) s.
Proof.
  unfold stripped.
  destruct (String.eqb (slice_last1 (trim s)) "/").
  - apply occurs_in_trans with (trim s); [|apply trim_occurs].
    destruct (slice_but_last_prefix (trim s)) as [post H].
    eapply prefix_occurs; exact H.
  - apply trim_occurs.
Qed.

(** *** [urlContains] is reflexive and symmetric *)

Lemma urlContains_refl (u : string) : urlContains u u = true.
Proof.
  unfold urlContains. destruct (is_empty u) eqn:E; simpl; [reflexivity|].
  apply orb_true_iff. left. apply includes_spec, stripped_occurs.
Qed.

Lemma urlContains_sym (a b : string) : urlContains a b = urlContains b a.
Proof.
  unfold urlContains.
  rewrite (andb_comm (is_empty a)), (orb_comm (is_empty a)).
  destruct (is_empty b && is_empty a); [reflexivity|].
  destruct (is_empty b || is_empty a); [reflexivity|].
  apply orb_comm.
Qed.

Lemma is_empty_true (s : string) : is_empty s = true <-> s = "".
Proof. destruct s; simpl; split; congruence. Qed.

Lemma is_empty_false (s : string) : is_empty s = false <-> s <> "".
Proof. destruct s; simpl; split; congruence. Qed.

(** ** [urlContains] *)

Lemma stripped_empty : stripped "" = "".
Proof. reflexivity. Qed.

Lemma occurs_in_dec (n s : string) : {occurs_in n s} + {~ occurs_in n s}.
Proof.
  destruct (includes s n) eqn:E.
  - left. now apply includes_spec.
  - right. intros H. apply includes_spec in H. congruence.
Qed.

(** The two guards and the two searches of [urlContains]. *)
Lemma urlContains_true (a b : string) :
  urlContains a b = true <->
  (a = "" /\ b = "")
  \/ (a <> "" /\ b <> ""
      /\ (occurs_in (stripped b) a \/ occurs_in (stripped a) b)).
Proof.
  unfold urlContains.
  destruct (is_empty a) eqn:Ea; destruct (is_empty b) eqn:Eb; simpl.
  - apply is_empty_true in Ea, Eb. split; [intros _; now left | reflexivity].
  - apply is_empty_true in Ea. apply is_empty_false in Eb.
    split; [discriminate|]. intros [[_ H] | [H _]]; congruence.
  - apply is_empty_false in Ea. apply is_empty_true in Eb.
    split; [discriminate|]. intros [[H _] | [_ [H _]]]; congruence.
  - apply is_empty_false in Ea, Eb.
    rewrite orb_true_iff, !includes_spec. split.
    + intros H. right. auto.
    + intros [[H _] | [_ [_ H]]]; [congruence | exact H].
Qed.

(** C5, as amended.  [urlContains(a, b)] is true exactly when both strings
    are empty, or both are non-empty and one of the strings as given
    contains the other one trimmed and without its trailing slash; with
    exactly one empty string it is false. *)
Theorem urlContains_iff (a b : string) :
  (urlContains a b = true <->
   (a = "" /\ b = "")
   \/ (a <> "" /\ b <> ""
       /\ (occurs_in (stripped b) a \/ occurs_in (stripped a) b)))
  /\ urlContains a "" = is_empty a
  /\ urlContains "" b = is_empty b.
Proof.
  split; [apply urlContains_true|].
  split; [destruct a | destruct b]; reflexivity.
Qed.

(** The direction of the specification that survives: between non-empty
    strings, containment of the stripped forms is enough. *)
Lemma urlContains_of_stripped (a b : string) :
  a <> "" -> b <> "" ->
  occurs_in (stripped a) (stripped b) \/ occurs_in (stripped b) (stripped a) ->
  urlContains a b = true.
Proof.
  intros Ha Hb H. apply urlContains_true. right. repeat split; try assumption.
  destruct H as [H | H].
  - right. eapply occurs_in_trans; [exact H | apply stripped_occurs].
  - left. eapply occurs_in_trans; [exact H | apply stripped_occurs].
Qed.

(** X1.  [urlContains] is reflexive and symmetric, and a non-empty url matches
    every string that contains it: itself with a trailing slash, with
    surrounding white space, or as the path of an absolute url. *)
Theorem urlContains_reflexive_symmetric :
  (forall u, urlContains u u = true)
  /\ (forall a b, urlContains a b = urlContains b a)
  /\ (forall u pre post, u <> "" -> urlContains u (pre ++ u ++ post) = true).
Proof.
  split; [exact urlContains_refl|]. split; [exact urlContains_sym|].
  intros u pre post Hu. apply urlContains_true. right.
  split; [assumption|]. split.
  - destruct pre; [destruct u; [congruence|]|]; discriminate.
  - right. apply occurs_in_trans with u; [apply stripped_occurs|].
    exists pre, post. reflexivity.
Qed.

(** C5 as stated fails twice: with exactly one empty string the code
    answers [false] although the empty string occurs in every string, and
    the code searches the strings as given, so ["/cal/"] and ["cal//"]
    match although neither stripped form contains the other. *)
Lemma urlContains_as_specified_fails :
  ~ (urlContains "" "/cal/" = true <-> urlContains_as_specified "" "/cal/")
  /\ ~ (urlContains "/cal/" "cal//" = true
        <-> urlContains_as_specified "/cal/" "cal//").
Proof.
  split.
  - intros [_ H]. assert (urlContains "" "/cal/" = true) as E.
    { apply H. right. left. exists "", "/cal". reflexivity. }
    discriminate E.
  - intros [H _]. destruct (H eq_refl) as [[E _] | [C | C]].
    + discriminate E.
    + apply includes_spec in C. discriminate C.
    + apply includes_spec in C. discriminate C.
Qed.

(** ** [urlEquals] *)

Lemma length_slice_but_last (s : string) :
  String.length (slice_but_last s) = pred (String.length s).
Proof.
  induction s as [|c s IH]; [reflexivity|].
  destruct s as [|d s]; [reflexivity|].
  rewrite slice_but_last_cons. cbn [String.length]. rewrite IH. reflexivity.
Qed.

(** Stripping removes at most one code unit of the trimmed url. *)
Lemma length_stripped (u : string) :
  String.length (stripped u) <= String.length (trim u)
  /\ String.length (trim u) <= S (String.length (stripped u)).
Proof.
  unfold stripped. destruct (String.eqb (slice_last1 (trim u)) "/").
  - rewrite length_slice_but_last. lia.
  - lia.
Qed.

(** The two guards, the test on the lengths and the two searches of
    [urlEquals]. *)
Lemma urlEquals_true (a b : string) :
  urlEquals a b = true <->
  (a = "" /\ b = "")
  \/ (a <> "" /\ b <> ""
      /\ (Z.abs (Z.of_nat (String.length (trim a))
                 - Z.of_nat (String.length (trim b))) <= 1)%Z
      /\ (occurs_in (stripped b) a \/ occurs_in (stripped a) b)).
Proof.
  unfold urlEquals.
  destruct (is_empty a) eqn:Ea; destruct (is_empty b) eqn:Eb; simpl.
  - apply is_empty_true in Ea, Eb. split; [intros _; now left | reflexivity].
  - apply is_empty_true in Ea. apply is_empty_false in Eb.
    split; [discriminate|]. intros [[_ H] | [H _]]; congruence.
  - apply is_empty_false in Ea. apply is_empty_true in Eb.
    split; [discriminate|]. intros [[H _] | [_ [H _]]]; congruence.
  - apply is_empty_false in Ea, Eb.
    destruct (Z.ltb_spec 1 (Z.abs (Z.of_nat (String.length (trim a))
                                   - Z.of_nat (String.length (trim b)))))
      as [L | L].
    + split; [discriminate|]. intros [[H _] | [_ [_ [H _]]]]; [congruence|lia].
    + rewrite orb_true_iff, !includes_spec. split.
      * intros H. right. auto.
      * intros [[H _] | [_ [_ [_ H]]]]; [congruence | exact H].
Qed.

(** X10.  [urlEquals(a, b)] is true exactly when both strings are empty, or
    both are non-empty, their trimmed lengths differ by at most one and one of
    the strings as given contains the other one trimmed and without its
    trailing slash.  It is symmetric, it implies [urlContains], and it holds
    for two non-empty urls that are the same once trimmed and stripped of one
    trailing slash. *)
Theorem urlEquals_spec :
  (forall a b,
      urlEquals a b = true <->
      (a = "" /\ b = "")
      \/ (a <> "" /\ b <> ""
          /\ (Z.abs (Z.of_nat (String.length (trim a))
                     - Z.of_nat (String.length (trim b))) <= 1)%Z
          /\ (occurs_in (stripped b) a \/ occurs_in (stripped a) b)))
  /\ (forall a b, urlEquals a b = urlEquals b a)
  /\ (forall a b, urlEquals a b = true -> urlContains a b = true)
  /\ (forall a b, a <> "" -> b <> "" -> stripped a = stripped b ->
                  urlEquals a b = true).
Proof.
  split; [exact urlEquals_true|]. split; [|split].
  - intros a b. unfold urlEquals.
    rewrite (andb_comm (is_empty a)), (orb_comm (is_empty a)).
    destruct (is_empty b && is_empty a); [reflexivity|].
    destruct (is_empty b || is_empty a); [reflexivity|].
    replace (Z.abs (Z.of_nat (String.length (trim b))
                    - Z.of_nat (String.length (trim a))))
      with (Z.abs (Z.of_nat (String.length (trim a))
                   - Z.of_nat (String.length (trim b)))) by lia.
    destruct (Z.ltb 1 _); [reflexivity | apply orb_comm].
  - intros a b H. apply urlEquals_true in H. apply urlContains_true.
    destruct H as [H | [Ha [Hb [_ H]]]]; [now left | right; auto].
  - intros a b Ha Hb H. apply urlEquals_true. right.
    split; [assumption|]. split; [assumption|]. split.
    + pose proof (length_stripped a) as [A1 A2].
      pose proof (length_stripped b) as [B1 B2].
      rewrite H in A1, A2. lia.
    + left. rewrite <- H. apply stripped_occurs.
Qed.

(** ** [camelCase] *)

Lemma string_pair_ind (P : string -> Prop) :
  P "" ->
  (forall c, P (String c "")) ->
  (forall c d s, P s -> P (String d s) -> P (String c (String d s))) ->
  forall s, P s.
Proof.
  intros H0 H1 H2 s.
  assert (P s /\ forall c, P (String c s)) as [H _]; [|exact H].
  induction s as [|d s [IHs IHc]].
  - split; [exact H0 | exact H1].
  - split; [apply IHc|]. intros c. apply H2; [exact IHs | apply IHc].
Qed.

Lemma camelCase_cons2 (c d : ascii) (s : string) :
  camelCase (String c (String d s))
  = if is_separator c && is_word d
    then String (upper_char d) (camelCase s)
    else String c (camelCase (String d s)).
Proof. reflexivity. Qed.

(** A name without [-] and [_] is left as it is. *)
Lemma camelCase_plain (s : string) :
  all_chars (fun c => negb (is_separator c)) s = true -> camelCase s = s.
Proof.
  induction s as [| c | c d s IHs IHd] using string_pair_ind; intros H.
  - reflexivity.
  - reflexivity.
  - rewrite camelCase_cons2. cbn [all_chars] in H.
    apply andb_true_iff in H. destruct H as [Hc H].
    apply negb_true_iff in Hc. rewrite Hc. cbn [andb].
    now rewrite (IHd H).
Qed.

(** A hyphen before a letter, a digit or an underscore is removed and the
    code unit after it is upper-cased, whatever stands before the hyphen. *)
Lemma camelCase_hyphen (a b : string) (d : ascii) :
  is_word d = true ->
  camelCase (a ++ String "-" (String d b))
  = camelCase a ++ String (upper_char d) (camelCase b).
Proof.
  intros Hd.
  induction a as [| c | c e s IHs IHe] using string_pair_ind.
  - cbn [append]. rewrite camelCase_cons2, Hd. reflexivity.
  - cbn [append]. rewrite camelCase_cons2.
    replace (is_word "-") with false by reflexivity.
    rewrite andb_false_r, camelCase_cons2, Hd. reflexivity.
  - cbn [append]. rewrite !camelCase_cons2.
    destruct (is_separator c && is_word e).
    + cbn [append]. now rewrite IHs.
    + cbn [append]. f_equal. exact IHe.
Qed.

Lemma camelCase_length (s : string) :
  String.length (camelCase s) <= String.length s.
Proof.
  induction s as [| c | c d s IHs IHd] using string_pair_ind.
  - reflexivity.
  - reflexivity.
  - rewrite camelCase_cons2. destruct (is_separator c && is_word d).
    + cbn [String.length]. lia.
    + cbn [String.length] in *. lia.
Qed.

(** X11.  [camelCase] leaves a name without [-] and [_] as it is; it removes
    a hyphen that stands before a letter, a digit or an underscore and
    upper-cases the code unit after it, whatever stands before the hyphen;
    and it never makes a name longer. *)
Theorem camelCase_spec :
  (forall s, all_chars (fun c => negb (is_separator c)) s = true ->
             camelCase s = s)
  /\ (forall a b d, is_word d = true ->
                    camelCase (a ++ String "-" (String d b))
                    = camelCase a ++ String (upper_char d) (camelCase b))
  /\ (forall s, String.length (camelCase s) <= String.length s).
Proof.
  split; [exact camelCase_plain|].
  split; [exact camelCase_hyphen | exact camelCase_length].
Qed.

(** ** Callbacks that may throw *)

Lemma filterM_In {A : Type} (f : A -> Res bool) (xs ys : list A) :
  filterM f xs = Ok ys ->
  forall x, In x ys <-> In x xs /\ f x = Ok true.
Proof.
  revert ys. induction xs as [|a xs IH]; intros ys; simpl.
  - intros H x. inversion H; subst. simpl. tauto.
  - destruct (f a) as [keep|e] eqn:Fa; simpl; [|discriminate].
    destruct (filterM f xs) as [ys'|e] eqn:M; simpl; [|discriminate].
    intros H x. inversion H; subst; clear H.
    specialize (IH ys' eq_refl x).
    destruct keep; simpl; rewrite IH; split.
    + intros [<- | [H1 H2]]; auto.
    + intros [[<- | H1] H2]; auto.
    + intros [H1 H2]; auto.
    + intros [[<- | H1] H2]; [congruence | auto].
Qed.

Lemma filterM_defined {A : Type} (f : A -> Res bool) (xs ys : list A) :
  filterM f xs = Ok ys -> forall x, In x xs -> exists b, f x = Ok b.
Proof.
  revert ys. induction xs as [|a xs IH]; intros ys; simpl; [contradiction|].
  destruct (f a) as [keep|e] eqn:Fa; simpl; [|discriminate].
  destruct (filterM f xs) as [ys'|e] eqn:M; simpl; [|discriminate].
  intros _ x [<- | Hx]; [eauto | exact (IH ys' eq_refl x Hx)].
Qed.

Lemma filterM_exists {A : Type} (f : A -> Res bool) (xs : list A) :
  (forall x, In x xs -> exists b, f x = Ok b) ->
  exists ys, filterM f xs = Ok ys.
Proof.
  induction xs as [|a xs IH]; intros H; simpl; [eauto|].
  destruct (H a (or_introl eq_refl)) as [b Hb]. rewrite Hb. simpl.
  destruct IH as [ys Hys]; [intros y Hy; apply H; now right|].
  rewrite Hys. simpl. eauto.
Qed.

Lemma everyM_true {A : Type} (f : A -> Res bool) (xs : list A) :
  everyM f xs = Ok true <-> forall x, In x xs -> f x = Ok true.
Proof.
  induction xs as [|a xs IH]; simpl.
  - split; [intros _ x [] | reflexivity].
  - destruct (f a) as [[|]|e] eqn:Fa; simpl.
    + rewrite IH. split.
      * intros H x [<- | Hx]; auto.
      * intros H x Hx. apply H. now right.
    + split; [discriminate|]. intros H.
      specialize (H a (or_introl eq_refl)). congruence.
    + split; [discriminate|]. intros H.
      specialize (H a (or_introl eq_refl)). congruence.
Qed.

Lemma everyM_false {A : Type} (f : A -> Res bool) (xs : list A) :
  everyM f xs = Ok false -> exists x, In x xs /\ f x = Ok false.
Proof.
  induction xs as [|a xs IH]; simpl; [discriminate|].
  destruct (f a) as [[|]|e] eqn:Fa; simpl; [|eauto|discriminate].
  intros H. destruct (IH H) as [x [Hx Fx]]. eauto.
Qed.

Lemma everyM_exists {A : Type} (f : A -> Res bool) (xs : list A) :
  (forall x, In x xs -> exists b, f x = Ok b) -> exists b, everyM f xs = Ok b.
Proof.
  induction xs as [|a xs IH]; intros H; simpl; [eauto|].
  destruct (H a (or_introl eq_refl)) as [b Hb]. rewrite Hb. simpl.
  destruct b; [|eauto]. apply IH. intros y Hy. apply H. now right.
Qed.

Lemma someM_true {A : Type} (f : A -> Res bool) (xs : list A) :
  someM f xs = Ok true -> exists x, In x xs /\ f x = Ok true.
Proof.
  induction xs as [|a xs IH]; simpl; [discriminate|].
  destruct (f a) as [[|]|e] eqn:Fa; simpl; [eauto| |discriminate].
  intros H. destruct (IH H) as [x [Hx Fx]]. eauto.
Qed.

Lemma someM_false {A : Type} (f : A -> Res bool) (xs : list A) :
  someM f xs = Ok false <-> forall x, In x xs -> f x = Ok false.
Proof.
  induction xs as [|a xs IH]; simpl.
  - split; [intros _ x [] | reflexivity].
  - destruct (f a) as [[|]|e] eqn:Fa; simpl.
    + split; [discriminate|]. intros H.
      specialize (H a (or_introl eq_refl)). congruence.
    + rewrite IH. split.
      * intros H x [<- | Hx]; auto.
      * intros H x Hx. apply H. now right.
    + split; [discriminate|]. intros H.
      specialize (H a (or_introl eq_refl)). congruence.
Qed.

Lemma someM_exists {A : Type} (f : A -> Res bool) (xs : list A) :
  (forall x, In x xs -> exists b, f x = Ok b) -> exists b, someM f xs = Ok b.
Proof.
  induction xs as [|a xs IH]; intros H; simpl; [eauto|].
  destruct (H a (or_introl eq_refl)) as [b Hb]. rewrite Hb. simpl.
  destruct b; [eauto|]. apply IH. intros y Hy. apply H. now right.
Qed.

Lemma findM_Some {A : Type} (f : A -> Res bool) (xs : list A) (x : A) :
  findM f xs = Ok (Some x) -> In x xs /\ f x = Ok true.
Proof.
  induction xs as [|a xs IH]; simpl; [discriminate|].
  destruct (f a) as [[|]|e] eqn:Fa; simpl; [| |discriminate].
  - intros H. inversion H; subst. auto.
  - intros H. destruct (IH H). auto.
Qed.

Lemma findM_None {A : Type} (f : A -> Res bool) (xs : list A) :
  findM f xs = Ok None -> forall x, In x xs -> f x = Ok false.
Proof.
  induction xs as [|a xs IH]; simpl; [intros _ x []|].
  destruct (f a) as [[|]|e] eqn:Fa; simpl; [discriminate| |discriminate].
  intros H x [<- | Hx]; auto.
Qed.

Lemma findM_exists {A : Type} (f : A -> Res bool) (xs : list A) :
  (forall x, In x xs -> exists b, f x = Ok b) ->
  exists found, findM f xs = Ok found.
Proof.
  induction xs as [|a xs IH]; intros H; simpl; [eauto|].
  destruct (H a (or_introl eq_refl)) as [b Hb]. rewrite Hb. simpl.
  destruct b; [eauto|]. apply IH. intros y Hy. apply H. now right.
Qed.

(** ** The diff of [smartCollectionSync] *)

Section DiffProperties.

Context {NUM : JsNumber}.

(** On strings [urlContains_val] is [urlContains]. *)
Lemma urlContains_val_strings (a b : string) :
  urlContains_val (JStr a) (JStr b) = Ok (urlContains a b).
Proof.
  unfold urlContains_val, urlContains. simpl.
  destruct (is_empty a), (is_empty b); reflexivity.
Qed.

Lemma urlContains_val_sym (v w : JsVal) :
  urlContains_val v w = urlContains_val w v.
Proof.
  unfold urlContains_val.
  destruct (js_truthy v) eqn:Tv, (js_truthy w) eqn:Tw; simpl; try reflexivity.
  destruct v, w; try reflexivity. now rewrite urlContains_sym.
Qed.

(** [urlContains] never tells a url from itself. *)
Lemma urlContains_val_self (v : JsVal) : urlContains_val v v <> Ok false.
Proof.
  unfold urlContains_val. destruct (js_truthy v) eqn:T; simpl; [|discriminate].
  destruct v; try discriminate. rewrite urlContains_refl. discriminate.
Qed.

Lemma not_match_spec (v w : JsVal) (b : bool) :
  (c <- urlContains_val v w ;; Ok (negb c)) = Ok b
  <-> urlContains_val v w = Ok (negb b).
Proof.
  destruct (urlContains_val v w) as [[|]|e]; destruct b; simpl;
    split; congruence.
Qed.

Lemma In_diff_created (l r created : list DAVObject) (o : DAVObject) :
  diff_created l r = Ok created ->
  (In o created <->
   In o r /\ forall lo, In lo l ->
                        urlContains_val (url lo) (url o) = Ok false).
Proof.
  intros H. rewrite (filterM_In _ _ H o), everyM_true.
  split; intros [H1 H2]; split; try assumption; intros lo Hlo.
  - now apply (not_match_spec _ _ true), H2.
  - now apply (not_match_spec _ _ true), H2.
Qed.

(** A remote object that is not created matches a local object. *)
Lemma diff_created_or_matched (l r created : list DAVObject)
      (ro : DAVObject) :
  diff_created l r = Ok created -> In ro r ->
  In ro created
  \/ exists lo, In lo l /\ urlContains_val (url lo) (url ro) = Ok true.
Proof.
  intros H Hr. destruct (filterM_defined _ _ H ro Hr) as [[|] Hb].
  - left. apply (filterM_In _ _ H). auto.
  - right. apply everyM_false in Hb. destruct Hb as [lo [Hlo Hb]].
    exists lo. split; [assumption|]. now apply (not_match_spec _ _ false).
Qed.

Lemma In_diff_updated_acc (l r acc updated : list DAVObject) :
  reduceM
    (fun prev curr =>
       found <- findM (fun ro => urlContains_val (url ro) (url curr)) r ;;
       match found with
       | Some found =>
           if js_truthy (etag found)
              && negb (strict_eq (etag found) (etag curr))
           then Ok (prev ++ [found])%list
           else Ok prev
       | None => Ok prev
       end) l acc = Ok updated ->
  (forall o, In o updated <->
             In o acc \/ exists curr, In curr l /\ updated_by r curr o)
  /\ forall curr, In curr l ->
       exists found,
         findM (fun ro => urlContains_val (url ro) (url curr)) r = Ok found.
Proof.
  revert acc. induction l as [|c l IH]; intros acc; simpl.
  - intros H. inversion H; subst. split; [|intros curr []].
    intros o. split; [now left | intros [H1 | [curr [[] _]]]; exact H1].
  - destruct (findM (fun ro => urlContains_val (url ro) (url c)) r)
      as [found|e] eqn:F; simpl; [|discriminate].
    intros H.
    assert (forall acc',
              reduceM
                (fun prev curr =>
                   found <- findM (fun ro => urlContains_val (url ro)
                                                              (url curr)) r ;;
                   match found with
                   | Some found =>
                       if js_truthy (etag found)
                          && negb (strict_eq (etag found) (etag curr))
                       then Ok (prev ++ [found])%list
                       else Ok prev
                   | None => Ok prev
                   end) l acc' = Ok updated ->
              (forall o, In o acc' <->
                         In o acc \/ updated_by r c o) ->
              (forall o, In o updated <->
                         In o acc
                         \/ exists curr, (c = curr \/ In curr l)
                                         /\ updated_by r curr o)
              /\ forall curr, c = curr \/ In curr l ->
                   exists found0,
                     findM (fun ro => urlContains_val (url ro) (url curr)) r
                     = Ok found0) as G.
    { intros acc' H' Hacc. destruct (IH acc' H') as [I1 I2]. split.
      - intros o. rewrite I1, Hacc. split.
        + intros [[H1 | H1] | [curr [H1 H2]]].
          * now left.
          * right. exists c. auto.
          * right. exists curr. auto.
        + intros [H1 | [curr [[<- | H1] H2]]].
          * left. now left.
          * left. now right.
          * right. exists curr. auto.
      - intros curr [<- | Hc]; [eauto | now apply I2]. }
    unfold updated_by in G. unfold updated_by.
    destruct found as [found|].
    + destruct (js_truthy (etag found)) eqn:T;
        destruct (strict_eq (etag found) (etag c)) eqn:Q; simpl in H;
          apply (G _ H); intros o; rewrite ?in_app_iff; simpl; rewrite F.
      * split; [now left | intros [H1 | [H1 [_ H2]]]; [exact H1|]].
        inversion H1; subst. congruence.
      * split.
        -- intros [H1 | [<- | []]]; [now left | right; auto].
        -- intros [H1 | [H1 _]]; [now left|]. inversion H1; subst.
           right. now left.
      * split; [now left | intros [H1 | [H1 [H2 _]]]; [exact H1|]].
        inversion H1; subst. congruence.
      * split; [now left | intros [H1 | [H1 [H2 _]]]; [exact H1|]].
        inversion H1; subst. congruence.
    + apply (G _ H). intros o. rewrite F.
      split; [now left | intros [H1 | [H1 _]]; [exact H1 | discriminate]].
Qed.

Lemma In_diff_updated (l r updated : list DAVObject) (o : DAVObject) :
  diff_updated l r = Ok updated ->
  (In o updated <-> exists curr, In curr l /\ updated_by r curr o).
Proof.
  intros H. apply In_diff_updated_acc in H. destruct H as [H _].
  rewrite H. simpl. split; [intros [[] | H1]; exact H1 | now right].
Qed.

Lemma diff_updated_defined (l r updated : list DAVObject) (curr : DAVObject) :
  diff_updated l r = Ok updated -> In curr l ->
  exists found,
    findM (fun ro => urlContains_val (url ro) (url curr)) r = Ok found.
Proof.
  intros H. apply In_diff_updated_acc in H. destruct H as [_ H]. apply H.
Qed.

Lemma updated_by_remote (r : list DAVObject) (curr o : DAVObject) :
  updated_by r curr o ->
  In o r /\ urlContains_val (url o) (url curr) = Ok true.
Proof. intros [F _]. now apply findM_Some in F. Qed.

Lemma In_diff_deleted_basic (l r deleted : list DAVObject) (o : DAVObject) :
  diff_deleted_basic l r = Ok deleted ->
  (In o deleted <->
   In o l /\ forall ro, In ro r ->
                        urlContains_val (url ro) (url o) = Ok false).
Proof.
  intros H. rewrite (filterM_In _ _ H o), everyM_true.
  split; intros [H1 H2]; split; try assumption; intros ro Hro.
  - now apply (not_match_spec _ _ true), H2.
  - now apply (not_match_spec _ _ true), H2.
Qed.

(** The objects of [deleted] in the webdav strategy have no [data]. *)
Lemma In_diff_deleted_webdav (urls : list JsVal) (o : DAVObject) :
  In o (diff_deleted_webdav urls) -> data o = None /\ etag o = JStr "".
Proof.
  unfold diff_deleted_webdav. rewrite in_map_iff.
  intros [u [<- _]]. split; reflexivity.
Qed.

Lemma match_and_etag_spec (lo ro : DAVObject) (b : bool) :
  (c <- urlContains_val (url lo) (url ro) ;;
   Ok (c && strict_eq (etag ro) (etag lo))) = Ok b
  <-> exists c, urlContains_val (url lo) (url ro) = Ok c
                /\ b = c && strict_eq (etag ro) (etag lo).
Proof.
  destruct (urlContains_val (url lo) (url ro)) as [c|e]; simpl; split.
  - intros H. inversion H. eauto.
  - intros [c' [H1 H2]]. inversion H1; subst. reflexivity.
  - discriminate.
  - intros [c' [H1 _]]. discriminate.
Qed.

Lemma In_diff_unchanged (l r unchanged : list DAVObject) (o : DAVObject) :
  diff_unchanged l r = Ok unchanged ->
  In o unchanged ->
  In o l
  /\ exists ro, In ro r /\ urlContains_val (url o) (url ro) = Ok true
                /\ strict_eq (etag ro) (etag o) = true.
Proof.
  intros H Ho. apply (filterM_In _ _ H) in Ho. destruct Ho as [Hl Hs].
  split; [assumption|]. apply someM_true in Hs.
  destruct Hs as [ro [Hr Hs]]. exists ro. split; [assumption|].
  apply match_and_etag_spec in Hs. destruct Hs as [c [H1 H2]].
  symmetry in H2. apply andb_true_iff in H2. destruct H2 as [-> H2]. auto.
Qed.

(** A local object that a remote object of the same etag matches is
    unchanged. *)
Lemma diff_unchanged_intro (l r unchanged : list DAVObject)
      (lo ro : DAVObject) :
  diff_unchanged l r = Ok unchanged ->
  In lo l -> In ro r ->
  urlContains_val (url lo) (url ro) = Ok true ->
  strict_eq (etag ro) (etag lo) = true ->
  In lo unchanged.
Proof.
  intros H Hl Hr U Q. apply (filterM_In _ _ H). split; [assumption|].
  destruct (filterM_defined _ _ H lo Hl) as [[|] Hb]; [assumption|].
  exfalso. rewrite someM_false in Hb. specialize (Hb ro Hr).
  cbv beta in Hb. rewrite U in Hb. simpl in Hb. rewrite Q in Hb. discriminate.
Qed.

Lemma created_updated_disjoint (l r created updated : list DAVObject) :
  diff_created l r = Ok created -> diff_updated l r = Ok updated ->
  disjoint created updated.
Proof.
  intros HC HU o Hc Hu. apply (In_diff_created _ _ _ HC) in Hc.
  destruct Hc as [_ Hc].
  apply (In_diff_updated _ _ _ HU) in Hu. destruct Hu as [curr [Hcurr Hu]].
  apply updated_by_remote in Hu. destruct Hu as [_ Hu].
  rewrite urlContains_val_sym, (Hc curr Hcurr) in Hu. discriminate.
Qed.

Lemma created_updated_remote (l r created updated : list DAVObject) :
  diff_created l r = Ok created -> diff_updated l r = Ok updated ->
  incl (created ++ updated) r.
Proof.
  intros HC HU o Ho. apply in_app_iff in Ho. destruct Ho as [Ho | Ho].
  - now apply (In_diff_created _ _ _ HC) in Ho.
  - apply (In_diff_updated _ _ _ HU) in Ho. destruct Ho as [curr [_ Ho]].
    now apply updated_by_remote in Ho.
Qed.

(** In the basic strategy the url of a deleted object matches no url of a
    created or updated object. *)
Lemma deleted_basic_unmatched (l r created updated deleted : list DAVObject)
      (d o : DAVObject) :
  diff_created l r = Ok created -> diff_updated l r = Ok updated ->
  diff_deleted_basic l r = Ok deleted ->
  In d deleted -> In o (created ++ updated) ->
  urlContains_val (url o) (url d) = Ok false.
Proof.
  intros HC HU HD Hd Ho. apply (In_diff_deleted_basic _ _ _ HD) in Hd.
  destruct Hd as [_ Hd]. apply Hd.
  exact (created_updated_remote _ _ HC HU _ Ho).
Qed.

Lemma deleted_basic_disjoint (l r created updated deleted : list DAVObject) :
  diff_created l r = Ok created -> diff_updated l r = Ok updated ->
  diff_deleted_basic l r = Ok deleted ->
  disjoint deleted (created ++ updated).
Proof.
  intros HC HU HD o Hd Ho.
  exact (urlContains_val_self _ (deleted_basic_unmatched _ _ _ _ HC HU HD Hd Ho)).
Qed.

(** The objects made of the multiget responses have a [data] property. *)
Lemma remote_object_data (t : option AccountType) (res : DAVResponse) :
  data (remote_object t res) <> None.
Proof. unfold remote_object. simpl. discriminate. Qed.

Lemma deleted_webdav_disjoint (t : option AccountType)
      (l created updated : list DAVObject) (multiGet : list DAVResponse)
      (urls : list JsVal) :
  diff_created l (map (remote_object t) multiGet) = Ok created ->
  diff_updated l (map (remote_object t) multiGet) = Ok updated ->
  disjoint (diff_deleted_webdav urls) (created ++ updated).
Proof.
  intros HC HU o Hd Ho. apply In_diff_deleted_webdav in Hd.
  destruct Hd as [Hd _].
  pose proof (created_updated_remote _ _ HC HU _ Ho) as Hr.
  apply in_map_iff in Hr. destruct Hr as [res [<- _]].
  eapply remote_object_data. exact Hd.
Qed.

Lemma unchanged_covered_by_remote (l r unchanged : list DAVObject) :
  diff_unchanged l r = Ok unchanged -> covered_by unchanged r.
Proof.
  intros HN o Ho. apply (In_diff_unchanged _ _ _ HN) in Ho.
  destruct Ho as [_ [ro [Hr [U _]]]]. exists ro. split; assumption.
Qed.

Lemma same_urlb_spec (x y : DAVObject) :
  same_urlb x y = true <-> same_url x y.
Proof.
  unfold same_urlb, same_url.
  destruct (urlContains_val (url x) (url y)) as [[|]|e]; split;
    congruence.
Qed.

Lemma one_match_spec (l r : list DAVObject) (lo r1 r2 : DAVObject) :
  one_match l r = true -> In lo l -> In r1 r -> In r2 r ->
  same_url lo r1 -> same_url lo r2 -> same_url r1 r2.
Proof.
  unfold one_match. intros H Hl H1 H2 U1 U2.
  rewrite forallb_forall in H. specialize (H lo Hl).
  rewrite forallb_forall in H. specialize (H r1 H1).
  rewrite forallb_forall in H. specialize (H r2 H2).
  apply same_urlb_spec in U1, U2. rewrite U1, U2 in H.
  now apply same_urlb_spec.
Qed.

Lemma remote_covered_by_result (l r created updated unchanged : list DAVObject)
      (ro : DAVObject) :
  diff_created l r = Ok created -> diff_updated l r = Ok updated ->
  diff_unchanged l r = Ok unchanged ->
  etags_nonempty r = true -> one_match l r = true ->
  In ro r ->
  In ro created
  \/ exists o, In o (unchanged ++ updated) /\ same_url ro o.
Proof.
  intros HC HU HN E M Hro.
  destruct (diff_created_or_matched _ _ _ HC Hro) as [C | [lo [Hlo U]]];
    [now left | right].
  destruct (diff_updated_defined _ _ _ HU Hlo) as [[found|] F].
  - pose proof (findM_Some _ _ F) as [Hf Uf].
    destruct (strict_eq (etag found) (etag lo)) eqn:Q.
    + (* the first match has the etag of the local object: unchanged *)
      exists lo. split; [|unfold same_url; now rewrite urlContains_val_sym].
      apply in_app_iff. left.
      apply (diff_unchanged_intro _ _ _ _ HN Hlo Hf); [|assumption].
      now rewrite urlContains_val_sym.
    + (* the first match replaces the local object: updated *)
      exists found. split.
      * apply in_app_iff. right. apply (In_diff_updated _ _ _ HU).
        exists lo. split; [assumption|]. repeat split; try assumption.
        unfold etags_nonempty in E. rewrite forallb_forall in E.
        now apply E.
      * eapply one_match_spec; [exact M | exact Hlo | exact Hro | exact Hf | |];
          unfold same_url.
        -- assumption.
        -- now rewrite urlContains_val_sym.
  - exfalso. pose proof (findM_None _ _ F ro Hro) as N. cbv beta in N.
    rewrite urlContains_val_sym, U in N. discriminate.
Qed.

(** *** The diff on urls that are strings *)

Lemma url_is_string_match (l : list DAVObject) (o x : DAVObject) :
  forallb url_is_string l = true -> url_is_string o = true -> In x l ->
  (exists b, urlContains_val (url x) (url o) = Ok b)
  /\ exists b, urlContains_val (url o) (url x) = Ok b.
Proof.
  intros Hl Ho Hx. rewrite forallb_forall in Hl. specialize (Hl x Hx).
  unfold url_is_string in *.
  destruct (url x); try discriminate. destruct (url o); try discriminate.
  rewrite !urlContains_val_strings. eauto.
Qed.

(** When the urls of the local and of the remote objects are strings, the
    four lists of the diff are computed: no comparison throws. *)
Lemma diff_defined (l r : list DAVObject) :
  forallb url_is_string l = true -> forallb url_is_string r = true ->
  (exists created, diff_created l r = Ok created)
  /\ (exists updated, diff_updated l r = Ok updated)
  /\ (exists deleted, diff_deleted_basic l r = Ok deleted)
  /\ (exists unchanged, diff_unchanged l r = Ok unchanged).
Proof.
  intros Hl Hr.
  assert (forall o, In o l -> url_is_string o = true) as Sl
      by now apply forallb_forall.
  assert (forall o, In o r -> url_is_string o = true) as Sr
      by now apply forallb_forall.
  repeat split.
  - apply filterM_exists. intros ro Hro. apply everyM_exists. intros lo Hlo.
    destruct (url_is_string_match l ro lo Hl (Sr ro Hro) Hlo) as [[b Hb] _].
    rewrite Hb. simpl. eauto.
  - unfold diff_updated.
    cut (forall acc,
           exists updated,
             reduceM
               (fun prev curr =>
                  found <- findM (fun ro => urlContains_val (url ro)
                                                             (url curr)) r ;;
                  match found with
                  | Some found =>
                      if js_truthy (etag found)
                         && negb (strict_eq (etag found) (etag curr))
                      then Ok (prev ++ [found])%list
                      else Ok prev
                  | None => Ok prev
                  end) l acc = Ok updated); [intros G; apply G|].
    clear Hl. induction l as [|c l IH]; intros acc; simpl; [eauto|].
    destruct (findM_exists (fun ro => urlContains_val (url ro) (url c)) r)
      as [found F].
    { intros ro Hro.
      exact (proj1 (url_is_string_match r c ro Hr
                      (Sl c (or_introl eq_refl)) Hro)). }
    rewrite F. simpl.
    assert (forall o, In o l -> url_is_string o = true) as Sl'
        by (intros o Ho; apply Sl; now right).
    destruct found as [found|]; [|now apply IH].
    destruct (js_truthy (etag found) && negb (strict_eq (etag found) (etag c)));
      simpl; now apply IH.
  - apply filterM_exists. intros lo Hlo. apply everyM_exists. intros ro Hro.
    destruct (url_is_string_match r lo ro Hr (Sl lo Hlo) Hro) as [[b Hb] _].
    rewrite Hb. simpl. eauto.
  - apply filterM_exists. intros lo Hlo. apply someM_exists. intros ro Hro.
    destruct (url_is_string_match r lo ro Hr (Sl lo Hlo) Hro) as [_ [b Hb]].
    rewrite Hb. simpl. eauto.
Qed.

(** C3, as amended.  For the lists that the diff of either strategy
    computes: created and updated share no object; deleted shares no object
    with created or updated, and in the basic strategy the url of a deleted
    object matches the url of none of them; created and updated hold
    remote objects, and every unchanged object is url-identical to a remote
    object; and every remote object is created or url-identical to an
    unchanged or updated object when the remote etags are non-empty and
    the remote objects that match one local object are url-identical to
    each other. *)
Theorem smartCollectionSync_diff_sets
        (t : option AccountType) (localObjects remoteObjects : list DAVObject)
        (multiGet : list DAVResponse) (deletedObjectUrls : list JsVal)
        (created updated unchanged : list DAVObject) :
  diff_created localObjects remoteObjects = Ok created ->
  diff_updated localObjects remoteObjects = Ok updated ->
  diff_unchanged localObjects remoteObjects = Ok unchanged ->
  disjoint created updated
  /\ (forall deleted,
        diff_deleted_basic localObjects remoteObjects = Ok deleted ->
        disjoint deleted (created ++ updated)
        /\ forall d o, In d deleted -> In o (created ++ updated) ->
                       urlContains_val (url o) (url d) = Ok false)
  /\ (remoteObjects = map (remote_object t) multiGet ->
      disjoint (diff_deleted_webdav deletedObjectUrls) (created ++ updated))
  /\ incl (created ++ updated) remoteObjects
  /\ covered_by unchanged remoteObjects
  /\ (etags_nonempty remoteObjects = true ->
      one_match localObjects remoteObjects = true ->
      forall ro, In ro remoteObjects ->
        In ro created
        \/ exists o, In o (unchanged ++ updated) /\ same_url ro o).
Proof.
  intros HC HU HN. split; [exact (created_updated_disjoint _ _ HC HU)|].
  split.
  { intros deleted HD. split; [exact (deleted_basic_disjoint _ _ HC HU HD)|].
    intros d o. exact (deleted_basic_unmatched _ _ d o HC HU HD). }
  split.
  { intros ->. exact (deleted_webdav_disjoint _ _ _ _ HC HU). }
  split; [exact (created_updated_remote _ _ HC HU)|].
  split; [exact (unchanged_covered_by_remote _ _ HN)|].
  intros E M ro. exact (remote_covered_by_result _ _ _ HC HU HN E M).
Qed.

End DiffProperties.

(** ** The transport and the sync engine *)

Section RunProperties.

Context {NUM : JsNumber} {URLC : JsURL} {PROTO : JsPrototype}.

(** *** Objects *)

Lemma obj_lookup_set (o : Obj) (k k' : string) (v : JsVal) :
  obj_lookup (obj_set o k v) k'
  = if String.eqb k k' then Some v else obj_lookup o k'.
Proof.
  induction o as [|[k0 v0] o IH]; simpl.
  - destruct (String.eqb k k'); reflexivity.
  - destruct (String.eqb k0 k) eqn:E0; simpl.
    + apply String.eqb_eq in E0. subst k0.
      destruct (String.eqb k k'); reflexivity.
    + rewrite IH. destruct (String.eqb k k') eqn:E; [|reflexivity].
      apply String.eqb_eq in E. subst k'. now rewrite E0.
Qed.

Lemma obj_lookup_none (o : Obj) (k : string) :
  ~ In k (map fst o) -> obj_lookup o k = None.
Proof.
  induction o as [|[k0 v0] o IH]; simpl; [reflexivity|].
  intros H. destruct (String.eqb k0 k) eqn:E.
  - apply String.eqb_eq in E. tauto.
  - apply IH. tauto.
Qed.

Lemma obj_set_keys (o : Obj) (k : string) (v : JsVal) :
  map fst (obj_set o k v)
  = if in_dec string_dec k (map fst o) then map fst o
    else (map fst o ++ [k])%list.
Proof.
  induction o as [|[k0 v0] o IH]; simpl; [reflexivity|].
  destruct (String.eqb k0 k) eqn:E; simpl.
  - apply String.eqb_eq in E. subst k0.
    destruct (string_dec k k); [reflexivity | congruence].
  - apply String.eqb_neq in E. rewrite IH.
    destruct (string_dec k0 k); [congruence|].
    destruct (in_dec string_dec k (map fst o)); reflexivity.
Qed.

Lemma obj_set_unique (o : Obj) (k : string) (v : JsVal) :
  keys_unique o -> keys_unique (obj_set o k v).
Proof.
  unfold keys_unique. intros H. rewrite obj_set_keys.
  destruct (in_dec string_dec k (map fst o)); [assumption|].
  apply NoDup_app; [assumption | repeat constructor; intros [] |].
  intros x Hx [<- | []]. contradiction.
Qed.

Lemma obj_lookup_assign (s t : Obj) (k : string) :
  keys_unique s ->
  obj_lookup (obj_assign t s) k
  = match obj_lookup s k with
    | Some v => Some v
    | None => obj_lookup t k
    end.
Proof.
  unfold obj_assign, keys_unique. revert t.
  induction s as [|[k0 v0] s IH]; intros t U; simpl; [reflexivity|].
  inversion U as [|? ? N U']; subst. rewrite (IH _ U'), obj_lookup_set.
  destruct (String.eqb k0 k) eqn:E.
  - apply String.eqb_eq in E. subst k0.
    now rewrite (obj_lookup_none s k N).
  - reflexivity.
Qed.

Lemma obj_assign_unique (s t : Obj) :
  keys_unique t -> keys_unique (obj_assign t s).
Proof.
  unfold obj_assign. revert t.
  induction s as [|[k0 v0] s IH]; intros t U; simpl; [assumption|].
  apply IH. now apply obj_set_unique.
Qed.

Lemma cleanupFalsy_acc (h acc : Obj) (k : string) :
  keys_unique h ->
  obj_lookup
    (fold_left (fun prev kv =>
                  if js_truthy (snd kv) then obj_set prev (fst kv) (snd kv)
                  else prev) h acc) k
  = match obj_lookup h k with
    | Some v => if js_truthy v then Some v else obj_lookup acc k
    | None => obj_lookup acc k
    end.
Proof.
  unfold keys_unique. revert acc.
  induction h as [|[k0 v0] h IH]; intros acc U; simpl; [reflexivity|].
  inversion U as [|? ? N U']; subst. rewrite (IH _ U').
  destruct (String.eqb k0 k) eqn:E.
  - apply String.eqb_eq in E. subst k0. rewrite (obj_lookup_none h k N).
    destruct (js_truthy v0); [|reflexivity].
    rewrite obj_lookup_set, String.eqb_refl. reflexivity.
  - destruct (js_truthy v0); [|reflexivity].
    rewrite obj_lookup_set, E. reflexivity.
Qed.

Lemma cleanupFalsy_unique (h : Obj) : keys_unique (cleanupFalsy h).
Proof.
  unfold cleanupFalsy.
  assert (forall acc, keys_unique acc ->
            keys_unique
              (fold_left (fun prev kv =>
                            if js_truthy (snd kv)
                            then obj_set prev (fst kv) (snd kv)
                            else prev) h acc)) as G.
  { induction h as [|[k0 v0] h IH]; intros acc U; simpl; [assumption|].
    apply IH. destruct (js_truthy v0); [now apply obj_set_unique | assumption]. }
  apply G. constructor.
Qed.

(** [cleanupFalsy] keeps the truthy values and drops the others. *)
Lemma cleanupFalsy_lookup (h : Obj) (k : string) :
  keys_unique h ->
  obj_lookup (cleanupFalsy h) k
  = match obj_lookup h k with
    | Some v => if js_truthy v then Some v else None
    | None => None
    end.
Proof. intros U. unfold cleanupFalsy. now rewrite cleanupFalsy_acc. Qed.

(** *** [davRequest] *)

(** X7.  The headers [davRequest] sends: a header of the caller with a truthy
    value is sent as given, the others are dropped, and [Content-Type] is
    [text/xml;charset=UTF-8] unless the caller gives one. *)
Theorem davRequest_headers (E : Env) (params : DAVRequestParams) (h : Obj) :
  headers (dr_init params) = Some h ->
  keys_unique h ->
  exists fetchInit sent,
    davRequest_fetch_init E params = Ok fetchInit
    /\ fi_headers fetchInit = Some sent
    /\ forall k,
        obj_lookup sent k
        = match obj_lookup h k with
          | Some v =>
              if js_truthy v then Some v
              else if String.eqb "Content-Type" k
                   then Some (JStr "text/xml;charset=UTF-8") else None
          | None =>
              if String.eqb "Content-Type" k
              then Some (JStr "text/xml;charset=UTF-8") else None
          end.
Proof.
  intros H U. unfold davRequest_fetch_init. rewrite H. simpl.
  eexists. eexists. split; [reflexivity|]. split; [reflexivity|].
  intros k. rewrite obj_lookup_assign by apply cleanupFalsy_unique.
  rewrite (cleanupFalsy_lookup k U). simpl.
  destruct (obj_lookup h k) as [v|]; [destruct (js_truthy v)|]; reflexivity.
Qed.


(** The target of the request is the constant prefix and the url: the
    [proxyUrl] of the call is not read. *)
Lemma davRequest_fetch_url_constant (params : DAVRequestParams) :
  davRequest_fetch_url params = "http://localhost:8001/" ++ dr_url params.
Proof. reflexivity. Qed.

Lemma davRequest_ignores_proxyUrl (E : Env) (params : DAVRequestParams)
      (p : option string) :
  davRequest E (set_proxyUrl params p) = davRequest E params.
Proof. reflexivity. Qed.



(** In the parsed path every response has [ok = !error]. *)
Lemma davRequest_response_ok (davResponse : Response)
      (result responseBody : JsVal) (r : DAVResponse) :
  js_truthy responseBody = true ->
  davRequest_response davResponse result responseBody = Ok r ->
  ok r = negb (js_truthy (error r))
  /\ error r = js_get_opt responseBody "error".
Proof.
  intros T. unfold davRequest_response. rewrite T. simpl.
  destruct responseBody as [| |b|n|s|items|fields]; simpl in *;
    try discriminate;
    try (intros H; inversion H; subst; simpl; split; reflexivity).
  destruct (js_toString (obj_get fields "status")); simpl; [|discriminate].
  intros H; inversion H; subst; simpl; split; reflexivity.
Qed.

(** An [error] child that is an element with children, with attributes or
    empty is decoded to an object, and then [ok] is false; without an
    [error] child [ok] is true. *)
Lemma davRequest_response_ok_object (davResponse : Response)
      (result : JsVal) (fields : Obj) (r : DAVResponse) :
  davRequest_response davResponse result (JObj fields) = Ok r ->
  (obj_get fields "error" = JUndef -> ok r = true)
  /\ (forall e, obj_get fields "error" = JObj e -> ok r = false).
Proof.
  intros H. apply davRequest_response_ok in H; [|reflexivity].
  destruct H as [H1 H2]. simpl in H2. rewrite H1, H2. split.
  - intros ->. reflexivity.
  - intros e ->. reflexivity.
Qed.

(** *** [isCollectionDirty] *)

(** C10.  When the server's ctag text [t] reads as a number, the decoder
    stores [nativeType t], a number; against a stored ctag that is the
    decimal string of that number, [isCollectionDirty] answers
    [isDirty = true], and [newCtag] is the stored string. *)
Theorem isCollectionDirty_numeric_ctag (E : Env) (collection : DAVCollection)
        (headers : option Obj) (responses rest : list DAVResponse)
        (res : DAVResponse) (t : string) :
  propfind E (c_url collection)
           (JObj [(DAVNamespaceShort.CALENDAR_SERVER ++ ":getctag", JObj [])])
           (JStr "0") headers None = Ok responses ->
  filterM (fun r => urlContains_val (JStr (c_url collection)) (href r))
          responses
  = Ok (res :: rest) ->
  isNaN (Number t) = false ->
  props_get res "getctag" = nativeType t ->
  ctag collection = JStr (num_toString (Number t)) ->
  isCollectionDirty E collection headers
  = Ok {| isDirty := true; newCtag := ctag collection |}.
Proof.
  intros HP HF HN HG HC. unfold isCollectionDirty. rewrite HP. cbn [bind].
  rewrite HF. cbn [bind]. rewrite HG, HC. unfold nativeType. rewrite HN.
  reflexivity.
Qed.

(** X4.  When [urlContains] tells the href of every response from the url
    of the collection, [isCollectionDirty] fails: the collection does not
    exist on the server. *)
Theorem isCollectionDirty_not_found (E : Env) (collection : DAVCollection)
        (headers : option Obj) (responses : list DAVResponse) :
  propfind E (c_url collection)
           (JObj [(DAVNamespaceShort.CALENDAR_SERVER ++ ":getctag", JObj [])])
           (JStr "0") headers None = Ok responses ->
  (forall r, In r responses ->
             urlContains_val (JStr (c_url collection)) (href r) = Ok false) ->
  isCollectionDirty E collection headers
  = Throw "Collection does not exist on server".
Proof.
  intros HP HN. unfold isCollectionDirty. rewrite HP. cbn [bind].
  assert (filterM (fun r => urlContains_val (JStr (c_url collection))
                                            (href r))
                  responses = Ok []) as F.
  { clear HP. induction responses as [|r rs IH]; [reflexivity|].
    simpl. rewrite (HN r (or_introl eq_refl)). cbn [bind].
    rewrite IH; [reflexivity|]. intros r' Hr'. apply HN. now right. }
  rewrite F. reflexivity.
Qed.

(** X5.  A query whose only response has no [raw] returns the empty
    list. *)
Theorem collectionQuery_empty (E : Env) (url : string) (body depth : JsVal)
        (defaultNamespace : option string) (headers : option Obj)
        (r : DAVResponse) :
  davRequest E
    {| dr_url := url;
       dr_init :=
         {| method := "REPORT";
            headers :=
              Some (cleanupFalsy
                      (obj_assign [("depth", depth)] (spread_opt headers)));
            namespace :=
              Some (match defaultNamespace with
                    | Some ns => ns
                    | None => DAVNamespaceShort.DAV
                    end);
            body := body;
            attributes := JUndef |};
       dr_convertIncoming := None;
       dr_parseOutgoing := None;
       dr_proxyUrl := None |} = Ok [r] ->
  js_truthy (raw r) = false ->
  collectionQuery E url body depth defaultNamespace headers = Ok [].
Proof.
  intros HD HR. unfold collectionQuery. rewrite HD. simpl. rewrite HR.
  reflexivity.
Qed.

(** *** [smartCollectionSync] *)

(** X6.  Without an account, or with an account that lacks [accountType] or
    [homeUrl], [smartCollectionSync] fails before any request, and the
    message names the missing fields. *)
Theorem smartCollectionSync_requires_account (E : Env)
        (collection : DAVCollection) (method : option SyncMethod)
        (headers : option Obj) (detailedResult : bool) :
  smartCollectionSync E collection method headers None detailedResult
  = Throw "no account for smartCollectionSync"
  /\ forall account,
      hasFields account ["accountType"; "homeUrl"] = false ->
      smartCollectionSync E collection method headers (Some account)
                          detailedResult
      = Throw ("account must have "
                 ++ findMissingFieldNames account ["accountType"; "homeUrl"]
                 ++ " before smartCollectionSync").
Proof.
  split; [reflexivity|]. intros account H.
  unfold smartCollectionSync, require_account. rewrite H. reflexivity.
Qed.


(** C4, as amended.  With an account that has its required fields, the
    basic strategy chosen, [isCollectionDirty] reporting [isDirty = false]
    and the [fetchObjects] hook, which is awaited before [isDirty] is
    tested, completing, the urls of the local and of the fetched objects
    being strings, [smartCollectionSync] returns the input collection as it
    is (same ctag, syncToken and objects), and in detailed mode the input
    collection with an empty diff. *)
Theorem smartCollectionSync_clean (E : Env) (collection : DAVCollection)
        (method : option SyncMethod) (headers : option Obj)
        (account : DAVAccount) (detailedResult : bool)
        (dirty : DirtyResult) (remoteObjects : list DAVObject) :
  hasFields account ["accountType"; "homeUrl"] = true ->
  basic_chosen collection method ->
  isCollectionDirty E collection headers = Ok dirty ->
  isDirty dirty = false ->
  fetchObjects_result collection headers = Ok remoteObjects ->
  forallb url_is_string (local_objects collection) = true ->
  forallb url_is_string remoteObjects = true ->
  exists synced,
    smartCollectionSync E collection method headers (Some account)
                        detailedResult = Ok synced
    /\ synced = with_objects collection
                  (if detailedResult then ObjectDiff [] [] []
                   else Snapshot (objects collection))
    /\ ctag synced = ctag collection
    /\ syncToken synced = syncToken collection
    /\ c_url synced = c_url collection.
Proof.
  intros HA HB HD HF HR SL SR.
  exists (with_objects collection
            (if detailedResult then ObjectDiff [] [] []
             else Snapshot (objects collection))).
  split; [|destruct detailedResult; repeat split].
  unfold smartCollectionSync, require_account. rewrite HA. cbn [bind].
  unfold basic_chosen in HB. rewrite HB, HD. cbn [bind].
  rewrite HR. cbn [bind].
  destruct (diff_defined _ _ SL SR)
    as [[created C] [[updated U] [[deleted D] [unchanged N]]]].
  rewrite C. cbn [bind]. rewrite U. cbn [bind]. rewrite D. cbn [bind].
  rewrite N. cbn [bind]. rewrite HF.
  destruct detailedResult; reflexivity.
Qed.

(** The clean run throws what the [fetchObjects] hook throws. *)
Lemma clean_run_hook_throws (E : Env)
      (collection : DAVCollection) (method : option SyncMethod)
      (headers : option Obj) (account : DAVAccount) (detailedResult : bool)
      (dirty : DirtyResult) (e : string) :
  hasFields account ["accountType"; "homeUrl"] = true ->
  basic_chosen collection method ->
  isCollectionDirty E collection headers = Ok dirty ->
  fetchObjects_result collection headers = Throw e ->
  smartCollectionSync E collection method headers (Some account)
                      detailedResult = Throw e.
Proof.
  intros HA HB HD HR.
  unfold smartCollectionSync, require_account. rewrite HA. cbn [bind].
  unfold basic_chosen in HB. rewrite HB, HD. cbn [bind].
  rewrite HR. reflexivity.
Qed.

(** *** [serviceDiscovery] *)

(** C6, as amended.  When [serverUrl] parses as a URL and the well-known
    path resolves against it, a failed well-known PROPFIND makes
    [serviceDiscovery] return the [href] of the parsed [serverUrl], without
    an error. *)
Theorem serviceDiscovery_falls_back (E : Env) (account : DAVAccount)
        (headers : option Obj) (endpoint uri : URL) :
  URL_new (serverUrl account) None = Ok endpoint ->
  URL_new ("/.well-known/"
             ++ match accountType account with
                | Some t => accountType_name t
                | None => "undefined"
                end)
          (Some (url_href endpoint)) = Ok uri ->
  well_known_failed E account headers endpoint
                    (url_set_protocol uri (url_protocol endpoint)) ->
  serviceDiscovery E account headers = Ok (url_href endpoint).
Proof.
  intros HE HU HF. unfold serviceDiscovery. rewrite HE. cbn [bind].
  rewrite HU. cbn [bind].
  unfold well_known_failed in HF. unfold serviceDiscovery_try.
  destruct (fetch E _ _) as [response|e]; cbn [bind]; [|reflexivity].
  destruct HF as [H | [H | [H | [location [e [H1 H2]]]]]].
  - rewrite H. reflexivity.
  - rewrite H. destruct (_ && _); reflexivity.
  - rewrite H. destruct (_ && _); reflexivity.
  - rewrite H1, H2. destruct (_ && _); [|reflexivity].
    destruct (is_empty location); reflexivity.
Qed.

(** *** [fetchCalendars] *)


Lemma mapM_total {A B : Type} (f : A -> Res B) (P : A -> B -> Prop)
      (xs : list A) :
  (forall x, In x xs -> exists y, f x = Ok y /\ P x y) ->
  exists ys, mapM f xs = Ok ys /\ Forall2 P xs ys.
Proof.
  induction xs as [|x xs IH]; intros H; simpl.
  - exists []. split; [reflexivity | constructor].
  - destruct (H x (or_introl eq_refl)) as [y [Hy Py]].
    destruct IH as [ys [Hys F]]; [intros z Hz; apply H; now right|].
    exists (y :: ys). rewrite Hy. simpl. rewrite Hys. simpl.
    split; [reflexivity | now constructor].
Qed.

Lemma mapM_Forall2 {A B : Type} (f : A -> Res B) (xs : list A) (ys : list B) :
  mapM f xs = Ok ys -> Forall2 (fun x y => f x = Ok y) xs ys.
Proof.
  revert ys. induction xs as [|x xs IH]; intros ys; simpl.
  - intros H. inversion H. constructor.
  - destruct (f x) as [y|e] eqn:Fx; simpl; [|discriminate].
    destruct (mapM f xs) as [ys'|e] eqn:M; simpl; [|discriminate].
    intros H. inversion H; subst. constructor; [assumption | now apply IH].
Qed.


(** *** [syncCalendars] *)

(** The list the code names [unchanged] holds the local calendars for which
    a matching remote calendar differs in syncToken or ctag. *)
Lemma calendars_unchanged_are_changed
      (localCalendars remoteCalendars : list DAVCollection)
      (cal : DAVCollection) :
  In cal (calendars_unchanged localCalendars remoteCalendars) <->
  In cal localCalendars
  /\ exists rc, In rc remoteCalendars
                /\ urlContains (c_url rc) (c_url cal) = true
                /\ tokens_differ rc cal = true.
Proof.
  unfold calendars_unchanged. rewrite filter_In, existsb_exists.
  split; intros [H1 [rc [H2 H3]]]; split; try assumption; exists rc.
  - apply andb_true_iff in H3. tauto.
  - split; [tauto|]. apply andb_true_iff. tauto.
Qed.

End RunProperties.

(** ** The helpers and the account functions *)

Section MoreProperties.

Context {NUM : JsNumber} {URLC : JsURL} {PROTO : JsPrototype}.

(** *** [hasFields] and [findMissingFieldNames] *)

Lemma is_empty_app (a b : string) :
  is_empty (a ++ b) = is_empty a && is_empty b.
Proof. destruct a; reflexivity. Qed.

Lemma forallb_filter_nil {A : Type} (f : A -> bool) (l : list A) :
  forallb f l = true <-> filter (fun x => negb (f x)) l = [].
Proof.
  induction l as [|x l IH]; simpl; [tauto|].
  destruct (f x); simpl; [exact IH|]. split; discriminate.
Qed.

Lemma concat_nonempty (sep : string) (m : list string) :
  Forall (fun f => f <> "") m -> String.concat sep m = "" -> m = [].
Proof.
  intros F H. destruct m as [|x m]; [reflexivity|].
  inversion F as [|? ? Hx _]; subst.
  destruct m; simpl in H; [congruence|].
  destruct x; [congruence | discriminate].
Qed.

Lemma findMissingFieldNames_acc (account : DAVAccount) (fields : list string)
      (acc : string) :
  Forall (fun f => f <> "") fields ->
  fold_left (fun prev curr =>
               if account_field account curr then prev
               else (if is_empty prev then "" else prev ++ ",") ++ curr)
            fields acc
  = match filter (fun f => negb (account_field account f)) fields with
    | [] => acc
    | m => (if is_empty acc then "" else acc ++ ",") ++ String.concat "," m
    end.
Proof.
  intros F. revert acc. induction F as [|f fs Hf F IH]; intros acc.
  - reflexivity.
  - cbn [fold_left filter]. destruct (account_field account f); cbn [negb].
    + apply IH.
    + rewrite IH.
      destruct (filter (fun f0 => negb (account_field account f0)) fs)
        as [|x m].
      * reflexivity.
      * rewrite is_empty_app.
        replace (is_empty f) with false
          by (symmetry; now apply is_empty_false).
        rewrite andb_false_r.
        change (String.concat "," (f :: x :: m))
          with (f ++ "," ++ String.concat "," (x :: m)).
        now rewrite !append_assoc.
Qed.

(** X12.  For field names that are not empty, [findMissingFieldNames] is the
    list of the fields the account lacks, in the order asked and separated
    by commas; it is empty exactly when [hasFields] holds. *)
Theorem findMissingFieldNames_lists_missing (account : DAVAccount)
        (fields : list string) :
  Forall (fun f => f <> "") fields ->
  findMissingFieldNames account fields
  = String.concat "," (filter (fun f => negb (account_field account f)) fields)
  /\ (hasFields account fields = true
      <-> findMissingFieldNames account fields = "").
Proof.
  intros F.
  assert (findMissingFieldNames account fields
          = String.concat ","
              (filter (fun f => negb (account_field account f)) fields)) as E.
  { unfold findMissingFieldNames. rewrite (findMissingFieldNames_acc _ "" F).
    destruct (filter _ fields); reflexivity. }
  split; [exact E|]. rewrite E. unfold hasFields.
  rewrite forallb_filter_nil. split.
  - intros ->. reflexivity.
  - apply concat_nonempty.
    apply Forall_forall. intros x Hx. apply filter_In in Hx.
    rewrite Forall_forall in F. apply F. tauto.
Qed.

(** *** The status line of a response *)

Lemma span_app (p : ascii -> bool) (a : string) (c : ascii) (rest : string) :
  all_chars p a = true -> p c = false ->
  span p (a ++ String c rest) = (a, String c rest).
Proof.
  intros Ha Hc. induction a as [|d a IH]; cbn [append span].
  - now rewrite Hc.
  - cbn [all_chars] in Ha. apply andb_true_iff in Ha. destruct Ha as [Hd Ha].
    rewrite Hd, (IH Ha). reflexivity.
Qed.

Lemma span_spec (p : ascii -> bool) (s a b : string) :
  span p s = (a, b) ->
  s = a ++ b /\ all_chars p a = true
  /\ match b with
     | EmptyString => True
     | String c _ => p c = false
     end.
Proof.
  revert a b. induction s as [|d s IH]; intros a b; cbn [span].
  - intros H. inversion H. repeat split.
  - destruct (p d) eqn:Hd.
    + destruct (span p s) as [a' b'] eqn:S. intros H. inversion H; subst.
      destruct (IH a' b eq_refl) as [H1 [H2 H3]].
      cbn [append all_chars]. rewrite Hd, H2, <- H1. repeat split. exact H3.
    + intros H. inversion H; subst. repeat split. exact Hd.
Qed.

Lemma ws_not_digit (c : ascii) : is_ws c = true -> is_digit c = false.
Proof.
  destruct c as [b0 b1 b2 b3 b4 b5 b6 b7].
  destruct b0, b1, b2, b3, b4, b5, b6, b7; try reflexivity; discriminate.
Qed.

(** The language of the status pattern: a word without white space, one
    white space, a run of digits, one white space, and a text without line
    terminators; the groups are the digits and the text. *)
Lemma statusRegex_exec_spec (s digits text : string) :
  statusRegex_exec s = Some (digits, text) <->
  exists proto sp1 sp2,
    s = proto ++ String sp1 (digits ++ String sp2 text)
    /\ proto <> "" /\ all_chars (fun c => negb (is_ws c)) proto = true
    /\ is_ws sp1 = true
    /\ digits <> "" /\ all_chars is_digit digits = true
    /\ is_ws sp2 = true
    /\ text <> ""
    /\ all_chars (fun c => negb (is_line_terminator c)) text = true.
Proof.
  unfold statusRegex_exec. split.
  - destruct (span (fun c => negb (is_ws c)) s) as [word rest1] eqn:S1.
    apply span_spec in S1. destruct S1 as [E1 [A1 B1]].
    destruct (is_empty word) eqn:W; [discriminate|].
    destruct rest1 as [|sp1 rest2]; [discriminate|].
    destruct (span is_digit rest2) as [ds rest3] eqn:S2.
    apply span_spec in S2. destruct S2 as [E2 [A2 B2]].
    destruct (is_empty ds) eqn:D; [discriminate|].
    destruct rest3 as [|sp2 txt]; [discriminate|].
    destruct (is_ws sp2) eqn:W2; [|discriminate].
    destruct (is_empty txt) eqn:T; [discriminate|].
    destruct (all_chars _ txt) eqn:L; [|discriminate].
    cbn [andb negb]. intros H. inversion H; subst digits text.
    exists word, sp1, sp2. subst s rest2.
    apply negb_false_iff in B1. apply is_empty_false in W, D, T.
    repeat split; assumption.
  - intros [proto [sp1 [sp2 [E [P1 [P2 [W1 [D1 [D2 [W2 [T1 T2]]]]]]]]]]].
    subst s. rewrite span_app by (try assumption; now rewrite W1).
    apply is_empty_false in P1, D1, T1. rewrite P1.
    rewrite span_app by (try assumption; now apply ws_not_digit).
    rewrite D1, W2, T1, T2. reflexivity.
Qed.

Lemma decimal_value_acc (u : Decimal.uint) (acc : nat) :
  fold_left (fun a c => (a * 10 + Z.of_nat (nat_of_ascii c - 48))%Z)
            (list_ascii_of_string (NilEmpty.string_of_uint u)) (Z.of_nat acc)
  = Z.of_nat (Nat.of_uint_acc u acc).
Proof.
  revert acc.
  induction u as [| u IH | u IH | u IH | u IH | u IH | u IH | u IH | u IH
                  | u IH | u IH]; intros acc;
    [reflexivity | ..];
    cbn [NilEmpty.string_of_uint list_ascii_of_string fold_left Nat.of_uint_acc];
    rewrite <- IH; f_equal; rewrite Nat.tail_mul_spec;
    cbn [nat_of_ascii]; vm_compute (nat_of_ascii _ - 48); lia.
Qed.

Lemma of_nat_digits (u : Decimal.uint) :
  all_chars is_digit (NilEmpty.string_of_uint u) = true.
Proof. induction u; cbn [NilEmpty.string_of_uint all_chars]; auto. Qed.

(** The decimal numeral of a number denotes the number. *)
Lemma decimal_value_of_nat (n : nat) :
  decimal_value (of_nat n) = Z.of_nat n
  /\ all_chars is_digit (of_nat n) = true
  /\ of_nat n <> "".
Proof.
  unfold of_nat, decimal_value, NilZero.string_of_uint.
  destruct (Nat.to_uint n) as [| u | u | u | u | u | u | u | u | u | u] eqn:U;
    (split; [|split; [|discriminate]]);
    try (rewrite <- U at 1;
         change 0%Z with (Z.of_nat 0);
         rewrite (decimal_value_acc (Nat.to_uint n) 0);
         change (Nat.of_uint_acc (Nat.to_uint n) 0)
           with (Nat.of_uint (Nat.to_uint n));
         now rewrite DecimalNat.Unsigned.of_to);
    try apply of_nat_digits.
  - pose proof (DecimalNat.Unsigned.of_to n) as H. rewrite U in H.
    subst n. reflexivity.
  - reflexivity.
Qed.

(** A number below [2^53] is its own number value. *)
Lemma nearest_double_exact (z : Z) : (z < 2 ^ 53)%Z -> nearest_double z = z.
Proof.
  intros H. unfold nearest_double.
  apply Z.ltb_lt in H. now rewrite H.
Qed.

(** A conversion to a string throws nothing but a TypeError. *)
Lemma js_toString_throws (v : JsVal) (e : string) :
  js_toString v = Throw e -> e = TypeError.
Proof.
  revert v e. fix IH 1. intros v e.
  destruct v as [| |b|n|s|items|fs]; simpl; try discriminate.
  - destruct b; discriminate.
  - induction items as [|x rest IHl]; [discriminate|].
    assert ((if nullish x then Ok "" else js_toString x) = Throw e ->
            e = TypeError) as X.
    { destruct (nullish x); [discriminate|]. apply IH. }
    destruct (if nullish x then Ok "" else js_toString x) as [sx|e'];
      cbn [bind].
    + destruct rest as [|y rest]; [discriminate|].
      match goal with
      | |- bind ?J _ = _ -> _ => destruct J as [sr|e''] eqn:Jq
      end; cbn [bind]; [discriminate|].
      intros H. inversion H; subst. now apply IHl.
    + intros H. inversion H; subst. now apply X.
  - destruct (obj_lookup fs "toString"); [|discriminate].
    intros H. now inversion H.
Qed.

(** The callback of [responseBodies.map] throws only when the status of the
    element cannot be converted to a string, and then a TypeError. *)
Lemma davRequest_response_defined (davResponse : Response)
      (result responseBody : JsVal) :
  match js_toString (js_get_opt responseBody "status") with
  | Ok _ =>
      exists r, davRequest_response davResponse result responseBody = Ok r
  | Throw _ =>
      davRequest_response davResponse result responseBody = Throw TypeError
  end.
Proof.
  unfold davRequest_response.
  destruct responseBody as [| |b|n|s|items|fields];
    cbn [js_get_opt js_toString js_truthy negb js_get bind];
    try (eexists; reflexivity).
  - destruct b; eexists; reflexivity.
  - destruct (num_truthy n); eexists; reflexivity.
  - destruct (is_empty s); eexists; reflexivity.
  - destruct (js_toString (obj_get fields "status")) as [t|e] eqn:S;
      cbn [bind]; [eexists; reflexivity|].
    now rewrite (js_toString_throws _ S).
Qed.

(** X13.  The status line of a response element.  The pattern matches a line
    made of a word, a white space, a run of digits, a white space and a text
    on one line, and gives the digits and the text; the digits are read as
    the number value of the integer they denote, which for the numeral of a
    number below [2^53] is that number, and for [2^53 + 1] the even
    neighbour [2^53]; a response whose status element
    matches gets that number and the text, and any other response gets the
    status and the status text of the transport response. *)
Theorem davRequest_status_line :
  (forall s digits text,
      statusRegex_exec s = Some (digits, text) <->
      exists proto sp1 sp2,
        s = proto ++ String sp1 (digits ++ String sp2 text)
        /\ proto <> "" /\ all_chars (fun c => negb (is_ws c)) proto = true
        /\ is_ws sp1 = true
        /\ digits <> "" /\ all_chars is_digit digits = true
        /\ is_ws sp2 = true
        /\ text <> ""
        /\ all_chars (fun c => negb (is_line_terminator c)) text = true)
  /\ (forall n, ((Z.of_nat n < 2 ^ 53)%Z ->
                 parseInt10 (of_nat n) = Z.of_nat n)
                /\ all_chars is_digit (of_nat n) = true
                /\ of_nat n <> "")
  /\ parseInt10 "9007199254740993" = 9007199254740992%Z
  /\ (forall davResponse result fields r,
         davRequest_response davResponse result (JObj fields) = Ok r ->
         exists line,
           js_toString (obj_get fields "status") = Ok line
           /\ match statusRegex_exec line with
              | Some (digits, text) =>
                  status r = parseInt10 digits /\ statusText r = text
              | None =>
                  status r = resp_status davResponse
                  /\ statusText r = resp_statusText davResponse
              end).
Proof.
  split; [exact statusRegex_exec_spec|]. split.
  - intros n. destruct (decimal_value_of_nat n) as [V [D N]].
    unfold parseInt10. rewrite V.
    split; [apply nearest_double_exact|]. auto.
  - split; [vm_compute; reflexivity|].
    intros davResponse result fields r H.
    unfold davRequest_response in H. cbn [js_truthy negb js_get bind] in H.
    destruct (js_toString (obj_get fields "status")) as [line|e];
      cbn [bind] in H; [|discriminate].
    exists line. split; [reflexivity|].
    inversion H; subst; clear H. cbn [status statusText].
    destruct (statusRegex_exec line) as [[digits text]|]; split; reflexivity.
Qed.

(** *** The requests on one object *)

Lemma if_match_headers_lookup (etag : JsVal) (headers : option Obj)
      (k : string) :
  keys_unique (spread_opt headers) ->
  obj_lookup (if_match_headers etag headers) k
  = match obj_lookup (spread_opt headers) k with
    | Some v => if js_truthy v then Some v else None
    | None =>
        if String.eqb "If-Match" k && js_truthy etag then Some etag else None
    end.
Proof.
  intros U. unfold if_match_headers. rewrite cleanupFalsy_lookup.
  2:{ apply obj_assign_unique. repeat constructor. simpl. tauto. }
  rewrite (obj_lookup_assign _ _ U).
  destruct (obj_lookup (spread_opt headers) k); [reflexivity|].
  cbn [obj_lookup]. destruct (String.eqb "If-Match" k); cbn [andb];
    [|reflexivity].
  destruct (js_truthy etag); reflexivity.
Qed.

(** X14.  [updateObject] and [deleteObject] send a PUT with the data and a
    DELETE to the constant prefix and the url.  The headers of both are the
    caller's headers with a truthy value; [If-Match] is the etag when the
    etag is truthy and the caller gives no [If-Match] header, and there is
    no [If-Match] when the etag is falsy or the caller's [If-Match] is
    falsy. *)
Theorem updateObject_if_match (E : Env) (url : string) (data etag : JsVal)
        (headers : option Obj) :
  keys_unique (spread_opt headers) ->
  exists sent,
    updateObject E url data etag headers
    = fetch E ("http://localhost:8001/" ++ url)
            {| fi_method := "PUT"; fi_body := data; fi_headers := Some sent;
               fi_redirect := None |}
    /\ deleteObject E url etag headers
       = fetch E ("http://localhost:8001/" ++ url)
               {| fi_method := "DELETE"; fi_body := JUndef;
                  fi_headers := Some sent; fi_redirect := None |}
    /\ forall k,
        obj_lookup sent k
        = match obj_lookup (spread_opt headers) k with
          | Some v => if js_truthy v then Some v else None
          | None =>
              if String.eqb "If-Match" k && js_truthy etag then Some etag
              else None
          end.
Proof.
  intros U. exists (if_match_headers etag headers).
  split; [reflexivity|]. split; [reflexivity|].
  intros k. now apply if_match_headers_lookup.
Qed.

Lemma typed_headers_lookup (contentType : string) (etag : JsVal)
      (headers : option Obj) (k : string) :
  contentType <> "" ->
  keys_unique (spread_opt headers) ->
  obj_lookup
    (if_match_headers etag
       (Some (obj_assign [("content-type", JStr contentType)]
                         (spread_opt headers)))) k
  = match obj_lookup (spread_opt headers) k with
    | Some v => if js_truthy v then Some v else None
    | None =>
        if String.eqb "content-type" k then Some (JStr contentType)
        else if String.eqb "If-Match" k && js_truthy etag then Some etag
             else None
    end.
Proof.
  intros C U. rewrite if_match_headers_lookup.
  2:{ apply obj_assign_unique. repeat constructor. simpl. tauto. }
  cbn [spread_opt]. rewrite (obj_lookup_assign _ _ U).
  destruct (obj_lookup (spread_opt headers) k); [reflexivity|].
  cbn [obj_lookup]. destruct (String.eqb "content-type" k); [|reflexivity].
  cbn [js_truthy]. apply is_empty_false in C. now rewrite C.
Qed.

(** X15.  [updateCalendarObject] and [updateVCard] send a PUT to the constant
    prefix and the url of the object (converted to a string, which throws
    on a url that has no conversion), with its data.  The headers are the
    caller's headers with a truthy value, [content-type] is the type of the
    object unless the caller gives one, and [If-Match] is the etag of the
    object when it is truthy and the caller gives no [If-Match]. *)
Theorem updateCalendarObject_headers (E : Env) (o : DAVObject)
        (headers : option Obj) :
  keys_unique (spread_opt headers) ->
  exists sentCalendar sentCard,
    updateCalendarObject E o headers
    = (u <- js_toString (url o) ;;
       fetch E ("http://localhost:8001/" ++ u)
             {| fi_method := "PUT"; fi_body := data_of o;
                fi_headers := Some sentCalendar; fi_redirect := None |})
    /\ updateVCard E o headers
       = (u <- js_toString (url o) ;;
          fetch E ("http://localhost:8001/" ++ u)
                {| fi_method := "PUT"; fi_body := data_of o;
                   fi_headers := Some sentCard; fi_redirect := None |})
    /\ forall k,
        obj_lookup sentCalendar k
        = match obj_lookup (spread_opt headers) k with
          | Some v => if js_truthy v then Some v else None
          | None =>
              if String.eqb "content-type" k
              then Some (JStr "text/calendar; charset=utf-8")
              else if String.eqb "If-Match" k && js_truthy (etag o)
                   then Some (etag o) else None
          end
        /\ obj_lookup sentCard k
           = match obj_lookup (spread_opt headers) k with
             | Some v => if js_truthy v then Some v else None
             | None =>
                 if String.eqb "content-type" k
                 then Some (JStr "text/vcard; charset=utf-8")
                 else if String.eqb "If-Match" k && js_truthy (etag o)
                      then Some (etag o) else None
             end.
Proof.
  intros U. eexists. eexists.
  split; [reflexivity|]. split; [reflexivity|].
  intros k. split; apply typed_headers_lookup; try assumption; discriminate.
Qed.

(** *** [getDAVAttribute] *)

Lemma obj_set_fresh (o : Obj) (k : string) (v : JsVal) :
  ~ In k (map fst o) -> obj_set o k v = (o ++ [(k, v)])%list.
Proof.
  induction o as [|[k0 v0] o IH]; simpl; [reflexivity|].
  intros H. destruct (String.eqb k0 k) eqn:E.
  - apply String.eqb_eq in E. tauto.
  - rewrite IH by tauto. reflexivity.
Qed.

Lemma obj_lookup_In (o : Obj) (k : string) (v : JsVal) :
  keys_unique o -> In (k, v) o -> obj_lookup o k = Some v.
Proof.
  unfold keys_unique. induction o as [|[k0 v0] o IH]; simpl; [tauto|].
  intros U [H | H]; inversion U as [|? ? N U']; subst.
  - inversion H; subst. now rewrite String.eqb_refl.
  - destruct (String.eqb k0 k) eqn:E; [|now apply IH].
    apply String.eqb_eq in E. subst k0. exfalso. apply N.
    apply in_map_iff. exists (k, v). auto.
Qed.

Lemma getDAVAttribute_acc (nsArr : list string) (acc : Obj) :
  NoDup (map fst acc ++ map attribute_name nsArr) ->
  fold_left (fun prev curr => obj_set prev (attribute_name curr) (JStr curr))
            nsArr acc
  = (acc ++ map (fun ns => (attribute_name ns, JStr ns)) nsArr)%list.
Proof.
  revert acc. induction nsArr as [|ns rest IH]; intros acc U; simpl.
  - now rewrite app_nil_r.
  - simpl in U. rewrite obj_set_fresh.
    2:{ apply NoDup_remove_2 in U. intros H. apply U, in_or_app. now left. }
    rewrite IH.
    + now rewrite <- app_assoc.
    + rewrite map_app. simpl. rewrite <- app_assoc. exact U.
Qed.

Lemma attribute_name_injective (x y : string) :
  In x (map fst DAVAttributeMap) -> In y (map fst DAVAttributeMap) ->
  attribute_name x = attribute_name y -> x = y.
Proof.
  simpl. intros Hx Hy.
  repeat (destruct Hx as [<- | Hx]); try contradiction;
    repeat (destruct Hy as [<- | Hy]); try contradiction;
    intros H; try reflexivity; vm_compute in H; discriminate H.
Qed.

Lemma attribute_names_distinct (nsArr : list string) :
  NoDup nsArr ->
  (forall ns, In ns nsArr -> In ns (map fst DAVAttributeMap)) ->
  NoDup (map attribute_name nsArr).
Proof.
  induction 1 as [|x l N U IH]; intros K; simpl; constructor.
  - intros H. apply in_map_iff in H. destruct H as [y [E Hy]].
    apply attribute_name_injective in E.
    + subst y. contradiction.
    + apply K. now right.
    + apply K. now left.
  - apply IH. intros ns Hns. apply K. now right.
Qed.

(** X16.  For a list of distinct namespaces of the attribute map,
    [getDAVAttribute] is the object with one [xmlns] attribute per
    namespace, in the order of the list: the attribute the map gives to the
    namespace holds the namespace.  A name that is not in the map is stored
    under the key that the property the map inherits from
    [Object.prototype] under that name converts to, and under the key
    [undefined] when there is no such property. *)
Theorem getDAVAttribute_known (nsArr : list string) :
  NoDup nsArr ->
  (forall ns, In ns nsArr -> In ns (map fst DAVAttributeMap)) ->
  getDAVAttribute nsArr = map (fun ns => (attribute_name ns, JStr ns)) nsArr
  /\ keys_unique (getDAVAttribute nsArr)
  /\ (forall ns, In ns nsArr ->
                 In (ns, attribute_name ns) DAVAttributeMap
                 /\ obj_lookup (getDAVAttribute nsArr) (attribute_name ns)
                    = Some (JStr ns))
  /\ (forall ns, ~ In ns (map fst DAVAttributeMap) ->
                 getDAVAttribute [ns]
                 = [(match prototype_key ns with
                     | Some key => key
                     | None => "undefined"
                     end, JStr ns)]).
Proof.
  intros N K.
  pose proof (attribute_names_distinct N K) as D.
  assert (getDAVAttribute nsArr
          = map (fun ns => (attribute_name ns, JStr ns)) nsArr) as E.
  { unfold getDAVAttribute. now rewrite getDAVAttribute_acc. }
  assert (keys_unique (getDAVAttribute nsArr)) as U.
  { unfold keys_unique. rewrite E, map_map. exact D. }
  split; [exact E|]. split; [exact U|]. split.
  - intros ns Hns. split.
    + specialize (K ns Hns). simpl in K.
      repeat (destruct K as [<- | K]); try contradiction;
        vm_compute; tauto.
    + apply obj_lookup_In; [exact U|]. rewrite E.
      apply in_map_iff. exists ns. auto.
  - intros ns Hn. unfold getDAVAttribute. simpl.
    unfold attribute_name.
    destruct (find (fun kv => String.eqb (fst kv) ns) DAVAttributeMap)
      as [kv|] eqn:F; [|reflexivity].
    apply find_some in F. destruct F as [F1 F2].
    apply String.eqb_eq in F2. subst ns. exfalso. apply Hn.
    apply in_map_iff. exists kv. auto.
Qed.

(** *** The namespace of an outgoing element *)

Lemma has_namespace_from_app (seen : bool) (ns : string) (d : ascii)
      (rest : string) :
  seen = true \/ ns <> "" ->
  all_chars (fun c => negb (is_line_terminator c)) ns = true ->
  is_line_terminator d = false ->
  has_namespace_from seen (ns ++ String ":" (String d rest)) = true.
Proof.
  revert seen. induction ns as [|c ns IH]; intros seen S A D.
  - destruct S as [-> | S]; [|congruence].
    cbn [append has_namespace_from].
    replace (is_line_terminator ":") with false by reflexivity.
    rewrite D. reflexivity.
  - cbn [all_chars] in A. apply andb_true_iff in A. destruct A as [C A].
    apply negb_true_iff in C.
    cbn [append has_namespace_from]. rewrite C.
    destruct (seen && Ascii.eqb c ":" && _); [reflexivity|].
    apply IH; auto.
Qed.

(** X17.  The [elementNameFn] of the outgoing conversion leaves every name
    when there is no namespace, and a name that has a prefix; to a name
    without prefix, not empty and not starting with a line terminator, it
    adds the namespace and a colon, the result has a prefix, and applying
    it twice is the same as applying it once. *)
Theorem elementNameFn_adds_namespace :
  (forall name, elementNameFn None name = name
                /\ elementNameFn (Some "") name = name)
  /\ (forall ns name, has_namespace name = true ->
                      elementNameFn (Some ns) name = name)
  /\ (forall ns d rest,
         ns <> "" ->
         all_chars (fun c => negb (is_line_terminator c)) ns = true ->
         is_line_terminator d = false ->
         (has_namespace (String d rest) = false ->
          elementNameFn (Some ns) (String d rest)
          = ns ++ ":" ++ String d rest)
         /\ has_namespace (elementNameFn (Some ns) (String d rest)) = true
         /\ elementNameFn (Some ns) (elementNameFn (Some ns) (String d rest))
            = elementNameFn (Some ns) (String d rest)).
Proof.
  split; [intros name; split; reflexivity|]. split.
  - intros ns name H. unfold elementNameFn. rewrite H.
    now rewrite andb_false_r.
  - intros ns d rest Hn A D.
    assert (has_namespace (elementNameFn (Some ns) (String d rest)) = true)
      as P.
    { unfold elementNameFn.
      destruct (has_namespace (String d rest)) eqn:H.
      - now rewrite andb_false_r.
      - apply is_empty_false in Hn. rewrite Hn. cbn [negb andb].
        unfold has_namespace. apply has_namespace_from_app; auto.
        right. now apply is_empty_false. }
    split; [|split; [exact P|]].
    + intros H. unfold elementNameFn. rewrite H.
      apply is_empty_false in Hn. now rewrite Hn.
    + unfold elementNameFn at 1. rewrite P. now rewrite andb_false_r.
Qed.

(** *** [serviceDiscovery] and the principal *)

(** X18.  Once [serverUrl] parses and the well-known path resolves against
    it, [serviceDiscovery] does not throw, whatever the transport does: it
    returns the [href] of the parsed [serverUrl], or, on a redirect (a
    status from 300 to 399) with a non-empty [Location] that parses against
    it, the [href] of that location with the protocol of the server url,
    and with the port of the well-known url when the host is the same and
    the location has none. *)
Theorem serviceDiscovery_never_throws (E : Env) (account : DAVAccount)
        (headers : option Obj) (endpoint uri : URL) :
  URL_new (serverUrl account) None = Ok endpoint ->
  URL_new ("/.well-known/"
             ++ match accountType account with
                | Some t => accountType_name t
                | None => "undefined"
                end)
          (Some (url_href endpoint)) = Ok uri ->
  exists href,
    serviceDiscovery E account headers = Ok href
    /\ (href = url_href endpoint
        \/ exists response location serviceURL,
            let uri' := url_set_protocol uri (url_protocol endpoint) in
            fetch E (concat_opt (proxyUrl account) (url_href uri'))
                  {| fi_headers := headers; fi_method := "PROPFIND";
                     fi_redirect := Some "manual"; fi_body := JUndef |}
            = Ok response
            /\ (300 <= resp_status response < 400)%Z
            /\ resp_headers_get response "Location" = Some location
            /\ location <> ""
            /\ URL_new location (Some (url_href endpoint)) = Ok serviceURL
            /\ href
               = url_href
                   (url_set_protocol
                      (if String.eqb (url_hostname serviceURL)
                                     (url_hostname uri')
                          && negb (is_empty (url_port uri'))
                          && is_empty (url_port serviceURL)
                       then url_set_port serviceURL (url_port uri')
                       else serviceURL)
                      (url_protocol endpoint))).
Proof.
  intros HE HU. unfold serviceDiscovery. rewrite HE. cbn [bind].
  rewrite HU. cbn [bind]. unfold serviceDiscovery_try.
  destruct (fetch E _ _) as [response|e] eqn:F; cbn [bind].
  2:{ eexists. split; [reflexivity | now left]. }
  destruct (Z.leb 300 (resp_status response)
            && Z.ltb (resp_status response) 400) eqn:S.
  2:{ eexists. split; [reflexivity | now left]. }
  destruct (resp_headers_get response "Location") as [location|] eqn:L.
  2:{ eexists. split; [reflexivity | now left]. }
  destruct (is_empty location) eqn:N; cbn [negb].
  { eexists. split; [reflexivity | now left]. }
  destruct (URL_new location (Some (url_href endpoint))) as [serviceURL|e]
    eqn:P; cbn [bind].
  2:{ eexists. split; [reflexivity | now left]. }
  eexists. split; [reflexivity|]. right.
  exists response, location, serviceURL. cbn zeta.
  apply andb_true_iff in S. destruct S as [S1 S2].
  apply Z.leb_le in S1. apply Z.ltb_lt in S2. apply is_empty_false in N.
  repeat split; auto.
Qed.

Lemma propfind_http_error (E : Env) (url : string) (props depth : JsVal)
      (callerHeaders : option Obj) (proxyUrl : option string)
      (davResponse : Response) :
  (forall init, fetch E ("http://localhost:8001/" ++ url) init
                = Ok davResponse) ->
  resp_ok davResponse = false ->
  propfind E url props depth callerHeaders proxyUrl
  = Ok [synthetic_response davResponse].
Proof.
  intros F K. unfold propfind, davRequest, davRequest_fetch_init.
  cbn [headers dr_init cleanupFalsy_opt bind].
  unfold davRequest_fetch_url. cbn [dr_url]. unfold __PROXY_URL__.
  rewrite F. cbn [bind]. unfold davRequest_receive. rewrite K. reflexivity.
Qed.

(** X19.  When the server answers the PROPFIND of [fetchPrincipalUrl] with a
    status that is not ok, the status 401 is reported as invalid
    credentials, and any other status is no error: the result is the [href]
    of the root url itself. *)
Theorem fetchPrincipalUrl_http_error (E : Env) (account : DAVAccount)
        (headers : option Obj) (davResponse : Response) :
  hasFields account ["rootUrl"] = true ->
  (forall init, fetch E ("http://localhost:8001/" ++ rootUrl_of account) init
                = Ok davResponse) ->
  resp_ok davResponse = false ->
  fetchPrincipalUrl E account headers
  = if Z.eqb (resp_status davResponse) 401
    then Throw "Invalid credentials"
    else u <- URL_new "" (Some (rootUrl_of account)) ;; Ok (url_href u).
Proof.
  intros HA F K. unfold fetchPrincipalUrl, require_fields.
  rewrite HA. cbn [bind].
  rewrite propfind_http_error with (davResponse := davResponse)
    by assumption.
  cbn [bind].
  unfold synthetic_response at 1 2. cbn [ok status]. rewrite K. cbn [negb andb].
  destruct (Z.eqb (resp_status davResponse) 401); reflexivity.
Qed.

(** X20.  When the server answers the PROPFIND of [fetchHomeUrl] with a
    status that is not ok, [fetchHomeUrl] fails: it cannot find the home
    url. *)
Theorem fetchHomeUrl_http_error (E : Env) (account : DAVAccount)
        (headers : option Obj) (davResponse : Response) :
  hasFields account ["principalUrl"; "rootUrl"] = true ->
  (forall init,
      fetch E ("http://localhost:8001/" ++ principalUrl_of account) init
      = Ok davResponse) ->
  resp_ok davResponse = false ->
  fetchHomeUrl E account headers = Throw "cannot find homeUrl".
Proof.
  intros HA F K. unfold fetchHomeUrl, require_fields.
  rewrite HA. cbn [bind].
  rewrite propfind_http_error with (davResponse := davResponse)
    by assumption.
  cbn [bind findM]. unfold synthetic_response at 1. cbn [href].
  rewrite urlContains_val_strings. cbn [bind].
  destruct (urlContains _ _); [|reflexivity].
  unfold synthetic_response. cbn [ok]. rewrite K. reflexivity.
Qed.

(** *** The detailed result of [syncCalendars] *)





(** *** The parsed path of [davRequest] *)

Lemma mentions_xml_parsed (davResponse : Response) :
  mentions_xml davResponse -> not_xml davResponse = false.
Proof.
  unfold mentions_xml, not_xml. intros [ct [H I]]. rewrite H.
  apply negb_false_iff. now apply includes_spec.
Qed.

(** X26.  When the transport response is ok, has a content type that
    mentions xml and is to be parsed, the decoder gives a tree and the tree
    has a multistatus, [davRequest] returns one response for each response
    element of the multistatus, in their order (one response when the
    element is not an array), provided the status of every element can be
    converted to a string; when the status of an element cannot,
    [davRequest] throws a TypeError. *)
Theorem davRequest_one_response_per_element (E : Env)
        (params : DAVRequestParams) (fetchInit : FetchInit)
        (davResponse : Response) (result multistatus response : JsVal) :
  davRequest_fetch_init E params = Ok fetchInit ->
  fetch E (davRequest_fetch_url params) fetchInit = Ok davResponse ->
  resp_ok davResponse = true ->
  mentions_xml davResponse ->
  dr_parseOutgoing params <> Some false ->
  xml2js E (resp_text davResponse) = Ok result ->
  js_get result "multistatus" = Ok multistatus ->
  js_get multistatus "response" = Ok response ->
  (Forall status_converts (as_array response) ->
   exists responses,
     davRequest E params = Ok responses
     /\ Forall2 (fun responseBody r =>
                   davRequest_response davResponse result responseBody = Ok r)
                (as_array response) responses
     /\ length responses = length (as_array response))
  /\ (~ Forall status_converts (as_array response) ->
      davRequest E params = Throw TypeError).
Proof.
  intros HI HF HO HX HP HR HM HS.
  unfold davRequest. rewrite HI. cbn [bind]. rewrite HF. cbn [bind].
  unfold davRequest_receive. rewrite HO, (mentions_xml_parsed HX).
  assert (default_bool (dr_parseOutgoing params) true = true) as P.
  { destruct (dr_parseOutgoing params) as [[|]|]; [reflexivity| |reflexivity].
    congruence. }
  rewrite P. cbn [negb orb]. rewrite HR. cbn [bind]. rewrite HM. cbn [bind].
  rewrite HS. cbn [bind]. split.
  - intros C.
    destruct (mapM_total (davRequest_response davResponse result)
                (fun responseBody r =>
                   davRequest_response davResponse result responseBody = Ok r)
                (as_array response)) as [rs [H F]].
    { intros x Hx. rewrite Forall_forall in C. destruct (C x Hx) as [line L].
      pose proof (davRequest_response_defined davResponse result x) as D.
      rewrite L in D. destruct D as [r Hr]. exists r. auto. }
    exists rs. split; [exact H|]. split; [exact F|].
    symmetry. eapply Forall2_length. exact F.
  - intros C. induction (as_array response) as [|x xs IH]; simpl.
    + exfalso. apply C. constructor.
    + pose proof (davRequest_response_defined davResponse result x) as D.
      destruct (js_toString (js_get_opt x "status")) as [line|e] eqn:L.
      * destruct D as [r Hr]. rewrite Hr. cbn [bind].
        rewrite IH; [reflexivity|]. intros F. apply C.
        constructor; [exists line; exact L | exact F].
      * rewrite D. reflexivity.
Qed.

(** *** [supportedReportSet] *)

Lemma mapM_first_report_name (items : list JsVal) (names : list string) :
  Forall2 (fun item name =>
             exists v more,
               js_get item "report" = Ok (JObj ((name, v) :: more)))
          items names ->
  mapM first_report_name items = Ok (map JStr names).
Proof.
  induction 1 as [|item name items names [v [more H]] _ IH]; simpl.
  - reflexivity.
  - unfold first_report_name at 1. rewrite H. cbn. rewrite IH. reflexivity.
Qed.

(** X27.  [supportedReportSet] on the responses of its PROPFIND: without a
    response, or when the first response has no list of supported reports,
    the result is empty; for an array of supported reports it is the name
    of the first child of each [report]; and a single supported report,
    which the decoder gives as an object and not as an array, makes it
    throw a TypeError. *)
Theorem supportedReportSet_reports (E : Env) (collection : DAVCollection)
        (headers : option Obj) (proxyUrl : option string)
        (res : list DAVResponse) :
  propfind E (c_url collection)
           (JObj [(DAVNamespaceShort.DAV ++ ":supported-report-set", JObj [])])
           (JStr "0") headers proxyUrl = Ok res ->
  (res = [] -> supportedReportSet E collection headers proxyUrl = Ok [])
  /\ forall r rest,
      res = r :: rest ->
      let supportedReport :=
        js_get_opt (props_get r "supportedReportSet") "supportedReport" in
      (nullish supportedReport = true ->
       supportedReportSet E collection headers proxyUrl = Ok [])
      /\ (forall items names,
             supportedReport = JArr items ->
             Forall2 (fun item name =>
                        exists v more,
                          js_get item "report"
                          = Ok (JObj ((name, v) :: more)))
                     items names ->
             supportedReportSet E collection headers proxyUrl
             = Ok (map JStr names))
      /\ (forall fields,
             supportedReport = JObj fields ->
             supportedReportSet E collection headers proxyUrl
             = Throw TypeError).
Proof.
  intros HP. unfold supportedReportSet. rewrite HP. cbn [bind]. split.
  - intros ->. reflexivity.
  - intros r rest ->. cbv zeta. split; [|split].
    + intros N. rewrite N. reflexivity.
    + intros items names H F. rewrite H. cbn [nullish].
      now apply mapM_first_report_name.
    + intros fields H. rewrite H. reflexivity.
Qed.

(** *** [cleanupFalsy] *)

Lemma obj_set_truthy (o : Obj) (k : string) (v : JsVal) :
  Forall (fun kv => js_truthy (snd kv) = true) o ->
  js_truthy v = true ->
  Forall (fun kv => js_truthy (snd kv) = true) (obj_set o k v).
Proof.
  intros F T. induction F as [|[k0 v0] o H F IH]; simpl.
  - repeat constructor. exact T.
  - destruct (String.eqb k0 k); constructor; auto.
Qed.

Lemma cleanupFalsy_truthy (h : Obj) :
  Forall (fun kv => js_truthy (snd kv) = true) (cleanupFalsy h).
Proof.
  unfold cleanupFalsy.
  assert (forall acc,
             Forall (fun kv => js_truthy (snd kv) = true) acc ->
             Forall (fun kv => js_truthy (snd kv) = true)
                    (fold_left (fun prev kv =>
                                  if js_truthy (snd kv)
                                  then obj_set prev (fst kv) (snd kv)
                                  else prev) h acc)) as G.
  { induction h as [|[k0 v0] h IH]; intros acc F; simpl; [assumption|].
    apply IH. destruct (js_truthy v0) eqn:T; [|assumption].
    now apply obj_set_truthy. }
  apply G. constructor.
Qed.

Lemma cleanupFalsy_kept (o acc : Obj) :
  NoDup (map fst acc ++ map fst o) ->
  Forall (fun kv => js_truthy (snd kv) = true) o ->
  fold_left (fun prev kv =>
               if js_truthy (snd kv) then obj_set prev (fst kv) (snd kv)
               else prev) o acc
  = (acc ++ o)%list.
Proof.
  revert acc. induction o as [|[k v] o IH]; intros acc U F; simpl.
  - now rewrite app_nil_r.
  - inversion F as [|? ? T F']; subst. simpl in T. rewrite T.
    simpl in U. rewrite obj_set_fresh.
    2:{ apply NoDup_remove_2 in U. intros H. apply U, in_or_app. now left. }
    rewrite IH; [now rewrite <- app_assoc | | assumption].
    rewrite map_app. simpl. rewrite <- app_assoc. exact U.
Qed.

(** X28.  The object [cleanupFalsy] returns has distinct keys and truthy
    values only, and cleaning it again changes nothing: the headers that
    [propfind] and [collectionQuery] clean before [davRequest] cleans them
    again are sent as cleaned once. *)
Theorem cleanupFalsy_invariants (h : Obj) :
  keys_unique (cleanupFalsy h)
  /\ Forall (fun kv => js_truthy (snd kv) = true) (cleanupFalsy h)
  /\ cleanupFalsy (cleanupFalsy h) = cleanupFalsy h
  /\ cleanupFalsy_opt (Some (cleanupFalsy h)) = Ok (cleanupFalsy h).
Proof.
  pose proof (cleanupFalsy_unique h) as U.
  pose proof (cleanupFalsy_truthy h) as T.
  assert (cleanupFalsy (cleanupFalsy h) = cleanupFalsy h) as I.
  { unfold cleanupFalsy at 1. now rewrite cleanupFalsy_kept. }
  split; [exact U|]. split; [exact T|]. split; [exact I|].
  unfold cleanupFalsy_opt. now rewrite I.
Qed.

(** *** A multistatus without responses *)

(** X29.  When the server answers a REPORT with a multistatus that has no
    response element, [davRequest] makes one placeholder of the transport
    response, without [raw] and without [href]; [collectionQuery] returns
    the empty list instead, and for an empty array of responses as well. *)
Theorem collectionQuery_no_responses (E : Env) (url : string)
        (body depth : JsVal) (defaultNamespace : option string)
        (callerHeaders : option Obj) (davResponse : Response)
        (result multistatus : JsVal) :
  (forall init, fetch E ("http://localhost:8001/" ++ url) init
                = Ok davResponse) ->
  resp_ok davResponse = true ->
  not_xml davResponse = false ->
  xml2js E (resp_text davResponse) = Ok result ->
  js_get result "multistatus" = Ok multistatus ->
  js_get multistatus "response" = Ok JUndef
  \/ js_get multistatus "response" = Ok (JArr []) ->
  collectionQuery E url body depth defaultNamespace callerHeaders = Ok []
  /\ (js_get multistatus "response" = Ok JUndef ->
      propfind E url body depth callerHeaders None
      = Ok [ {| status := resp_status davResponse;
                statusText := resp_statusText davResponse;
                ok := resp_ok davResponse;
                raw := JUndef; href := JUndef; error := JUndef;
                responsedescription := JUndef; props := None |} ]).
Proof.
  intros HF HO HX HR HM HS.
  assert (forall params,
             dr_url params = url ->
             dr_parseOutgoing params = None ->
             (exists h, headers (dr_init params) = Some h) ->
             davRequest E params
             = (response <- js_get multistatus "response" ;;
                mapM (davRequest_response davResponse result)
                     (as_array response))) as D.
  { intros params Hu Hp [h Hh]. unfold davRequest, davRequest_fetch_init.
    rewrite Hh. cbn [cleanupFalsy_opt bind].
    unfold davRequest_fetch_url, __PROXY_URL__. rewrite Hu, HF. cbn [bind].
    unfold davRequest_receive. rewrite HO, HX, Hp. cbn [negb orb default_bool].
    rewrite HR. cbn [bind]. rewrite HM. reflexivity. }
  split.
  - unfold collectionQuery.
    rewrite D; [|reflexivity|reflexivity|eexists; reflexivity].
    destruct HS as [HS | HS]; rewrite HS; reflexivity.
  - intros HU. unfold propfind.
    rewrite D; [|reflexivity|reflexivity|eexists; reflexivity].
    rewrite HU. reflexivity.
Qed.

End MoreProperties.

(** ** Regular expressions: the test decides the match *)

Lemma append_nil_inv (a b : string) : a ++ b = "" -> a = "" /\ b = "".
Proof. destruct a; simpl; [auto | discriminate]. Qed.

Lemma nullable_spec (r : Regex) : nullable r = true <-> Matches r "".
Proof.
  induction r as [| | p | r1 IH1 r2 IH2 | r1 IH1 r2 IH2 | r IH]; simpl.
  - split; [discriminate | intros H; inversion H].
  - split; [intros _; constructor | reflexivity].
  - split; [discriminate | intros H; inversion H].
  - rewrite andb_true_iff, IH1, IH2. split.
    + intros [H1 H2]. exact (MSeq H1 H2).
    + intros H. inversion H as [| | ? ? s1 s2 H1 H2 | | | |]; subst.
      match goal with
      | E : s1 ++ s2 = "" |- _ =>
          apply append_nil_inv in E; destruct E; subst; auto
      end.
  - rewrite orb_true_iff, IH1, IH2. split.
    + intros [H | H]; [now apply MAltL | now apply MAltR].
    + intros H. inversion H; subst; auto.
  - split; [intros _; constructor | reflexivity].
Qed.

Lemma star_cons (r : Regex) (c : ascii) (s : string) :
  Matches (Star r) (String c s) ->
  exists s1 s2,
    s = s1 ++ s2 /\ Matches r (String c s1) /\ Matches (Star r) s2.
Proof.
  intros H. remember (Star r) as r' eqn:R. remember (String c s) as t eqn:T.
  revert s T.
  induction H as [| | | | | | r0 s1 s2 H1 _ H2 IH2]; intros u T;
    try discriminate.
  inversion R; subst r0. destruct s1 as [|d s1]; simpl in T.
  - apply (IH2 eq_refl u T).
  - inversion T; subst. exists s1, s2. auto.
Qed.

Lemma deriv_spec (c : ascii) (r : Regex) (s : string) :
  Matches (deriv c r) s <-> Matches r (String c s).
Proof.
  revert s.
  induction r as [| | p | r1 IH1 r2 IH2 | r1 IH1 r2 IH2 | r IH]; intros s;
    simpl.
  - split; intros H; inversion H.
  - split; intros H; inversion H.
  - destruct (p c) eqn:P.
    + split; intros H; inversion H; subst; [now constructor | constructor].
    + split; intros H; inversion H; subst. congruence.
  - assert (Matches (Seq (deriv c r1) r2) s ->
            Matches (Seq r1 r2) (String c s)) as L.
    { intros H. inversion H as [| | ? ? s1 s2 H1 H2 | | | |]; subst.
      apply IH1 in H1. exact (MSeq H1 H2). }
    assert (Matches (Seq r1 r2) (String c s) ->
            Matches (Seq (deriv c r1) r2) s
            \/ (Matches r1 "" /\ Matches r2 (String c s))) as R.
    { intros H. inversion H as [| | ? ? s1 s2 H1 H2 | | | |]; subst.
      match goal with
      | E : s1 ++ s2 = String c s |- _ =>
          destruct s1 as [|d s1]; simpl in E;
          [ right; subst s2; auto
          | inversion E; subst; left; apply IH1 in H1; exact (MSeq H1 H2) ]
      end. }
    destruct (nullable r1) eqn:N.
    + split.
      * intros H. inversion H; subst; [now apply L|].
        apply nullable_spec in N.
        change (String c s) with ("" ++ String c s).
        apply MSeq; [assumption | now apply IH2].
      * intros H. destruct (R H) as [H' | [_ H']].
        -- now apply MAltL.
        -- apply MAltR. now apply IH2.
    + split; [exact L|]. intros H. destruct (R H) as [H' | [H' _]].
      * exact H'.
      * apply nullable_spec in H'. congruence.
  - split; intros H; inversion H; subst.
    + apply MAltL. now apply IH1.
    + apply MAltR. now apply IH2.
    + apply MAltL. now apply IH1.
    + apply MAltR. now apply IH2.
  - split.
    + intros H. inversion H as [| | ? ? s1 s2 H1 H2 | | | |]; subst.
      apply IH in H1.
      change (String c (s1 ++ s2)) with (String c s1 ++ s2).
      now apply MStarApp.
    + intros H. apply star_cons in H. destruct H as [s1 [s2 [E [H1 H2]]]].
      subst s. apply MSeq; [now apply IH | assumption].
Qed.

(** [regex_test] answers true exactly on the strings of the pattern. *)
Lemma regex_test_spec (r : Regex) (s : string) :
  regex_test r s = true <-> Matches r s.
Proof.
  revert r. induction s as [|c s IH]; intros r; simpl.
  - apply nullable_spec.
  - rewrite IH. apply deriv_spec.
Qed.

Lemma Seq_mono (r1 r1' r2 r2' : Regex) :
  (forall s, Matches r1 s -> Matches r1' s) ->
  (forall s, Matches r2 s -> Matches r2' s) ->
  forall s, Matches (Seq r1 r2) s -> Matches (Seq r1' r2') s.
Proof.
  intros H1 H2 s H. inversion H; subst. apply MSeq; auto.
Qed.

Lemma Opt_intro (r : Regex) (s : string) : Matches r s -> Matches (Opt r) s.
Proof. intros H. now apply MAltR. Qed.

Lemma Seq_opt_assoc (a b rest : Regex) (s : string) :
  Matches (Seq a (Seq b rest)) s -> Matches (Seq (Opt (Seq a b)) rest) s.
Proof.
  intros H. inversion H as [| | ? ? s1 s23 H1 H23 | | | |]; subst.
  inversion H23 as [| | ? ? s2 s3 H2 H3 | | | |]; subst.
  rewrite <- append_assoc. apply MSeq; [|assumption].
  apply Opt_intro. now apply MSeq.
Qed.

Ltac same_head := apply Seq_mono; [intros ? K; exact K |].

Ltac optional :=
  let s := fresh "s" in
  let K := fresh "K" in
  intros s K; apply Opt_intro; revert s K.

(** A full time stamp is an ISO 8601 string of the general pattern. *)
Lemma ISO_8601_FULL_included (s : string) :
  regex_test ISO_8601_FULL s = true -> regex_test ISO_8601 s = true.
Proof.
  rewrite !regex_test_spec. revert s. unfold ISO_8601_FULL, ISO_8601.
  same_head. optional. same_head. same_head. optional. same_head. same_head.
  optional. same_head. same_head. same_head. same_head.
  intros s. apply Seq_opt_assoc.
Qed.

(** ** Address books, objects and accounts *)

Section ObjectProperties.

Context {NUM : JsNumber} {URLC : JsURL} {PROTO : JsPrototype} {DATE : JsDate}.

(** *** The time range *)

Lemma timeRange_refused_general (timeRange : TimeRange) :
  timeRange_refused timeRange
  = negb (regex_test ISO_8601 (tr_start timeRange)
          && regex_test ISO_8601 (tr_end timeRange)).
Proof.
  unfold timeRange_refused.
  pose proof (ISO_8601_FULL_included (tr_start timeRange)) as H1.
  pose proof (ISO_8601_FULL_included (tr_end timeRange)) as H2.
  destruct (regex_test ISO_8601_FULL (tr_start timeRange));
    destruct (regex_test ISO_8601_FULL (tr_end timeRange));
    destruct (regex_test ISO_8601 (tr_start timeRange));
    destruct (regex_test ISO_8601 (tr_end timeRange));
    try reflexivity;
    try (specialize (H1 eq_refl); discriminate);
    try (specialize (H2 eq_refl); discriminate).
Qed.

(** X22.  The validation of a time range.  Every string of the full pattern
    is a string of the general pattern, so a range is refused exactly when
    its start or its end is not of the general ISO 8601 pattern; a refused
    range makes [fetchCalendarObjects] and [freeBusyQuery] fail before any
    request and before the calendar is looked at, and [freeBusyQuery] fails
    without a range. *)
Theorem timeRange_validation :
  (forall s, regex_test ISO_8601_FULL s = true -> regex_test ISO_8601 s = true)
  /\ (forall timeRange,
         timeRange_refused timeRange
         = negb (regex_test ISO_8601 (tr_start timeRange)
                 && regex_test ISO_8601 (tr_end timeRange)))
  /\ (forall E calendar objectUrls customFilters timeRange headers expand
             urlFilter url depth,
         timeRange_refused timeRange = true ->
         fetchCalendarObjects E calendar objectUrls customFilters
                              (Some timeRange) headers expand urlFilter
         = Throw "invalid timeRange format, not in ISO8601"
         /\ freeBusyQuery E url (Some timeRange) depth headers
            = Throw "invalid timeRange format, not in ISO8601")
  /\ (forall E url depth headers,
         freeBusyQuery E url None depth headers
         = Throw "timeRange is required").
Proof.
  split; [exact ISO_8601_FULL_included|].
  split; [exact timeRange_refused_general|]. split.
  - intros E calendar objectUrls customFilters timeRange headers expand
           urlFilter url depth H.
    unfold fetchCalendarObjects, freeBusyQuery. rewrite H. split; reflexivity.
  - reflexivity.
Qed.

(** *** [fetchCalendarObjects] and [fetchVCards] *)

Lemma object_paths_dropped (base : string) (urlFilter : string -> bool)
      (urls : list string) :
  Forall (fun u => (startsWith u "http" || is_empty u) = true
                   /\ urlFilter u = false) urls ->
  object_paths base urlFilter (map JStr urls) = Ok [].
Proof.
  intros F. unfold object_paths.
  assert (mapM (full_url base) (map JStr urls) = Ok urls) as M.
  { induction F as [|u us [Hu _] _ IH]; simpl; [reflexivity|].
    rewrite Hu. cbn [bind]. now rewrite IH. }
  rewrite M. cbn [bind]. clear M.
  assert (filter urlFilter urls = []) as N.
  { induction F as [|u us [_ Hu] _ IH]; simpl; [reflexivity|].
    now rewrite Hu. }
  rewrite N. reflexivity.
Qed.

(** X23.  Given object urls that are all full (absolute or empty),
    [fetchCalendarObjects] drops the urls without [.ics] and [fetchVCards]
    the empty urls; when no url is left, no request is made and the result
    is the empty list, whatever the transport would answer. *)
Theorem fetchCalendarObjects_nothing_to_fetch (E : Env)
        (collection : DAVCollection) (urls : list string)
        (customFilters : option JsVal) (headers : option Obj)
        (expand : bool) :
  c_url collection <> "" ->
  (Forall (fun u => not_an_ics_url u = true) urls ->
   fetchCalendarObjects E (Some collection) (Some urls) customFilters None
                        headers expand None = Ok [])
  /\ (Forall (fun u => u = "") urls ->
      fetchVCards E (Some collection) headers (Some urls) None = Ok []).
Proof.
  intros U. apply is_empty_false in U. split; intros F.
  - unfold fetchCalendarObjects, require_collection. rewrite U.
    cbn [negb bind].
    assert (forall X : Res JsVal,
               (filters <- X ;;
                urls0 <- Ok (map JStr urls) ;;
                calendarObjectUrls <-
                  object_paths (c_url collection)
                               (fun url => includes url ".ics") urls0 ;;
                calendarObjectResults <-
                  match calendarObjectUrls with
                  | [] => Ok []
                  | _ :: _ =>
                      expansion <- Ok [] ;;
                      calendarMultiGet E
                        {| mg_url := c_url collection;
                           mg_props :=
                             JObj [(DAVNamespaceShort.DAV ++ ":getetag",
                                    JObj []);
                                   (DAVNamespaceShort.CALDAV
                                      ++ ":calendar-data", JObj expansion)];
                           mg_objectUrls := map JStr calendarObjectUrls;
                           mg_filters := JUndef;
                           mg_timezone := JUndef;
                           mg_depth := JStr "1";
                           mg_headers := headers |}
                  end ;;
                mapM (to_calendarObject collection) calendarObjectResults)
               = (filters <- X ;; Ok [])) as G.
    { intros X. destruct X as [f|e]; cbn [bind]; [|reflexivity].
      rewrite object_paths_dropped; [reflexivity|].
      eapply Forall_impl; [|exact F]. intros u Hu. unfold not_an_ics_url in Hu.
      apply andb_true_iff in Hu. destruct Hu as [H1 H2].
      apply negb_true_iff in H2. auto. }
    destruct customFilters as [f|]; [apply (G (Ok f))|].
    apply (G (default_filters None)).
  - unfold fetchVCards, require_collection. rewrite U. cbn [negb bind].
    rewrite object_paths_dropped; [reflexivity|].
    eapply Forall_impl; [|exact F]. intros u ->. split; reflexivity.
Qed.

(** *** [fetchAddressBooks] *)

Lemma is_addressbook_keys (r : DAVResponse) :
  is_addressbook r = true ->
  exists keys, Object_keys (props_get r "resourcetype") = Ok keys.
Proof.
  unfold is_addressbook, Object_keys, nullish_or.
  destruct (nullish (props_get r "resourcetype")); [discriminate|].
  intros _. eexists. reflexivity.
Qed.

(** X24.  On a home whose address book responses have an [href] that
    converts to a string and resolves against the root url and a report set the server answers,
    [fetchAddressBooks] returns one address book for each response whose
    resourcetype contains addressbook, in the order of the responses, and
    none for the others; reading the resourcetype and the display name of
    such a response does not fail. *)
Theorem fetchAddressBooks_returns_books (E : Env) (headers : option Obj)
        (account : DAVAccount) (res : list DAVResponse) :
  hasFields account ["homeUrl"; "rootUrl"] = true ->
  propfind E (match homeUrl account with Some h => h | None => "" end)
           addressBook_props (JStr "1") headers None = Ok res ->
  (forall r, In r res -> is_addressbook r = true ->
             exists h u, href_text r = Ok h
                         /\ URL_new h (Some (rootUrl_of account)) = Ok u) ->
  (forall r addr, In r res -> to_addressBook account r = Ok addr ->
                  exists reports,
                    supportedReportSet E addr headers None = Ok reports) ->
  exists books,
    fetchAddressBooks E headers (Some account) None = Ok books
    /\ Forall2 (addressBook_of E headers account)
               (filter is_addressbook res) books.
Proof.
  intros HA HP HU HR. unfold fetchAddressBooks, require_account.
  rewrite HA. cbn [bind]. rewrite HP. cbn [bind].
  set (kept := filter is_addressbook res).
  assert (forall r, In r kept ->
            exists c, to_addressBook account r = Ok c
                      /\ exists reports,
                          supportedReportSet E c headers None = Ok reports)
    as K.
  { intros r Hr. apply filter_In in Hr. destruct Hr as [Hr Hb].
    destruct (HU r Hr Hb) as [h [u [Hh Hu]]].
    destruct (is_addressbook_keys r Hb) as [keys Hk].
    assert (exists c, to_addressBook account r = Ok c) as [c Hc].
    { unfold to_addressBook. unfold rootUrl_of in Hu. rewrite Hh.
      cbn [bind]. rewrite Hu. cbn [bind]. rewrite Hk. cbn [bind].
      eexists. reflexivity. }
    exists c. split; [exact Hc|]. exact (HR r c Hr Hc). }
  destruct (mapM_total (to_addressBook account)
              (fun r c => exists reports,
                   supportedReportSet E c headers None = Ok reports) kept)
    as [cs [Hcs Fcs]].
  { intros r Hr. destruct (K r Hr) as [c [H1 H2]]. eauto. }
  rewrite Hcs. cbn [bind].
  pose proof (mapM_Forall2 _ _ Hcs) as Fmap. clear Hcs K.
  induction Fmap as [|r c rs cs' Hrc Frest IH]; simpl.
  - exists []. split; [reflexivity | constructor].
  - inversion Fcs as [|? ? ? ? [reports Hrep] Fcs']; subst.
    destruct (IH Fcs') as [books [Hbooks Fbooks]].
    rewrite Hrep. cbn [bind]. rewrite Hbooks. cbn [bind].
    exists (with_reports c reports :: books). split; [reflexivity|].
    constructor; [|assumption]. exists c, reports. auto.
Qed.

(** *** [createAccount] *)

Lemma bind_Ok {A B : Type} (c : Res A) (k : A -> Res B) (b : B) :
  bind c k = Ok b -> exists a, c = Ok a /\ k a = Ok b.
Proof. destruct c as [a|e]; simpl; [eauto | discriminate]. Qed.

Lemma createAccount_urls_spec (E : Env) (account : DAVAccount)
      (headers : option Obj) (a : DAVAccount) :
  createAccount_urls E account headers = Ok a ->
  exists root principal home,
    serviceDiscovery E account headers = Ok root
    /\ fetchPrincipalUrl E (with_rootUrl account root) headers = Ok principal
    /\ fetchHomeUrl E (with_principalUrl (with_rootUrl account root) principal)
                    headers = Ok home
    /\ a = with_homeUrl
             (with_principalUrl (with_rootUrl account root) principal) home
    /\ root <> "" /\ principal <> "".
Proof.
  unfold createAccount_urls. intros H.
  apply bind_Ok in H. destruct H as [root [H1 H]].
  apply bind_Ok in H. destruct H as [principal [H2 H]].
  apply bind_Ok in H. destruct H as [home [H3 H]].
  inversion H; subst; clear H. exists root, principal, home.
  repeat split; try assumption.
  - intros ->. unfold fetchPrincipalUrl, require_fields in H2.
    simpl in H2. discriminate.
  - intros ->. unfold fetchHomeUrl, require_fields in H3.
    simpl in H3. discriminate.
Qed.

(** X25.  An account [createAccount] returns has the type, the server url
    and the proxy url of the account given; its root url is the result of
    [serviceDiscovery], its principal url the result of [fetchPrincipalUrl]
    on the account with that root url, its home url the result of
    [fetchHomeUrl] on the account with both, and the root and principal urls
    are not empty.  Without loading, the calendars and the address books are
    those of the account given; asking for the objects loads the collections
    too. *)
Theorem createAccount_urls_in_order (E : Env) (given : LoadedAccount)
        (headers : option Obj) (loadCollections loadObjects : bool)
        (loaded : LoadedAccount) :
  createAccount E given headers loadCollections loadObjects = Ok loaded ->
  let account := la_account given in
  (exists root principal home,
      serviceDiscovery E account headers = Ok root
      /\ fetchPrincipalUrl E (with_rootUrl account root) headers
         = Ok principal
      /\ fetchHomeUrl E
           (with_principalUrl (with_rootUrl account root) principal) headers
         = Ok home
      /\ rootUrl (la_account loaded) = Some root
      /\ principalUrl (la_account loaded) = Some principal
      /\ homeUrl (la_account loaded) = Some home
      /\ root <> "" /\ principal <> "")
  /\ accountType (la_account loaded) = accountType account
  /\ serverUrl (la_account loaded) = serverUrl account
  /\ proxyUrl (la_account loaded) = proxyUrl account
  /\ (loadCollections || loadObjects = false ->
      calendars (la_account loaded) = calendars account
      /\ la_addressBooks loaded = la_addressBooks given)
  /\ createAccount E given headers false true
     = createAccount E given headers true true.
Proof.
  intros H account. unfold createAccount in H. fold account in H.
  cbv zeta in H.
  apply bind_Ok in H. destruct H as [a [HU H]].
  apply createAccount_urls_spec in HU.
  destruct HU as [root [principal [home [H1 [H2 [H3 [Ha [N1 N2]]]]]]]].
  apply bind_Ok in H. destruct H as [l [HL H]].
  assert (rootUrl (la_account l) = Some root
          /\ principalUrl (la_account l) = Some principal
          /\ homeUrl (la_account l) = Some home
          /\ accountType (la_account l) = accountType account
          /\ serverUrl (la_account l) = serverUrl account
          /\ proxyUrl (la_account l) = proxyUrl account
          /\ (loadCollections || loadObjects = false ->
              calendars (la_account l) = calendars account
              /\ la_addressBooks l = la_addressBooks given)) as L.
  { destruct (loadCollections || loadObjects).
    - destruct (accountType account) as [[|]|] eqn:T.
      + apply bind_Ok in HL. destruct HL as [cals [_ HL]].
        inversion HL; subst. simpl.
        repeat split; try reflexivity; try assumption; discriminate.
      + apply bind_Ok in HL. destruct HL as [addrs [_ HL]].
        inversion HL; subst. simpl.
        repeat split; try reflexivity; try assumption; discriminate.
      + inversion HL; subst. simpl.
        repeat split; try reflexivity; try assumption; discriminate.
    - inversion HL; subst. simpl. repeat split; reflexivity. }
  destruct L as [L1 [L2 [L3 [L4 [L5 [L6 L7]]]]]].
  assert (rootUrl (la_account loaded) = rootUrl (la_account l)
          /\ principalUrl (la_account loaded) = principalUrl (la_account l)
          /\ homeUrl (la_account loaded) = homeUrl (la_account l)
          /\ accountType (la_account loaded) = accountType (la_account l)
          /\ serverUrl (la_account loaded) = serverUrl (la_account l)
          /\ proxyUrl (la_account loaded) = proxyUrl (la_account l)
          /\ (loadObjects = false -> loaded = l)) as P.
  { destruct loadObjects.
    - destruct (accountType account) as [[|]|].
      + destruct (calendars (la_account l)).
        * apply bind_Ok in H. destruct H as [cals' [_ H]].
          inversion H; subst. simpl.
          repeat split; try reflexivity; discriminate.
        * inversion H; subst. repeat split; try reflexivity; discriminate.
      + destruct (la_addressBooks l).
        * apply bind_Ok in H. destruct H as [addrs' [_ H]].
          inversion H; subst. simpl.
          repeat split; try reflexivity; discriminate.
        * inversion H; subst. repeat split; try reflexivity; discriminate.
      + inversion H; subst. repeat split; try reflexivity; discriminate.
    - inversion H; subst. repeat split; reflexivity. }
  destruct P as [P1 [P2 [P3 [P4 [P5 [P6 P7]]]]]].
  split.
  { exists root, principal, home. rewrite P1, P2, P3. auto 10. }
  split; [now rewrite P4|]. split; [now rewrite P5|].
  split; [now rewrite P6|]. split; [|reflexivity].
  intros Hf. pose proof Hf as Hf'. apply orb_false_iff in Hf'.
  destruct Hf' as [_ Hlo]. rewrite (P7 Hlo). exact (L7 Hf).
Qed.

End ObjectProperties.

(** ** The code on the examples *)

Section Examples.

#[local] Existing Instance RefNumber.
#[local] Existing Instance RefURL.
#[local] Existing Instance RefPrototype.
#[local] Existing Instance RefDate.

Ltac distinct_keys := repeat constructor; simpl; intuition discriminate.

(** *** Scenarios of the specification *)

(** Scenario 1: discovery follows the redirect of the well-known url. *)
Example scenario_discovery_redirect :
  serviceDiscovery redirect_env new_account None = Ok "https://ex.com/dav/".
Proof. reflexivity. Qed.

(** Scenario 3: the changed object is updated, the new one created, none
    deleted. *)
Example scenario_basic_mutated :
  diff_updated local_s3 remote_s3 = Ok [object "/c/1.ics" (JStr "b")]
  /\ diff_created local_s3 remote_s3 = Ok [object "/c/2.ics" (JStr "c")]
  /\ diff_deleted_basic local_s3 remote_s3 = Ok []
  /\ diff_unchanged local_s3 remote_s3 = Ok [].
Proof. repeat split. Qed.

(** Scenario 3 as a run: the server has another ctag, the snapshot is
    replaced by unchanged, created and updated, and the new ctag is
    stored. *)
Example scenario_basic_dirty :
  isCollectionDirty (canned_env (getctag_answer "ctag-2")) clean_calendar None
  = Ok dirty_answer
  /\ smartCollectionSync (canned_env (getctag_answer "ctag-2")) clean_calendar
                         None None (Some example_account) false
     = Ok (with_ctag
             (with_objects clean_calendar
                (Snapshot (Some [object "/c/2.ics" (JStr "c");
                                 object "/c/1.ics" (JStr "b")])))
             (JStr "ctag-2")).
Proof. split; reflexivity. Qed.

(** Scenario 4: the webdav strategy with a deleted object. *)
Example scenario_webdav_delete :
  synced_view (smartCollectionSync (canned_env report_s4) calendar_s4 None None
                                   (Some example_account) true)
  = Some (ObjectDiff
            [ {| url := JStr "/c/3.ics"; etag := JStr "c1";
                 data := Some (JStr "BEGIN:VCALENDAR 3") |} ]
            [ {| url := JStr "/c/1.ics"; etag := JStr "a2";
                 data := Some (JStr "BEGIN:VCALENDAR 1") |} ]
            [ {| url := JStr "/c/2.ics"; etag := JStr ""; data := None |} ],
          JStr "token-2").
Proof. reflexivity. Qed.

(** Scenario 4 in the list form. *)
Example scenario_webdav_list :
  choose_method calendar_s4 None = webdav
  /\ synced_view (smartCollectionSync (canned_env report_s4) calendar_s4 None
                                      None (Some example_account) false)
     = Some (Snapshot
               (Some [ {| url := JStr "/c/3.ics"; etag := JStr "c1";
                          data := Some (JStr "BEGIN:VCALENDAR 3") |};
                       {| url := JStr "/c/1.ics"; etag := JStr "a2";
                          data := Some (JStr "BEGIN:VCALENDAR 1") |} ]),
             JStr "token-2").
Proof. split; reflexivity. Qed.

(** An href that the decoder read as a number: the object is created
    against an empty snapshot, and the comparison with a local url
    throws. *)
Example scenario_numbered_href :
  diff_created [] [numbered_object] = Ok [numbered_object]
  /\ diff_created local_s3 [numbered_object] = Throw TypeError
  /\ isCollectionDirty
       (canned_env (multistatus [JObj [("href", nativeType "12345")]]))
       work_calendar None
     = Throw TypeError.
Proof. repeat split. Qed.

(** Scenario 5: the journal calendar is kept, the calendar of messages is
    dropped. *)
Example scenario_fetch_calendars_filters :
  match fetchCalendars (canned_env journal_and_messages) None
                       (Some example_account) None with
  | Ok cals => map (fun c : DAVCollection => c_url c) cals
               = ["https://ex.com/cal/home/notes/"]
  | Throw _ => False
  end.
Proof. vm_compute. reflexivity. Qed.

(** *** C1 *)

(** C1 at a call with a [proxyUrl]: the request goes to the constant
    prefix and the url, not to [proxyUrl + url]. *)
Lemma davRequest_proxyUrl_not_used :
  dr_proxyUrl proxied_request = Some "https://proxy.example/"
  /\ davRequest echo_env proxied_request
     = Throw ("http://localhost:8001/" ++ dr_url proxied_request)
  /\ davRequest echo_env proxied_request
     <> Throw ("https://proxy.example/" ++ dr_url proxied_request).
Proof.
  repeat split. intros H.
  assert (davRequest echo_env proxied_request
          = Throw ("http://localhost:8001/" ++ dr_url proxied_request)) as E
    by reflexivity.
  rewrite E in H. injection H as H. vm_compute in H. discriminate H.
Qed.

(** *** C2 *)

(** C2 at a calendar that did not change: the remote calendar has the url,
    the syncToken and the ctag of the local one, and the returned list is
    empty. *)
Lemma syncCalendars_drops_unchanged :
  fetchCalendars (canned_env work_home) None (Some example_account) None
  = Ok [work_calendar]
  /\ urlContains (c_url work_calendar) (c_url work_calendar) = true
  /\ tokens_differ work_calendar work_calendar = false
  /\ syncCalendars (canned_env work_home) (Some [work_calendar])
                   (Some example_account) false None
     = Ok (CalendarsList []).
Proof. repeat split. Qed.

(** *** C3 *)

(** C3 as stated fails on its third part: a remote card without an etag
    that matches a local card is in none of the three lists; of two remote
    objects that match one local object only the first is represented; and
    [urlContains] does not identify a created object with itself when its
    url is no string. *)
Lemma diff_sets_as_specified_fails :
  (diff_created local_card remote_card = Ok []
   /\ diff_updated local_card remote_card = Ok []
   /\ diff_deleted_basic local_card remote_card = Ok []
   /\ diff_unchanged local_card remote_card = Ok []
   /\ ~ diff_sets_as_specified [] [] [] [] remote_card)
  /\ (diff_created local_path remote_hosts = Ok []
      /\ diff_updated local_path remote_hosts
         = Ok [object "https://a.example/c/1.ics" (JStr "b")]
      /\ diff_deleted_basic local_path remote_hosts = Ok []
      /\ diff_unchanged local_path remote_hosts = Ok []
      /\ ~ diff_sets_as_specified
             [] [object "https://a.example/c/1.ics" (JStr "b")] [] []
             remote_hosts)
  /\ (diff_created [] [numbered_object] = Ok [numbered_object]
      /\ diff_updated [] [numbered_object] = Ok []
      /\ diff_deleted_basic [] [numbered_object] = Ok []
      /\ diff_unchanged [] [numbered_object] = Ok []
      /\ ~ diff_sets_as_specified [numbered_object] [] [] []
                                  [numbered_object]).
Proof.
  split; [|split]; repeat (split; [reflexivity|]).
  3:{ intros [_ [_ [H _]]].
      destruct (H numbered_object (or_introl eq_refl)) as [b [Hb Hs]].
      destruct Hb as [<- | []]. discriminate Hs. }
  all: intros [_ [_ [_ H]]].
  - destruct (H (object "/c/1.vcf" JUndef) (or_introl eq_refl)) as [b [Hb _]].
    exact Hb.
  - destruct (H (object "https://b.example/c/1.ics" (JStr "c"))
                (or_intror (or_introl eq_refl))) as [b [Hb Hs]].
    destruct Hb as [<- | []].
    assert (same_urlb (object "https://b.example/c/1.ics" (JStr "c"))
                      (object "https://a.example/c/1.ics" (JStr "b"))
            = false) as N by (vm_compute; reflexivity).
    apply same_urlb_spec in Hs. rewrite Hs in N. discriminate N.
Qed.

(** In the webdav strategy the url of a deleted object can be the url of
    an updated one: the placeholders of the hrefs reported as gone are
    compared with nothing. *)
Example webdav_url_deleted_and_updated :
  diff_updated local_s3 remote_s3 = Ok [object "/c/1.ics" (JStr "b")]
  /\ diff_deleted_webdav [JStr "/c/1.ics"]
     = [ {| url := JStr "/c/1.ics"; etag := JStr ""; data := None |} ]
  /\ same_url {| url := JStr "/c/1.ics"; etag := JStr ""; data := None |}
              (object "/c/1.ics" (JStr "b")).
Proof. repeat split. Qed.

(** Scenario 3 with a deleted href: the remote etags are non-empty and
    each local object has one match. *)
Lemma smartCollectionSync_diff_sets_witness :
  diff_created local_s3 remote_s3 = Ok [object "/c/2.ics" (JStr "c")]
  /\ diff_updated local_s3 remote_s3 = Ok [object "/c/1.ics" (JStr "b")]
  /\ diff_unchanged local_s3 remote_s3 = Ok []
  /\ diff_deleted_basic local_s3 remote_s3 = Ok []
  /\ remote_s3 = map (remote_object (Some caldav)) listing_s3
  /\ etags_nonempty remote_s3 = true
  /\ one_match local_s3 remote_s3 = true
  /\ disjoint [object "/c/2.ics" (JStr "c")] [object "/c/1.ics" (JStr "b")]
  /\ disjoint [] [object "/c/2.ics" (JStr "c"); object "/c/1.ics" (JStr "b")]
  /\ disjoint (diff_deleted_webdav [JStr "/c/3.ics"])
              [object "/c/2.ics" (JStr "c"); object "/c/1.ics" (JStr "b")]
  /\ incl [object "/c/2.ics" (JStr "c"); object "/c/1.ics" (JStr "b")]
          remote_s3
  /\ forall ro, In ro remote_s3 ->
       In ro [object "/c/2.ics" (JStr "c")]
       \/ exists o, In o [object "/c/1.ics" (JStr "b")] /\ same_url ro o.
Proof.
  assert (diff_created local_s3 remote_s3 = Ok [object "/c/2.ics" (JStr "c")])
    as C by reflexivity.
  assert (diff_updated local_s3 remote_s3 = Ok [object "/c/1.ics" (JStr "b")])
    as U by reflexivity.
  assert (diff_unchanged local_s3 remote_s3 = Ok []) as N by reflexivity.
  assert (remote_s3 = map (remote_object (Some caldav)) listing_s3) as R
      by reflexivity.
  destruct (smartCollectionSync_diff_sets (Some caldav) local_s3 remote_s3
              listing_s3 [JStr "/c/3.ics"] C U N)
    as [H1 [H2 [H3 [H4 [_ H6]]]]].
  split; [exact C|]. split; [exact U|]. split; [exact N|].
  split; [reflexivity|]. split; [exact R|].
  split; [reflexivity|]. split; [reflexivity|].
  split; [exact H1|]. split; [exact (proj1 (H2 [] eq_refl))|].
  split; [exact (H3 R)|]. split; [exact H4|].
  exact (H6 eq_refl eq_refl).
Defined.

(** *** C4 *)

(** C4 as stated fails when the listing of the objects fails: the ctag of
    the server is the stored one, and the run throws what the
    [fetchObjects] hook throws.  It fails too on a snapshot with a url that
    is no string: the comparison of the urls throws. *)
Lemma clean_sync_as_specified_fails :
  isCollectionDirty (canned_env (getctag_answer "ctag-1"))
                    unreachable_calendar None
  = Ok clean_answer
  /\ smartCollectionSync (canned_env (getctag_answer "ctag-1"))
                         unreachable_calendar None None (Some example_account)
                         false
     = Throw "TypeError: Failed to fetch"
  /\ ~ clean_sync_as_specified (canned_env (getctag_answer "ctag-1"))
                               unreachable_calendar None None example_account
                               false
  /\ smartCollectionSync (canned_env (getctag_answer "ctag-1"))
                         numbered_calendar None None (Some example_account)
                         false
     = Throw TypeError
  /\ ~ clean_sync_as_specified (canned_env (getctag_answer "ctag-1"))
                               numbered_calendar None None example_account
                               false.
Proof.
  assert (isCollectionDirty (canned_env (getctag_answer "ctag-1"))
                            unreachable_calendar None
          = Ok clean_answer) as D by reflexivity.
  assert (smartCollectionSync (canned_env (getctag_answer "ctag-1"))
                              unreachable_calendar None None
                              (Some example_account) false
          = Throw "TypeError: Failed to fetch") as T.
  { apply clean_run_hook_throws with (dirty := clean_answer); reflexivity. }
  assert (isCollectionDirty (canned_env (getctag_answer "ctag-1"))
                            numbered_calendar None
          = Ok clean_answer) as D' by reflexivity.
  assert (smartCollectionSync (canned_env (getctag_answer "ctag-1"))
                              numbered_calendar None None
                              (Some example_account) false
          = Throw TypeError) as T' by reflexivity.
  split; [exact D|]. split; [exact T|]. split.
  - intros H. unfold clean_sync_as_specified in H. rewrite T in H.
    specialize (H eq_refl eq_refl
                  (ex_intro _ clean_answer (conj D eq_refl))).
    discriminate H.
  - split; [exact T'|].
    intros H. unfold clean_sync_as_specified in H. rewrite T' in H.
    specialize (H eq_refl eq_refl
                  (ex_intro _ clean_answer (conj D' eq_refl))).
    discriminate H.
Qed.

(** Scenario 2: the server reports the stored ctag, and the collection is
    returned as it is although the server lists other objects. *)
Lemma smartCollectionSync_clean_witness :
  hasFields example_account ["accountType"; "homeUrl"] = true
  /\ basic_chosen clean_calendar None
  /\ isCollectionDirty (canned_env (getctag_answer "ctag-1")) clean_calendar None
     = Ok clean_answer
  /\ isDirty clean_answer = false
  /\ fetchObjects_result clean_calendar None = Ok remote_s3
  /\ forallb url_is_string (local_objects clean_calendar) = true
  /\ forallb url_is_string remote_s3 = true
  /\ exists synced,
      smartCollectionSync (canned_env (getctag_answer "ctag-1")) clean_calendar
                          None None (Some example_account) false = Ok synced
      /\ synced = with_objects clean_calendar (Snapshot (objects clean_calendar))
      /\ ctag synced = ctag clean_calendar
      /\ syncToken synced = syncToken clean_calendar
      /\ c_url synced = c_url clean_calendar.
Proof.
  repeat (split; [reflexivity|]).
  apply smartCollectionSync_clean
    with (dirty := clean_answer) (remoteObjects := remote_s3); reflexivity.
Defined.

(** *** C6 *)

(** C6 as stated fails twice: the value returned is the [href] of the
    parsed [serverUrl], which ends in a slash the string does not have; and
    a [serverUrl] that does not parse makes [serviceDiscovery] throw. *)
Lemma serviceDiscovery_as_specified_fails :
  ~ serviceDiscovery_as_specified offline_env new_account
  /\ ~ serviceDiscovery_as_specified offline_env bare_host_account.
Proof.
  unfold serviceDiscovery_as_specified. split; intros H.
  - assert (serviceDiscovery offline_env new_account None
            = Ok "https://ex.com/") as E by reflexivity.
    rewrite E in H. injection H as H. discriminate H.
  - assert (serviceDiscovery offline_env bare_host_account None
            = Throw "TypeError: Invalid URL") as E by reflexivity.
    rewrite E in H. discriminate H.
Qed.

(** Without network the root url of [https://ex.com] is its [href]. *)
Lemma serviceDiscovery_falls_back_witness :
  URL_new (serverUrl new_account) None
  = Ok {| ru_protocol := "https:"; ru_hostname := "ex.com"; ru_port := "";
          ru_pathname := "/" |}
  /\ serviceDiscovery offline_env new_account None = Ok "https://ex.com/".
Proof.
  split; [reflexivity|].
  apply serviceDiscovery_falls_back
    with (endpoint := {| ru_protocol := "https:"; ru_hostname := "ex.com";
                         ru_port := ""; ru_pathname := "/" |})
         (uri := {| ru_protocol := "https:"; ru_hostname := "ex.com";
                    ru_port := ""; ru_pathname := "/.well-known/caldav" |}).
  - reflexivity.
  - reflexivity.
  - exact I.
Defined.

(** *** C7 *)

(** C7 at a response whose [error] element holds the text [false]: the
    decoded response has an [error] field, and [ok] is true. *)
Lemma text_error_response_is_ok :
  js_get_opt text_error_response "error" = nativeType "false"
  /\ nativeType "false" <> JUndef
  /\ ok_and_error (davRequest (canned_env (multistatus [text_error_response]))
                              proxied_request)
     = Some [(true, JBool false)].
Proof.
  repeat split. intros H.
  apply (f_equal (fun v => match v with JBool _ => true | _ => false end)) in H.
  discriminate H.
Qed.

(** *** C8 *)



(** *** C9 *)

(** C9 at a home with a calendar that has no
    [supported-calendar-component-set], or an empty one: [fetchCalendars]
    throws instead of returning the journal calendar alone. *)
Lemma fetchCalendars_throws_without_component_set :
  fetchCalendars (canned_env journal_and_plain) None (Some example_account)
                 None
  = Throw TypeError
  /\ fetchCalendars (canned_env journal_and_empty) None (Some example_account)
                    None
     = Throw TypeError.
Proof. split; reflexivity. Qed.

(** *** C10 *)

(** The stored ctag ["42"] against the server's [42]. *)
Lemma isCollectionDirty_numeric_ctag_witness :
  isNaN (Number "42") = false
  /\ ctag numeric_calendar = JStr (num_toString (Number "42"))
  /\ isCollectionDirty (canned_env (getctag_answer "42")) numeric_calendar None
     = Ok {| isDirty := true; newCtag := JStr "42" |}.
Proof.
  split; [reflexivity|]. split; [reflexivity|].
  eapply isCollectionDirty_numeric_ctag with (t := "42"); reflexivity.
Defined.

(** *** Further runs *)

(** A path matches the absolute url that ends in it. *)
Lemma urlContains_reflexive_symmetric_witness :
  "/c/1.ics" <> ""
  /\ urlContains "/c/1.ics" ("https://ex.com" ++ "/c/1.ics" ++ "/ ") = true.
Proof.
  split; [discriminate|].
  apply (proj2 (proj2 urlContains_reflexive_symmetric)). discriminate.
Defined.

(** The server answers for another collection. *)
Lemma isCollectionDirty_not_found_witness :
  isCollectionDirty (canned_env other_answer) work_calendar None
  = Throw "Collection does not exist on server".
Proof.
  eapply isCollectionDirty_not_found.
  - reflexivity.
  - intros r [<- | []]. reflexivity.
Defined.

(** A multistatus without responses. *)
Lemma collectionQuery_empty_witness :
  collectionQuery (canned_env empty_multistatus) "https://ex.com/c/"
                  (JObj []) (JStr "1") None None
  = Ok [].
Proof.
  eapply collectionQuery_empty.
  - reflexivity.
  - reflexivity.
Defined.

(** An account that has not been through discovery. *)
Lemma smartCollectionSync_requires_account_witness :
  hasFields account_without_home ["accountType"; "homeUrl"] = false
  /\ smartCollectionSync offline_env work_calendar None None
                         (Some account_without_home) false
     = Throw "account must have homeUrl before smartCollectionSync".
Proof.
  split; [reflexivity|].
  apply (proj2 (smartCollectionSync_requires_account
                  offline_env work_calendar None None false)).
  reflexivity.
Defined.

(** An empty [If-Match] is dropped, the caller's [Content-Type] is kept. *)
Lemma davRequest_headers_witness :
  keys_unique caller_headers
  /\ exists fetchInit sent,
      davRequest_fetch_init offline_env request_with_headers = Ok fetchInit
      /\ fi_headers fetchInit = Some sent
      /\ forall k,
          obj_lookup sent k
          = match obj_lookup caller_headers k with
            | Some v =>
                if js_truthy v then Some v
                else if String.eqb "Content-Type" k
                     then Some (JStr "text/xml;charset=UTF-8") else None
            | None =>
                if String.eqb "Content-Type" k
                then Some (JStr "text/xml;charset=UTF-8") else None
            end.
Proof.
  assert (keys_unique caller_headers) as U.
  { distinct_keys. }
  split; [exact U|].
  apply davRequest_headers; [reflexivity | exact U].
Defined.



(** *** The helpers and the account functions *)

(** A url with white space and a trailing slash equals the bare url. *)
Lemma urlEquals_spec_witness :
  stripped " https://ex.com/cal/ " = stripped "https://ex.com/cal"
  /\ urlEquals " https://ex.com/cal/ " "https://ex.com/cal" = true
  /\ urlContains " https://ex.com/cal/ " "https://ex.com/cal" = true.
Proof.
  split; [reflexivity|].
  assert (urlEquals " https://ex.com/cal/ " "https://ex.com/cal" = true) as H.
  { apply (proj2 (proj2 (proj2 urlEquals_spec)));
      [discriminate | discriminate | reflexivity]. }
  split; [exact H|].
  apply (proj1 (proj2 (proj2 urlEquals_spec))). exact H.
Defined.

(** The name of the report set property. *)
Lemma camelCase_spec_witness :
  is_word "r" = true
  /\ camelCase ("supported" ++ String "-" (String "r" "eport-set"))
     = camelCase "supported" ++ String (upper_char "r") (camelCase "eport-set")
  /\ camelCase "supported-report-set" = "supportedReportSet".
Proof.
  split; [reflexivity|]. split; [|reflexivity].
  apply (proj1 (proj2 camelCase_spec)). reflexivity.
Defined.

(** The account before discovery lacks its home url alone. *)
Lemma findMissingFieldNames_lists_missing_witness :
  Forall (fun f => f <> "") ["accountType"; "homeUrl"]
  /\ findMissingFieldNames account_without_home ["accountType"; "homeUrl"]
     = String.concat ","
         (filter (fun f => negb (account_field account_without_home f))
                 ["accountType"; "homeUrl"])
  /\ findMissingFieldNames account_without_home ["accountType"; "homeUrl"]
     = "homeUrl".
Proof.
  assert (Forall (fun f => f <> "") ["accountType"; "homeUrl"]) as F.
  { repeat constructor; discriminate. }
  split; [exact F|]. split; [|reflexivity].
  apply (proj1 (findMissingFieldNames_lists_missing account_without_home F)).
Defined.

(** The status line of a multistatus response. *)
Lemma davRequest_status_line_witness :
  statusRegex_exec ("HTTP/1.1" ++ String " " (of_nat 207
                                               ++ String " " "Multi-Status"))
  = Some (of_nat 207, "Multi-Status")
  /\ (Z.of_nat 207 < 2 ^ 53)%Z
  /\ parseInt10 (of_nat 207) = 207%Z.
Proof.
  split.
  - apply (proj1 davRequest_status_line).
    exists "HTTP/1.1", " "%char, " "%char. repeat split; discriminate.
  - split; [reflexivity|].
    apply (proj1 (proj1 (proj2 davRequest_status_line) 207)).
    reflexivity.
Defined.

(** Above [2^53] a numeral is read as the nearest number. *)
Example parseInt10_rounds :
  parseInt10 "9007199254740993" = 9007199254740992%Z
  /\ parseInt10 "9007199254740995" = 9007199254740996%Z.
Proof. split; vm_compute; reflexivity. Qed.

(** The caller clears [If-Match]: the update is unconditional. *)
Lemma updateObject_if_match_witness :
  keys_unique (spread_opt (Some client_headers))
  /\ exists sent,
      updateObject offline_env "https://ex.com/cal/home/work/1.ics"
                   (data_of stored_event) (etag stored_event)
                   (Some client_headers)
      = fetch offline_env
              ("http://localhost:8001/" ++ "https://ex.com/cal/home/work/1.ics")
              {| fi_method := "PUT"; fi_body := data_of stored_event;
                 fi_headers := Some sent; fi_redirect := None |}
      /\ obj_lookup sent "If-Match" = None
      /\ obj_lookup sent "authorization" = Some (JStr "Basic dTpw").
Proof.
  assert (keys_unique (spread_opt (Some client_headers))) as U
    by distinct_keys.
  split; [exact U|].
  destruct (updateObject_if_match offline_env
              "https://ex.com/cal/home/work/1.ics"
              (data_of stored_event) (etag stored_event) (Some client_headers)
              U)
    as [sent [H1 [_ H2]]].
  exists sent. split; [exact H1|]. split; rewrite H2; reflexivity.
Defined.

(** Without headers of the caller the etag of the object is the
    precondition. *)
Lemma updateCalendarObject_headers_witness :
  keys_unique (spread_opt None)
  /\ exists sent,
      updateCalendarObject offline_env stored_event None
      = fetch offline_env
              ("http://localhost:8001/" ++ "https://ex.com/cal/home/work/1.ics")
              {| fi_method := "PUT"; fi_body := JStr "BEGIN:VCALENDAR";
                 fi_headers := Some sent; fi_redirect := None |}
      /\ obj_lookup sent "If-Match" = Some (JStr "a1")
      /\ obj_lookup sent "content-type"
         = Some (JStr "text/calendar; charset=utf-8").
Proof.
  assert (keys_unique (spread_opt None)) as U by constructor.
  split; [exact U|].
  destruct (updateCalendarObject_headers offline_env stored_event None U)
    as [sent [sentCard [H1 [_ H2]]]].
  exists sent. split; [exact H1|].
  split; rewrite (proj1 (H2 _)); reflexivity.
Defined.

(** The attributes of a [propfind] body. *)
Lemma getDAVAttribute_known_witness :
  NoDup propfind_namespaces
  /\ getDAVAttribute propfind_namespaces
     = [("xmlns:c", JStr "urn:ietf:params:xml:ns:caldav");
        ("xmlns:ca", JStr "http://apple.com/ns/ical/");
        ("xmlns:cs", JStr "http://calendarserver.org/ns/");
        ("xmlns:card", JStr "urn:ietf:params:xml:ns:carddav");
        ("xmlns:d", JStr "DAV:")]
  /\ getDAVAttribute ["toString"]
     = [("function toString() { [native code] }", JStr "toString")]
  /\ getDAVAttribute ["urn:example"] = [("undefined", JStr "urn:example")].
Proof.
  assert (NoDup propfind_namespaces) as N by distinct_keys.
  split; [exact N|].
  assert (forall ns, In ns propfind_namespaces ->
                     In ns (map fst DAVAttributeMap)) as K.
  { intros ns H. simpl in H. simpl. tauto. }
  destruct (getDAVAttribute_known N K) as [H1 [_ [_ H4]]].
  split; [rewrite H1; reflexivity|].
  split; rewrite H4; try reflexivity;
    simpl; intuition discriminate.
Defined.

(** [prop] becomes [d:prop], and [d:prop] stays. *)
Lemma elementNameFn_adds_namespace_witness :
  elementNameFn (Some "d") "prop" = "d:prop"
  /\ elementNameFn (Some "d") (elementNameFn (Some "d") "prop")
     = elementNameFn (Some "d") "prop".
Proof.
  destruct (proj2 (proj2 elementNameFn_adds_namespace) "d" "p"%char "rop")
    as [H1 [_ H2]]; try reflexivity; [discriminate|].
  split; [apply H1; reflexivity | exact H2].
Defined.

(** Scenario 1 as a run. *)
Lemma serviceDiscovery_never_throws_witness :
  URL_new (serverUrl new_account) None
  = Ok {| ru_protocol := "https:"; ru_hostname := "ex.com"; ru_port := "";
          ru_pathname := "/" |}
  /\ exists href,
      serviceDiscovery redirect_env new_account None = Ok href
      /\ href = "https://ex.com/dav/".
Proof.
  split; [reflexivity|].
  destruct (serviceDiscovery_never_throws redirect_env new_account None
              (endpoint := ({| ru_protocol := "https:";
                               ru_hostname := "ex.com";
                               ru_port := ""; ru_pathname := "/" |}
                            : @URL RefURL))
              (uri := ({| ru_protocol := "https:"; ru_hostname := "ex.com";
                          ru_port := "";
                          ru_pathname := "/.well-known/caldav" |}
                       : @URL RefURL))
              eq_refl eq_refl) as [href [H _]].
  exists href. split; [exact H|].
  assert (serviceDiscovery redirect_env new_account None
          = Ok "https://ex.com/dav/") as R by reflexivity.
  rewrite R in H. injection H as H. symmetry. exact H.
Defined.

(** A missing root is no error, rejected credentials are. *)
Lemma fetchPrincipalUrl_http_error_witness :
  hasFields example_account ["rootUrl"] = true
  /\ fetchPrincipalUrl not_found_env example_account None
     = Ok "https://ex.com/"
  /\ fetchPrincipalUrl unauthorized_env example_account None
     = Throw "Invalid credentials".
Proof.
  split; [reflexivity|]. split.
  - rewrite fetchPrincipalUrl_http_error
      with (davResponse :=
              not_found_response "http://localhost:8001/https://ex.com/");
      [reflexivity | reflexivity | intros init; reflexivity | reflexivity].
  - rewrite fetchPrincipalUrl_http_error
      with (davResponse :=
              unauthorized_response "http://localhost:8001/https://ex.com/");
      [reflexivity | reflexivity | intros init; reflexivity | reflexivity].
Defined.

Lemma fetchHomeUrl_http_error_witness :
  hasFields example_account ["principalUrl"; "rootUrl"] = true
  /\ fetchHomeUrl not_found_env example_account None
     = Throw "cannot find homeUrl".
Proof.
  split; [reflexivity|].
  apply fetchHomeUrl_http_error
    with (davResponse :=
            not_found_response
              "http://localhost:8001/https://ex.com/principals/me/");
    [reflexivity | intros init; reflexivity | reflexivity].
Defined.


(** *** Address books, objects and accounts *)

(** A date is accepted by the general pattern alone, a word by none. *)
Lemma timeRange_validation_witness :
  regex_test ISO_8601 "2024-01-01" = true
  /\ regex_test ISO_8601_FULL "2024-01-01" = false
  /\ timeRange_refused open_range = true
  /\ fetchCalendarObjects offline_env None None None (Some open_range) None
                          false None
     = Throw "invalid timeRange format, not in ISO8601"
  /\ freeBusyQuery offline_env "https://ex.com/cal/home/work/"
                   (Some open_range) (JStr "1") None
     = Throw "invalid timeRange format, not in ISO8601".
Proof.
  split; [reflexivity|]. split; [reflexivity|].
  assert (timeRange_refused open_range = true) as R by reflexivity.
  split; [exact R|].
  apply (proj1 (proj2 (proj2 timeRange_validation))). exact R.
Defined.

(** A text file and an empty url are not fetched. *)
Lemma fetchCalendarObjects_nothing_to_fetch_witness :
  c_url work_calendar <> ""
  /\ Forall (fun u => not_an_ics_url u = true) other_urls
  /\ fetchCalendarObjects offline_env (Some work_calendar) (Some other_urls)
                          None None None false None = Ok [].
Proof.
  assert (c_url work_calendar <> "") as U by discriminate.
  assert (Forall (fun u => not_an_ics_url u = true) other_urls) as F.
  { repeat constructor. }
  split; [exact U|]. split; [exact F|].
  destruct fetchCalendarObjects_nothing_to_fetch
    with (E := offline_env) (collection := work_calendar)
         (urls := other_urls) (customFilters := @None JsVal)
         (headers := @None Obj) (expand := false) as [P _];
    [exact U | exact (P F)].
Defined.

(** The home collection is no address book, the contacts are one. *)
Lemma fetchAddressBooks_returns_books_witness :
  exists books,
    fetchAddressBooks (canned_env contacts_home) None (Some card_account) None
    = Ok books
    /\ Forall2 (addressBook_of (canned_env contacts_home) None card_account)
               (filter is_addressbook home_contacts) books
    /\ map (fun b : DAVCollection => c_url b) books
       = ["https://ex.com/card/home/contacts/"].
Proof.
  destruct (fetchAddressBooks_returns_books (canned_env contacts_home) None
              card_account (res := home_contacts))
    as [books [H F]].
  - reflexivity.
  - reflexivity.
  - intros r Hr _. unfold home_contacts in Hr. simpl in Hr.
    destruct Hr as [<- | [<- | []]]; eexists; eexists; split; reflexivity.
  - intros r addr _ _. eexists. reflexivity.
  - exists books. split; [exact H|]. split; [exact F|].
    assert (fetchAddressBooks (canned_env contacts_home) None
                              (Some card_account) None
            = Ok (match fetchAddressBooks (canned_env contacts_home) None
                                          (Some card_account) None with
                  | Ok bs => bs
                  | Throw _ => []
                  end)) as R by reflexivity.
    rewrite R in H. injection H as <-. reflexivity.
Defined.

(** Discovery against a server that names the principal and the home. *)
Lemma createAccount_urls_in_order_witness :
  createAccount (canned_env principal_answer) given_account None false false
  = Ok discovered_account
  /\ exists root principal home,
      serviceDiscovery (canned_env principal_answer) new_account None = Ok root
      /\ rootUrl (la_account discovered_account) = Some root
      /\ principalUrl (la_account discovered_account) = Some principal
      /\ homeUrl (la_account discovered_account) = Some home
      /\ root <> "" /\ principal <> "".
Proof.
  assert (createAccount (canned_env principal_answer) given_account None false
                        false = Ok discovered_account) as R by reflexivity.
  split; [exact R|].
  destruct (createAccount_urls_in_order _ _ _ _ _ R)
    as [[root [principal [home [H1 [_ [_ [H4 [H5 [H6 [N1 N2]]]]]]]]]] _].
  exists root, principal, home. auto 10.
Defined.

(** The multistatus of one calendar gives one response; a status element
    with a child named [toString] makes the request throw. *)
Lemma davRequest_one_response_per_element_witness :
  (exists responses,
      davRequest (canned_env work_home) proxied_request = Ok responses
      /\ length responses = 1)
  /\ davRequest (canned_env (multistatus [odd_status_response]))
                proxied_request
     = Throw TypeError.
Proof.
  assert (mentions_xml
            (xml_response "http://localhost:8001/https://ex.com/dav/"
                          "<d:multistatus/>")) as X.
  { exists "application/xml; charset=utf-8". split; [reflexivity|].
    apply includes_spec. reflexivity. }
  split.
  - edestruct davRequest_one_response_per_element
      with (E := canned_env work_home) (params := proxied_request)
      as [H _];
      [reflexivity | reflexivity | reflexivity | exact X | discriminate
       | reflexivity | reflexivity | reflexivity |].
    destruct H as [responses [H [_ L]]].
    + repeat constructor. eexists. reflexivity.
    + exists responses. split; [exact H | exact L].
  - edestruct davRequest_one_response_per_element
      with (E := canned_env (multistatus [odd_status_response]))
           (params := proxied_request)
      as [_ H];
      [reflexivity | reflexivity | reflexivity | exact X | discriminate
       | reflexivity | reflexivity | reflexivity |].
    apply H. intros F. inversion F as [|? ? [line L] _]; subst.
    discriminate L.
Defined.

(** Two supported reports are read, a single one is not. *)
Lemma supportedReportSet_reports_witness :
  supportedReportSet (canned_env (reports_answer two_reports)) work_calendar
                     None None
  = Ok [JStr "syncCollection"; JStr "calendarMultiget"]
  /\ supportedReportSet
       (canned_env (reports_answer (report "syncCollection"))) work_calendar
       None None
     = Throw TypeError.
Proof.
  split.
  - destruct (supportedReportSet_reports
                (canned_env (reports_answer two_reports)) work_calendar None
                None (res := [reports_response two_reports]) eq_refl)
      as [_ H].
    destruct (H (reports_response two_reports) [] eq_refl) as [_ [H2 _]].
    apply (H2 [report "syncCollection"; report "calendarMultiget"]
              ["syncCollection"; "calendarMultiget"] eq_refl).
    repeat constructor; eexists; eexists; reflexivity.
  - destruct (supportedReportSet_reports
                (canned_env (reports_answer (report "syncCollection")))
                work_calendar None None
                (res := [reports_response (report "syncCollection")]) eq_refl)
      as [_ H].
    destruct (H (reports_response (report "syncCollection")) [] eq_refl)
      as [_ [_ H3]].
    apply (H3 [("report", JObj [("syncCollection", JObj [])])] eq_refl).
Defined.

(** A multistatus without responses: no result for a REPORT, a placeholder
    for a PROPFIND. *)
Lemma collectionQuery_no_responses_witness :
  collectionQuery (canned_env empty_multistatus) "https://ex.com/c/"
                  (JObj []) (JStr "1") None None
  = Ok []
  /\ exists placeholder,
      propfind (canned_env empty_multistatus) "https://ex.com/c/" (JObj [])
               (JStr "1") None None = Ok [placeholder]
      /\ raw placeholder = JUndef /\ status placeholder = 207%Z.
Proof.
  edestruct collectionQuery_no_responses
    with (E := canned_env empty_multistatus) (url := "https://ex.com/c/")
         (body := JObj []) (depth := JStr "1")
         (defaultNamespace := @None string) (callerHeaders := @None Obj)
         (davResponse :=
            xml_response "http://localhost:8001/https://ex.com/c/"
                         "<d:multistatus/>")
    as [H1 H2].
  - intros init. reflexivity.
  - reflexivity.
  - reflexivity.
  - reflexivity.
  - reflexivity.
  - left. reflexivity.
  - split; [exact H1|]. eexists. split; [exact (H2 eq_refl)|].
    split; reflexivity.
Defined.

End Examples.
